(** * Circuit breaker: decision engine, sliding window and slow-call detector

    A shallow embedding of [internal/circuitbreaker] (the breaker with
    [New], [Execute], [beforeRequest], [afterRequest] and the transition
    functions; [Config] and its defaults; state.go; context.go;
    sliding_window.go; the fallbacks) and of the handlers of
    [internal/middleware] that stand in front of it, with the properties of
    its specification that are checked against it and further properties of
    the code.

    Conventions of the embedding.
    - [uint32] and [uint64] fields are [Z] values whose wrap-around is written
      out ([u32], [u64]).
    - A [time.Time] is the number of nanoseconds since Go's zero time, so the
      zero [time.Time] is [0], [t.IsZero()] is [t =? 0], [a.Before(b)] is
      [a <? b] and [a.After(b)] is [b <? a]; a [time.Duration] is a [Z]
      number of nanoseconds.
    - Every method that takes the mutex is one atomic function on the record
      of the breaker; the instant returned by [time.Now()] inside the locked
      section is an explicit argument [now].
    - A Go [error] is an [option error], [None] being [nil]. *)

From Stdlib Require Import ZArith List Bool String Lia.
From Stdlib Require Import Uint63 PrimFloat.
From Stdlib Require FloatAxioms.
Import ListNotations.
Open Scope Z_scope.

(** ** Machine integers, time *)

Definition u32 (x : Z) : Z := x mod 2 ^ 32.
Definition u64 (x : Z) : Z := x mod 2 ^ 64.

Definition Time := Z.
Definition Duration := Z.

Definition Millisecond : Duration := 1000000.
Definition Second : Duration := 1000000000.

(** ** state.go *)

Inductive State := StateClosed | StateHalfOpen | StateOpen.

Definition State_eqb (a b : State) : bool :=
  match a, b with
  | StateClosed, StateClosed => true
  | StateHalfOpen, StateHalfOpen => true
  | StateOpen, StateOpen => true
  | _, _ => false
  end.

Definition State_String (s : State) : string :=
  match s with
  | StateClosed => "closed"
  | StateHalfOpen => "half-open"
  | StateOpen => "open"
  end.

Record Counts := mkCounts {
  Requests : Z;
  TotalSuccesses : Z;
  TotalFailures : Z;
  ConsecutiveSuccesses : Z;
  ConsecutiveFailures : Z
}.

(** [Counts{}], the zero value. *)
Definition Counts_zero : Counts := mkCounts 0 0 0 0 0.

(** The methods of [Counts] in state.go; breaker.go writes the same updates
    out on [cb.counts]. *)
Module CountsOps.
Definition onRequest (c : Counts) : Counts :=
  mkCounts (u32 (Requests c + 1)) (TotalSuccesses c) (TotalFailures c)
    (ConsecutiveSuccesses c) (ConsecutiveFailures c).

Definition onSuccess (c : Counts) : Counts :=
  mkCounts (Requests c) (u32 (TotalSuccesses c + 1)) (TotalFailures c)
    (u32 (ConsecutiveSuccesses c + 1)) 0.

Definition onFailure (c : Counts) : Counts :=
  mkCounts (Requests c) (TotalSuccesses c) (u32 (TotalFailures c + 1))
    0 (u32 (ConsecutiveFailures c + 1)).

Definition clear (c : Counts) : Counts := mkCounts 0 0 0 0 0.
End CountsOps.

(** ** Errors *)

Inductive error :=
| ErrCircuitOpen
| ErrTooManyRequests
| Canceled
| DeadlineExceeded
| Custom (msg : string).

Definition is_nil (err : option error) : bool :=
  match err with None => true | Some _ => false end.

(** ** Configuration *)

Record Config := mkConfig {
  MaxRequests : Z;
  Interval : Duration;
  Timeout : Duration;
  ReadyToTrip : option (Counts -> bool);
  (** [true] when the callback is not nil *)
  OnStateChange : bool;
  IsSuccessful : option (option error -> bool)
}.

(** [Config{}] *)
Definition Config_zero : Config := mkConfig 0 0 0 None false None.

(** ** The breaker *)

(** One invocation of the [onStateChange] callback: [(name, from, to)]. *)
Definition StateChange := (string * State * State)%type.

Record CircuitBreaker := mkCircuitBreaker {
  name : string;
  maxRequests : Z;
  interval : Duration;
  timeout : Duration;
  readyToTrip : Counts -> bool;
  (** [true] when the callback is not nil *)
  onStateChange : bool;
  state : State;
  generation : Z;
  counts : Counts;
  expiry : Time;
  (** the calls made to [onStateChange] so far, the latest first *)
  notified : list StateChange
}.

Definition with_state (cb : CircuitBreaker) (s : State) : CircuitBreaker :=
  mkCircuitBreaker (name cb) (maxRequests cb) (interval cb) (timeout cb)
    (readyToTrip cb) (onStateChange cb) s (generation cb) (counts cb)
    (expiry cb) (notified cb).

Definition with_generation (cb : CircuitBreaker) (g : Z) : CircuitBreaker :=
  mkCircuitBreaker (name cb) (maxRequests cb) (interval cb) (timeout cb)
    (readyToTrip cb) (onStateChange cb) (state cb) g (counts cb)
    (expiry cb) (notified cb).

Definition with_counts (cb : CircuitBreaker) (c : Counts) : CircuitBreaker :=
  mkCircuitBreaker (name cb) (maxRequests cb) (interval cb) (timeout cb)
    (readyToTrip cb) (onStateChange cb) (state cb) (generation cb) c
    (expiry cb) (notified cb).

Definition with_expiry (cb : CircuitBreaker) (e : Time) : CircuitBreaker :=
  mkCircuitBreaker (name cb) (maxRequests cb) (interval cb) (timeout cb)
    (readyToTrip cb) (onStateChange cb) (state cb) (generation cb) (counts cb)
    e (notified cb).

Definition with_notified (cb : CircuitBreaker) (l : list StateChange)
  : CircuitBreaker :=
  mkCircuitBreaker (name cb) (maxRequests cb) (interval cb) (timeout cb)
    (readyToTrip cb) (onStateChange cb) (state cb) (generation cb) (counts cb)
    (expiry cb) l.

(** The default trip predicate installed by [New]. *)
Definition defaultReadyToTrip (c : Counts) : bool :=
  5 <? ConsecutiveFailures c.

Definition toNewGeneration (cb : CircuitBreaker) (now : Time) : CircuitBreaker :=
  let cb := with_generation cb (u64 (generation cb + 1)) in
  let cb := with_counts cb Counts_zero in
  match state cb with
  | StateClosed =>
      if interval cb =? 0 then with_expiry cb 0
      else with_expiry cb (now + interval cb)
  | StateOpen => with_expiry cb (now + timeout cb)
  | StateHalfOpen => with_expiry cb 0
  end.

Definition setState (cb : CircuitBreaker) (s : State) (now : Time)
  : CircuitBreaker :=
  if State_eqb (state cb) s then cb
  else
    let prev := state cb in
    let cb := with_state cb s in
    let cb := toNewGeneration cb now in
    if onStateChange cb
    then with_notified cb ((name cb, prev, s) :: notified cb)
    else cb.

Definition currentState (cb : CircuitBreaker) (now : Time)
  : CircuitBreaker * State * Z :=
  let cb :=
    match state cb with
    | StateClosed =>
        if negb (expiry cb =? 0) && (expiry cb <? now)
        then toNewGeneration cb now else cb
    | StateOpen =>
        if expiry cb <? now then setState cb StateHalfOpen now else cb
    | StateHalfOpen => cb
    end in
  (cb, state cb, generation cb).

Definition onSuccess (cb : CircuitBreaker) (s : State) (now : Time)
  : CircuitBreaker :=
  match s with
  | StateClosed =>
      let c := counts cb in
      with_counts cb
        (mkCounts (Requests c) (u32 (TotalSuccesses c + 1)) (TotalFailures c)
                  (u32 (ConsecutiveSuccesses c + 1)) 0)
  | StateHalfOpen =>
      let c := counts cb in
      let cb := with_counts cb
        (mkCounts (Requests c) (u32 (TotalSuccesses c + 1)) (TotalFailures c)
                  (u32 (ConsecutiveSuccesses c + 1)) 0) in
      if maxRequests cb <=? ConsecutiveSuccesses (counts cb)
      then setState cb StateClosed now else cb
  | StateOpen => cb
  end.

Definition onFailure (cb : CircuitBreaker) (s : State) (now : Time)
  : CircuitBreaker :=
  match s with
  | StateClosed =>
      let c := counts cb in
      let cb := with_counts cb
        (mkCounts (Requests c) (TotalSuccesses c) (u32 (TotalFailures c + 1))
                  0 (u32 (ConsecutiveFailures c + 1))) in
      if readyToTrip cb (counts cb) then setState cb StateOpen now else cb
  | StateHalfOpen => setState cb StateOpen now
  | StateOpen => cb
  end.

Definition beforeRequest (cb : CircuitBreaker) (now : Time)
  : CircuitBreaker * Z * option error :=
  let '(cb, st, gen) := currentState cb now in
  if State_eqb st StateOpen then (cb, gen, Some ErrCircuitOpen)
  else if State_eqb st StateHalfOpen && (maxRequests cb <=? Requests (counts cb))
  then (cb, gen, Some ErrTooManyRequests)
  else
    let c := counts cb in
    (with_counts cb
       (mkCounts (u32 (Requests c + 1)) (TotalSuccesses c) (TotalFailures c)
                 (ConsecutiveSuccesses c) (ConsecutiveFailures c)),
     gen, None).

Definition afterRequest (cb : CircuitBreaker) (before : Z) (success : bool)
  (now : Time) : CircuitBreaker :=
  let '(cb, st, gen) := currentState cb now in
  if negb (gen =? before) then cb
  else if success then onSuccess cb st now else onFailure cb st now.

Definition New (nm : string) (config : Config) (now : Time) : CircuitBreaker :=
  let cb :=
    mkCircuitBreaker nm
      (if MaxRequests config =? 0 then 1 else MaxRequests config)
      (Interval config)
      (if Timeout config =? 0 then 60 * Second else Timeout config)
      (match ReadyToTrip config with
       | Some f => f
       | None => defaultReadyToTrip
       end)
      (OnStateChange config)
      StateClosed 0 Counts_zero 0 [] in
  toNewGeneration cb now.

(** What a unit of work does when it is run: it returns an error value, or
    it panics. *)
Inductive WorkResult :=
| Return (err : option error)
| Panic (v : string).

(** [Execute]: [t1] is the instant of admission, [t2] the instant of
    completion; a panic of the work goes through the deferred handler,
    which reports a failure and panics again. *)
Definition Execute (cb : CircuitBreaker) (fn : WorkResult) (t1 t2 : Time)
  : CircuitBreaker * WorkResult :=
  let '(cb, gen, err) := beforeRequest cb t1 in
  match err with
  | Some e => (cb, Return (Some e))
  | None =>
      match fn with
      | Panic v => (afterRequest cb gen false t2, Panic v)
      | Return err => (afterRequest cb gen (is_nil err) t2, Return err)
      end
  end.

Module Breaker.
(** [cb.State()] *)
Definition State (cb : CircuitBreaker) (now : Time)
  : CircuitBreaker * State :=
  let '(cb, st, _) := currentState cb now in (cb, st).

(** [cb.Counts()] *)
Definition Counts (cb : CircuitBreaker) : CircuitBreaker * Counts :=
  (cb, counts cb).

(** [cb.Name()] *)
Definition Name (cb : CircuitBreaker) : string := name cb.
End Breaker.

(** ** context.go *)

(** How the race of [ExecuteWithContext] between the token and the work is
    resolved.  [DoneFirst r]: the goroutine running the work finishes (with
    [r]) and the [select] takes the [done] branch, or the work panics before
    the token fires.  [CtxFirst cause later]: the [select] takes the
    [ctx.Done()] branch, [cause] being [ctx.Err()]; [later] is what the work,
    still running in its goroutine, does afterwards ([None]: it never
    finishes). *)
Inductive Race :=
| DoneFirst (r : WorkResult)
| CtxFirst (cause : error) (later : option WorkResult).

(** What becomes of a call of [ExecuteWithContext]: it returns an error
    value; or the process dies before it returns, from a panic in the
    goroutine, which nobody recovers; or it returns and the process dies
    later from such a panic. *)
Inductive CallResult :=
| Returned (err : option error)
| Crashed (v : string)
| ReturnedThenCrashed (err : option error) (v : string).

(** The error value the caller receives, when the call returns. *)
Definition returned (r : CallResult) : option (option error) :=
  match r with
  | Returned err => Some err
  | Crashed _ => None
  | ReturnedThenCrashed err _ => Some err
  end.

(** A call of [afterRequest]: the generation and the outcome it is given. *)
Definition Completion := (Z * bool)%type.

(** [ExecuteWithContext]: [t1] is the instant of admission, [t2] the instant
    of the first completion, [t3] the instant at which the work left in the
    background ends.  The result carries the breaker, what becomes of the
    call, and the calls of [afterRequest] in the order they are made. *)
Definition ExecuteWithContext (cb : CircuitBreaker) (race : Race)
  (t1 t2 t3 : Time) : CircuitBreaker * CallResult * list Completion :=
  let '(cb, gen, err) := beforeRequest cb t1 in
  match err with
  | Some e => (cb, Returned (Some e), [])
  | None =>
      match race with
      | DoneFirst (Return err) =>
          (afterRequest cb gen (is_nil err) t2, Returned err,
           [(gen, is_nil err)])
      | DoneFirst (Panic v) =>
          (afterRequest cb gen false t2, Crashed v, [(gen, false)])
      | CtxFirst cause later =>
          let cb := afterRequest cb gen false t2 in
          match later with
          | None => (cb, Returned (Some cause), [(gen, false)])
          | Some (Return _) => (cb, Returned (Some cause), [(gen, false)])
          | Some (Panic v) =>
              (afterRequest cb gen false t3,
               ReturnedThenCrashed (Some cause) v,
               [(gen, false); (gen, false)])
          end
      end
  end.

Record SlowCallConfig := mkSlowCallConfig {
  SlowCallDuration : Duration;
  SlowCallRateThreshold : float
}.

Record SlowCallDetector := mkSlowCallDetector {
  config : SlowCallConfig;
  slowCalls : Z;
  totalCalls : Z
}.

(** [float64(x)] for a [uint32] [x]: exact, as [x < 2^53]. *)
Definition float64_of_uint32 (x : Z) : float :=
  PrimFloat.of_uint63 (Uint63.of_Z x).

Definition NewSlowCallDetector (c : SlowCallConfig) : SlowCallDetector :=
  let c :=
    if SlowCallDuration c =? 0
    then mkSlowCallConfig (5 * Second) (SlowCallRateThreshold c) else c in
  let c :=
    if PrimFloat.eqb (SlowCallRateThreshold c) 0%float
    then mkSlowCallConfig (SlowCallDuration c) 0.5%float else c in
  mkSlowCallDetector c 0 0.

Definition SlowCallDetector_Record (d : SlowCallDetector) (duration : Duration)
  : SlowCallDetector :=
  let d := mkSlowCallDetector (config d) (slowCalls d) (u32 (totalCalls d + 1)) in
  if SlowCallDuration (config d) <? duration
  then mkSlowCallDetector (config d) (u32 (slowCalls d + 1)) (totalCalls d)
  else d.

Definition SlowCallRate (d : SlowCallDetector) : float :=
  if totalCalls d =? 0 then 0%float
  else PrimFloat.div (float64_of_uint32 (slowCalls d))
                     (float64_of_uint32 (totalCalls d)).

Definition ShouldTrip (d : SlowCallDetector) : bool :=
  PrimFloat.leb (SlowCallRateThreshold (config d)) (SlowCallRate d).

Definition SlowCallDetector_Reset (d : SlowCallDetector) : SlowCallDetector :=
  mkSlowCallDetector (config d) 0 0.

(** ** sliding_window.go *)

Module Bucket.
Record t := mk {
  startTime : Time;
  requests : Z;
  successes : Z;
  failures : Z
}.
End Bucket.

Module windowCounts.
Record t := mk {
  requests : Z;
  successes : Z;
  failures : Z
}.
End windowCounts.

Record SlidingWindow := mkSlidingWindow {
  size : Duration;
  buckets : list Bucket.t;
  numBucks : Z;
  total : windowCounts.t
}.

Definition NewSlidingWindow (sz : Duration) (numBuckets : Z) : SlidingWindow :=
  let numBuckets := if numBuckets <=? 0 then 10 else numBuckets in
  let sz := if sz <=? 0 then 10 * Second else sz in
  mkSlidingWindow sz [] numBuckets (windowCounts.mk 0 0 0).

(** [total.requests -= b.requests] and so on, on [uint32]. *)
Definition subtract (tot : windowCounts.t) (b : Bucket.t) : windowCounts.t :=
  windowCounts.mk
    (u32 (windowCounts.requests tot - Bucket.requests b))
    (u32 (windowCounts.successes tot - Bucket.successes b))
    (u32 (windowCounts.failures tot - Bucket.failures b)).

(** The loop of [expire]: the totals after the subtractions and the buckets
    from [validStart] on. *)
Fixpoint expire_loop (windowStart : Time) (bs : list Bucket.t)
  (tot : windowCounts.t) : windowCounts.t * list Bucket.t :=
  match bs with
  | [] => (tot, [])
  | b :: rest =>
      if windowStart <? Bucket.startTime b then (tot, bs)
      else expire_loop windowStart rest (subtract tot b)
  end.

Definition expire (sw : SlidingWindow) (now : Time) : SlidingWindow :=
  let windowStart := now - size sw in
  let '(tot, bs) := expire_loop windowStart (buckets sw) (total sw) in
  mkSlidingWindow (size sw) bs (numBucks sw) tot.

(** The loop of [expireReadOnly]: the same subtractions, from [sw.total]
    itself; the slice of buckets is left as it is. *)
Fixpoint expireReadOnly_loop (windowStart : Time) (bs : list Bucket.t)
  (tot : windowCounts.t) : windowCounts.t :=
  match bs with
  | [] => tot
  | b :: rest =>
      if windowStart <? Bucket.startTime b then tot
      else expireReadOnly_loop windowStart rest (subtract tot b)
  end.

Definition expireReadOnly (sw : SlidingWindow) (now : Time) : SlidingWindow :=
  let windowStart := now - size sw in
  mkSlidingWindow (size sw) (buckets sw) (numBucks sw)
    (expireReadOnly_loop windowStart (buckets sw) (total sw)).

(** [t.Truncate(d)] *)
Definition Truncate (t : Time) (d : Duration) : Time :=
  if d <=? 0 then t else t - t mod d.

(** [getCurrentBucket].  The bucket it returns is the last one of the slice
    it leaves (when the slice is not empty). *)
Definition getCurrentBucket (sw : SlidingWindow) (now : Time) : SlidingWindow :=
  let bucketDuration := Z.quot (size sw) (numBucks sw) in
  let bucketStart := Truncate now bucketDuration in
  let is_current :=
    match rev (buckets sw) with
    | last :: _ => Bucket.startTime last =? bucketStart
    | [] => false
    end in
  if is_current then sw
  else
    let bs := buckets sw ++ [Bucket.mk bucketStart 0 0 0] in
    if numBucks sw <? Z.of_nat (List.length bs) then
      match bs with
      | removed :: rest =>
          mkSlidingWindow (size sw) rest (numBucks sw)
            (subtract (total sw) removed)
      | [] => sw
      end
    else mkSlidingWindow (size sw) bs (numBucks sw) (total sw).

(** The increments of [Record] on the bucket [getCurrentBucket] returned. *)
Definition bump_bucket (success : bool) (b : Bucket.t) : Bucket.t :=
  if success
  then Bucket.mk (Bucket.startTime b) (u32 (Bucket.requests b + 1))
         (u32 (Bucket.successes b + 1)) (Bucket.failures b)
  else Bucket.mk (Bucket.startTime b) (u32 (Bucket.requests b + 1))
         (Bucket.successes b) (u32 (Bucket.failures b + 1)).

Definition bump_last (success : bool) (bs : list Bucket.t) : list Bucket.t :=
  match rev bs with
  | last :: front => rev front ++ [bump_bucket success last]
  | [] => []
  end.

Definition bump_total (success : bool) (tot : windowCounts.t) : windowCounts.t :=
  if success
  then windowCounts.mk (u32 (windowCounts.requests tot + 1))
         (u32 (windowCounts.successes tot + 1)) (windowCounts.failures tot)
  else windowCounts.mk (u32 (windowCounts.requests tot + 1))
         (windowCounts.successes tot) (u32 (windowCounts.failures tot + 1)).

Definition SlidingWindow_Record (sw : SlidingWindow) (success : bool)
  (now : Time) : SlidingWindow :=
  let sw := expire sw now in
  let sw := getCurrentBucket sw now in
  mkSlidingWindow (size sw) (bump_last success (buckets sw)) (numBucks sw)
    (bump_total success (total sw)).

Definition GetCounts (sw : SlidingWindow) (now : Time)
  : SlidingWindow * (Z * Z * Z) :=
  let sw := expireReadOnly sw now in
  (sw, (windowCounts.requests (total sw), windowCounts.successes (total sw),
        windowCounts.failures (total sw))).

Definition SlidingWindow_Reset (sw : SlidingWindow) : SlidingWindow :=
  mkSlidingWindow (size sw) [] (numBucks sw) (windowCounts.mk 0 0 0).

(** ** The breaker under concurrent callers

    The callers of one breaker take its mutex one at a time, so a run of the
    breaker is a sequence of locked sections.  [inflight] holds the
    generations handed to the invocations that were admitted and have not
    completed yet. *)

Record System := mkSystem {
  breaker : CircuitBreaker;
  inflight : list Z
}.

Inductive Op :=
| Admit (now : Time)
| Complete (i : nat) (success : bool) (now : Time)
| AskState (now : Time)
| AskCounts.

Fixpoint remove_nth {A} (i : nat) (l : list A) : list A :=
  match l, i with
  | [], _ => []
  | _ :: l, O => l
  | x :: l, S i => x :: remove_nth i l
  end.

(** [Admit]: [beforeRequest]; the invocation is in flight when it is
    admitted.  [Complete i]: [afterRequest] for the [i]-th invocation in
    flight, which then is no longer in flight. *)
Definition step (s : System) (op : Op) : System :=
  match op with
  | Admit now =>
      let '(cb, gen, err) := beforeRequest (breaker s) now in
      match err with
      | None => mkSystem cb (gen :: inflight s)
      | Some _ => mkSystem cb (inflight s)
      end
  | Complete i success now =>
      match nth_error (inflight s) i with
      | Some gen =>
          mkSystem (afterRequest (breaker s) gen success now)
                   (remove_nth i (inflight s))
      | None => s
      end
  | AskState now => mkSystem (fst (Breaker.State (breaker s) now)) (inflight s)
  | AskCounts => mkSystem (fst (Breaker.Counts (breaker s))) (inflight s)
  end.

Definition run (s : System) (ops : list Op) : System := fold_left step ops s.

Definition start (nm : string) (config : Config) (now : Time) : System :=
  mkSystem (New nm config now) [].

(** No counter wraps around in the step [op] taken from [s]: an admission
    finds [Requests] below the largest [uint32], and the generation is far
    enough from the largest [uint64] for the increments the locked section
    can make (one for the lazy evaluation of the state, one more for the
    transition a completion can cause). *)
Definition no_wrap_step (s : System) (op : Op) : bool :=
  match op with
  | Admit _ =>
      (generation (breaker s) + 1 <? 2 ^ 64)
      && (Requests (counts (breaker s)) + 1 <? 2 ^ 32)
  | Complete _ _ _ => generation (breaker s) + 2 <? 2 ^ 64
  | AskState _ => generation (breaker s) + 1 <? 2 ^ 64
  | AskCounts => true
  end.

Fixpoint no_wrap (s : System) (ops : list Op) : bool :=
  match ops with
  | [] => true
  | op :: ops => no_wrap_step s op && no_wrap (step s op) ops
  end.

(** [n] invocations one after the other, each admitted at [now] and
    completed at [now] with the same outcome. *)
Definition in_sequence (n : nat) (success : bool) (now : Time) : list Op :=
  List.concat (repeat [Admit now; Complete 0 success now] n).

(** ** Auxiliary notions and the concrete breakers used below *)

(** No lazy move is due at [now]: [currentState] leaves the breaker as it
    is. *)
Definition settled (cb : CircuitBreaker) (now : Time) : Prop :=
  state cb = StateHalfOpen
  \/ (state cb = StateClosed /\ (expiry cb = 0 \/ now <= expiry cb))
  \/ (state cb = StateOpen /\ now <= expiry cb).

(** Trips on the first failure, cools off for 100ms, has a notifier. *)
Definition tripping_config : Config :=
  mkConfig 1 0 (100 * Millisecond)
    (Some (fun c => 1 <=? ConsecutiveFailures c)) true None.

(** Two invocations admitted in Closed at 1000; one fails at 2000 and trips
    the breaker; the other is still in flight, with generation 1. *)
Definition tripped : System :=
  run (start "svc" tripping_config 1000)
      [Admit 1000; Admit 1000; Complete 0 false 2000].

(** Clears its counters every second in Closed. *)
Definition rolling_config : Config := mkConfig 1 Second 0 None false None.

(** An invocation admitted in the first interval (generation 1) and still
    in flight; a second one admitted after the first rollover
    (generation 2). *)
Definition rolled : System :=
  run (start "svc" rolling_config 1000)
      [Admit 2000; AskState (1000 + 2 * Second);
       Admit (1000 + 2 * Second + 500 * Millisecond)].

(** A breaker that has just entered Half-Open with a budget of 3 probes. *)
Definition probing : CircuitBreaker :=
  fst (Breaker.State
         (fst (Execute
                 (New "svc" (mkConfig 3 0 (100 * Millisecond)
                               (Some (fun c => 1 <=? ConsecutiveFailures c))
                               false None) 1000)
                 (Return (Some (Custom "down"))) 1000 2000))
         (2000 + 200 * Millisecond)).

(** Invocations run one after the other with [Execute], each returning a
    non-nil error: [(e, t1, t2)] is the error, the instant of admission and
    the instant of completion. *)
Definition fail_each (cb : CircuitBreaker) (l : list (error * Time * Time))
  : CircuitBreaker :=
  fold_left
    (fun cb x => let '(e, t1, t2) := x in
                 fst (Execute cb (Return (Some e)) t1 t2))
    l cb.

(** A configuration whose success classifier accepts every error value. *)
Definition lenient_config : Config :=
  mkConfig 0 0 0 None false (Some (fun _ => true)).

(** A window of 10s in 10 buckets with one success recorded at 100s. *)
Definition recorded : SlidingWindow :=
  SlidingWindow_Record (NewSlidingWindow (10 * Second) 10) true (100 * Second).

(** The detector of the tests: slow above 100ms, trips at a rate of 0.5. *)
Definition test_detector : SlowCallDetector :=
  NewSlowCallDetector (mkSlowCallConfig (100 * Millisecond) 0.5%float).

Definition record_all (d : SlowCallDetector) (ds : list Duration)
  : SlowCallDetector :=
  fold_left SlowCallDetector_Record ds d.

(** The number of durations of [ds] strictly above [threshold]. *)
Definition count_slow (threshold : Duration) (ds : list Duration) : Z :=
  Z.of_nat (List.length (filter (fun x => threshold <? x) ds)).

(** [b] is [a] after one entry into a new generation. *)
Definition newgen (a b : CircuitBreaker) : Prop :=
  counts b = Counts_zero /\ generation b = u64 (generation a + 1).

(** The number of invocations in flight that were admitted in the current
    generation. *)
Definition in_flight_now (s : System) : Z :=
  Z.of_nat (count_occ Z.eq_dec (inflight s) (generation (breaker s))).

(** The first invariant of [Counts], with the invocations in flight that
    fill the gap, and the bounds that go with it. *)
Definition accounted (s : System) : Prop :=
  let c := counts (breaker s) in
  0 <= TotalSuccesses c /\ 0 <= TotalFailures c
  /\ TotalSuccesses c + TotalFailures c + in_flight_now s <= Requests c
  /\ Requests c < 2 ^ 32
  /\ 0 <= generation (breaker s)
  /\ Forall (fun g => g <= generation (breaker s)) (inflight s).

(** The second invariant of [Counts]. *)
Definition one_streak (c : Counts) : Prop :=
  ConsecutiveSuccesses c = 0 \/ ConsecutiveFailures c = 0.

(** The largest [uint32], as a number of invocations. *)
Definition max_uint32_calls : nat := Z.to_nat 4294967295.

(** The breaker of the default configuration after [2^32 - 1] successful
    invocations one after the other and one more admission. *)
Definition wrapped : System :=
  run (start "svc" Config_zero 1000)
      (in_sequence max_uint32_calls true 2000 ++ [Admit 2000]).

(** [n] queries of the state, two seconds apart from [t] on. *)
Fixpoint rollovers (n : nat) (t : Time) : list Op :=
  match n with
  | O => []
  | S n => AskState t :: rollovers n (t + 2 * Second)
  end.

(** The breaker of [rolling_config] in generation [g], with the tallies [c]
    and the expiry [e]. *)
Definition rolling (g : Z) (c : Counts) (e : Time) : CircuitBreaker :=
  with_expiry (with_counts (with_generation
                              (New "svc" rolling_config 1000) g) c) e.

(** The number of values of a [uint64], as a number of queries. *)
Definition all_generations : nat := Z.to_nat 18446744073709551616.

(** One invocation admitted in generation 1 and left in flight while the
    interval rolls over [2^64] times; its success is reported right after
    the last rollover. *)
Definition revived : System :=
  run (start "svc" rolling_config 1000)
      (Admit 2000
       :: rollovers all_generations (1000 + 2 * Second)
       ++ [Complete 0 true (1000 + 2 * Second * 18446744073709551616)]).


(** The configuration of the tests of the breaker: a budget of [m] probes,
    a cool-off of [timeout], a trip at [k] failures in a row, a notifier. *)
Definition test_config (m : Z) (timeout : Duration) (k : Z) : Config :=
  mkConfig m 0 timeout (Some (fun c => k <=? ConsecutiveFailures c)) true None.

(** [Execute] calls one after the other; each element is what the work
    does with the instants of admission and completion.  The result is the
    breaker and what the calls returned, the first call first. *)
Fixpoint execute_all (cb : CircuitBreaker)
  (l : list (WorkResult * Time * Time)) : CircuitBreaker * list WorkResult :=
  match l with
  | [] => (cb, [])
  | (fn, t1, t2) :: l =>
      let '(cb, r) := Execute cb fn t1 t2 in
      let '(cb, rs) := execute_all cb l in
      (cb, r :: rs)
  end.

Definition record_each (sw : SlidingWindow) (l : list (bool * Time))
  : SlidingWindow :=
  fold_left (fun sw x => SlidingWindow_Record sw (fst x) (snd x)) l sw.


(** ** Notions used for the further properties of the breaker *)

(** The fields of the breaker that are set by [New] and read afterwards. *)
Definition settings (cb : CircuitBreaker)
  : string * Z * Duration * Duration * (Counts -> bool) * bool :=
  (name cb, maxRequests cb, interval cb, timeout cb, readyToTrip cb,
   onStateChange cb).

Definition with_readyToTrip (cb : CircuitBreaker) (f : Counts -> bool)
  : CircuitBreaker :=
  mkCircuitBreaker (name cb) (maxRequests cb) (interval cb) (timeout cb)
    f (onStateChange cb) (state cb) (generation cb) (counts cb)
    (expiry cb) (notified cb).

(** The calls [l] of the notifier (the latest first) are the path of state
    changes that leads from Closed to [s]: each call carries the name [nm],
    reports a change to a different state, and starts where the call
    before it ended. *)
Fixpoint trace_from (nm : string) (l : list StateChange) (s : State) : Prop :=
  match l with
  | [] => s = StateClosed
  | (n, from, to) :: l =>
      n = nm /\ to = s /\ from <> to /\ trace_from nm l from
  end.

(** What is expected of the calls made to the notifier. *)
Definition logged (cb : CircuitBreaker) : Prop :=
  if onStateChange cb
  then trace_from (name cb) (notified cb) (state cb)
  else notified cb = [].

(** No completion of [ops] reports a failure. *)
Definition no_failure (ops : list Op) : bool :=
  forallb (fun op => match op with
                     | Complete _ false _ => false
                     | _ => true
                     end) ops.

(** Invocations run one after the other with [Execute], each returning nil:
    [(t1, t2)] are the instants of admission and completion. *)
Definition succeed_each (cb : CircuitBreaker) (l : list (Time * Time))
  : CircuitBreaker :=
  fold_left (fun cb x => fst (Execute cb (Return None) (fst x) (snd x))) l cb.

(** A unit of work that fails: it returns a non-nil error or panics. *)
Definition fails (fn : WorkResult) : bool :=
  match fn with
  | Return None => false
  | Return (Some _) => true
  | Panic _ => true
  end.


(** Closed without failure so far. *)
Definition unharmed (cb : CircuitBreaker) : Prop :=
  state cb = StateClosed /\ TotalFailures (counts cb) = 0
  /\ ConsecutiveFailures (counts cb) = 0 /\ notified cb = [].


(** ** Configuration defaults *)

(** [defaultConfig()].  Its notifier is a function that does nothing: it is
    not nil, so the flag is [true]. *)
Definition defaultConfig : Config :=
  mkConfig 1 0 (60 * Second)
    (Some (fun counts => 5 <? ConsecutiveFailures counts))
    true
    (Some (fun err => is_nil err)).

(** [c.merge()] *)
Definition merge (c : Config) : Config :=
  let config := defaultConfig in
  let config :=
    if negb (MaxRequests c =? 0)
    then mkConfig (MaxRequests c) (Interval config) (Timeout config)
           (ReadyToTrip config) (OnStateChange config) (IsSuccessful config)
    else config in
  let config :=
    mkConfig (MaxRequests config) (Interval c) (Timeout config)
      (ReadyToTrip config) (OnStateChange config) (IsSuccessful config) in
  let config :=
    if negb (Timeout c =? 0)
    then mkConfig (MaxRequests config) (Interval config) (Timeout c)
           (ReadyToTrip config) (OnStateChange config) (IsSuccessful config)
    else config in
  let config :=
    match ReadyToTrip c with
    | Some f =>
        mkConfig (MaxRequests config) (Interval config) (Timeout config)
          (Some f) (OnStateChange config) (IsSuccessful config)
    | None => config
    end in
  let config :=
    if OnStateChange c
    then mkConfig (MaxRequests config) (Interval config) (Timeout config)
           (ReadyToTrip config) (OnStateChange c) (IsSuccessful config)
    else config in
  let config :=
    match IsSuccessful c with
    | Some f =>
        mkConfig (MaxRequests config) (Interval config) (Timeout config)
          (ReadyToTrip config) (OnStateChange config) (Some f)
    | None => config
    end in
  config.

Definition with_onStateChange (cb : CircuitBreaker) (o : bool)
  : CircuitBreaker :=
  mkCircuitBreaker (name cb) (maxRequests cb) (interval cb) (timeout cb)
    (readyToTrip cb) o (state cb) (generation cb) (counts cb)
    (expiry cb) (notified cb).

(** ** fallback.go *)

(** [err.Error()] *)
Definition Error (err : error) : string :=
  match err with
  | ErrCircuitOpen => "circuit breaker is open"
  | ErrTooManyRequests => "too many requests"
  | Canceled => "context canceled"
  | DeadlineExceeded => "context deadline exceeded"
  | Custom msg => msg
  end.

(** A fallback is given a non-nil error and returns an error value. *)
Definition FallbackFunc := error -> option error.

Definition ExecuteWithFallback (cb : CircuitBreaker) (fn : WorkResult)
  (fallback : FallbackFunc) (t1 t2 : Time) : CircuitBreaker * WorkResult :=
  let '(cb, r) := Execute cb fn t1 t2 in
  match r with
  | Panic v => (cb, Panic v)
  | Return (Some err) => (cb, Return (fallback err))
  | Return None => (cb, Return None)
  end.

Definition IgnoreFallback : FallbackFunc := fun err => None.

Definition ReturnErrorFallback : FallbackFunc := fun err => Some err.

Definition WrapErrorFallback (message : string) : FallbackFunc :=
  fun err => Some (Custom (message ++ ": " ++ Error err)).

Section TypedFallbacks.

(** The type parameter [T] and its zero value. *)
Variable T : Type.
Variable zero : T.

(** What a unit of work with a value does: it returns a value and an error
    value, or it panics. *)
Inductive ValueResult :=
| ReturnValue (v : T) (err : option error)
| PanicValue (p : string).

(** The closure that [ExecuteWithFallbackResult] hands to [Execute] keeps
    the value and returns the error. *)
Definition error_of (fn : ValueResult) : WorkResult :=
  match fn with
  | ReturnValue _ err => Return err
  | PanicValue p => Panic p
  end.

(** The variable [result] after the closure ran. *)
Definition value_of (fn : ValueResult) : T :=
  match fn with
  | ReturnValue v _ => v
  | PanicValue _ => zero
  end.

Definition ValueFallback := error -> T * option error.

Definition ExecuteWithFallbackResult (cb : CircuitBreaker) (fn : ValueResult)
  (fallback : ValueFallback) (t1 t2 : Time) : CircuitBreaker * ValueResult :=
  let '(cb, r) := Execute cb (error_of fn) t1 t2 in
  match r with
  | Panic p => (cb, PanicValue p)
  | Return (Some err) =>
      let '(v, e) := fallback err in (cb, ReturnValue v e)
  | Return None => (cb, ReturnValue (value_of fn) None)
  end.

Definition DefaultValueFallback (defaultValue : T) : ValueFallback :=
  fun err => (defaultValue, None).

(** [getCached] is what the function returns when it is called. *)
Definition CacheFallback (getCached : T * bool) : ValueFallback :=
  fun err =>
    let '(cached, ok) := getCached in
    if ok then (cached, None) else (zero, Some err).

(** The loop of [ChainedFallback]. *)
Fixpoint ChainedFallback_loop (fallbacks : list ValueFallback) (err : error)
  : option T :=
  match fallbacks with
  | [] => None
  | fb :: rest =>
      let '(result, fbErr) := fb err in
      if is_nil fbErr then Some result else ChainedFallback_loop rest err
  end.

Definition ChainedFallback (fallbacks : list ValueFallback) : ValueFallback :=
  fun err =>
    match ChainedFallback_loop fallbacks err with
    | Some result => (result, None)
    | None => (zero, Some err)
    end.

End TypedFallbacks.

Arguments ReturnValue {T} v err.
Arguments PanicValue {T} p.
Arguments error_of {T} fn.
Arguments value_of {T} zero fn.
Arguments ExecuteWithFallbackResult {T} zero cb fn fallback t1 t2.
Arguments DefaultValueFallback {T} defaultValue.
Arguments CacheFallback {T} zero getCached.
Arguments ChainedFallback_loop {T} fallbacks err.
Arguments ChainedFallback {T} zero fallbacks.


(** ** Notions used for the properties of the sliding window *)

(** [FailureRate] and [SuccessRate]; each reads the counts first. *)
Definition FailureRate (sw : SlidingWindow) (now : Time)
  : SlidingWindow * float :=
  let '(sw, (requests, _, failures)) := GetCounts sw now in
  (sw,
   if requests =? 0 then 0%float
   else PrimFloat.div (float64_of_uint32 failures)
                      (float64_of_uint32 requests)).

Definition SuccessRate (sw : SlidingWindow) (now : Time)
  : SlidingWindow * float :=
  let '(sw, (requests, successes, _)) := GetCounts sw now in
  (sw,
   if requests =? 0 then 1%float
   else PrimFloat.div (float64_of_uint32 successes)
                      (float64_of_uint32 requests)).

(** The calls made on a window. *)
Inductive WindowOp :=
| DoRecord (success : bool) (now : Time)
| DoGetCounts (now : Time)
| DoReset.

Definition window_step (sw : SlidingWindow) (op : WindowOp) : SlidingWindow :=
  match op with
  | DoRecord success now => SlidingWindow_Record sw success now
  | DoGetCounts now => fst (GetCounts sw now)
  | DoReset => SlidingWindow_Reset sw
  end.

Definition window_run (sw : SlidingWindow) (ops : list WindowOp)
  : SlidingWindow :=
  fold_left window_step ops sw.

(** No call of [ops] is a read. *)
Definition writes_only (ops : list WindowOp) : bool :=
  forallb (fun op => match op with DoGetCounts _ => false | _ => true end) ops.

(** The sums of the tallies of the buckets. *)
Definition sum_requests (bs : list Bucket.t) : Z :=
  fold_right (fun b a => Bucket.requests b + a) 0 bs.

Definition sum_successes (bs : list Bucket.t) : Z :=
  fold_right (fun b a => Bucket.successes b + a) 0 bs.

Definition sum_failures (bs : list Bucket.t) : Z :=
  fold_right (fun b a => Bucket.failures b + a) 0 bs.

(** The totals [tot] stand for the sums [r], [s], [f]. *)
Definition stands_for (tot : windowCounts.t) (r s f : Z) : Prop :=
  windowCounts.requests tot = u32 r
  /\ windowCounts.successes tot = u32 s
  /\ windowCounts.failures tot = u32 f.

(** The totals are the sums of the buckets, as [uint32]. *)
Definition aggregated (sw : SlidingWindow) : Prop :=
  stands_for (total sw) (sum_requests (buckets sw))
    (sum_successes (buckets sw)) (sum_failures (buckets sw)).

(** The instants of the records of [ops]. *)
Fixpoint record_times (ops : list WindowOp) : list Time :=
  match ops with
  | [] => []
  | DoRecord _ now :: ops => now :: record_times ops
  | _ :: ops => record_times ops
  end.

(** The records [l] are made in the order of their instants, from [t] on. *)
Fixpoint in_order (t : Time) (l : list (bool * Time)) : Prop :=
  match l with
  | [] => True
  | x :: l => t <= snd x /\ in_order (snd x) l
  end.

Definition count_true (l : list (bool * Time)) : Z :=
  Z.of_nat (List.length (filter (fun x => fst x) l)).

Definition count_false (l : list (bool * Time)) : Z :=
  Z.of_nat (List.length (filter (fun x => negb (fst x)) l)).


(** The window keeps its books: the totals are the sums of the buckets and
    there are no more buckets than [numBucks], which is positive. *)
Definition well_kept (sw : SlidingWindow) : Prop :=
  aggregated sw
  /\ Z.of_nat (List.length (buckets sw)) <= numBucks sw
  /\ 0 < numBucks sw.

(** Every bucket of [bs] starts at [ws] or before. *)
Definition started_by (ws : Time) (bs : list Bucket.t) : Prop :=
  Forall (fun b => Bucket.startTime b <= ws) bs.

(** [bucketDuration], the local variable of [getCurrentBucket]. *)
Definition bucketDuration (sw : SlidingWindow) : Duration :=
  Z.quot (size sw) (numBucks sw).

(** The buckets [bs] fill a window that starts at [B0], with buckets of
    duration [d], the latest record being made at [t]: every bucket starts
    at [B0] or after; the last one starts at a multiple of [d], not after
    the bucket of [t], and far enough from [B0] for the buckets before it. *)
Definition filling (d : Duration) (B0 t : Time) (bs : list Bucket.t) : Prop :=
  Forall (fun b => B0 <= Bucket.startTime b) bs
  /\ match rev bs with
     | [] => True
     | last :: _ =>
         Bucket.startTime last mod d = 0
         /\ Bucket.startTime last <= Truncate t d
         /\ Z.of_nat (List.length bs) * d <= Bucket.startTime last - B0 + d
     end.

Record SlidingWindowConfig := mkSlidingWindowConfig {
  WindowSize : Duration;
  BucketCount : Z;
  MinRequests : Z;
  FailureRateThresh : float
}.

Definition DefaultSlidingWindowConfig : SlidingWindowConfig :=
  mkSlidingWindowConfig (10 * Second) 10 10 0.5%float.

(** The function [MakeReadyToTrip] returns, called at [now]: it reads the
    window, which it shares with the caller, and does not look at the
    tallies it is given. *)
Definition MakeReadyToTrip (c : SlidingWindowConfig) (sw : SlidingWindow)
  (counts : Counts) (now : Time) : SlidingWindow * bool :=
  let '(sw, (requests, _, failures)) := GetCounts sw now in
  (sw,
   if requests <? MinRequests c then false
   else PrimFloat.leb (FailureRateThresh c)
          (PrimFloat.div (float64_of_uint32 failures)
                         (float64_of_uint32 requests))).

(** What becomes of a call that ends as the work does. *)
Definition outcome (r : WorkResult) : CallResult :=
  match r with
  | Return err => Returned err
  | Panic v => Crashed v
  end.

(** The duration above which a call is slow for [NewSlowCallDetector c]. *)
Definition slow_above (c : SlowCallConfig) : Duration :=
  if SlowCallDuration c =? 0 then 5 * Second else SlowCallDuration c.

(** ** http_middleware.go

    The middleware for incoming requests, with no [Metrics] (the field is
    nil).  An [http.ResponseWriter] is what it has been asked to send, the
    first call first; the bytes of a body and the header fields are left
    out.  A handler is the calls it makes on the writer it is given, and it
    returns. *)

Module Middleware.

Definition StatusOK : Z := 200.
Definition StatusServiceUnavailable : Z := 503.

Inductive Sent :=
| Header (code : Z)
| Body.

Record responseWriter := mkResponseWriter {
  ResponseWriter : list Sent;
  statusCode : Z;
  written : bool
}.

Definition WriteHeader (rw : responseWriter) (code : Z) : responseWriter :=
  if written rw then rw
  else mkResponseWriter (ResponseWriter rw ++ [Header code]) code true.

Definition Write (rw : responseWriter) : responseWriter :=
  let rw := if written rw then rw else WriteHeader rw StatusOK in
  mkResponseWriter (ResponseWriter rw ++ [Body]) (statusCode rw) (written rw).

Inductive WriterCall :=
| CallWriteHeader (code : Z)
| CallWrite.

(** [next.ServeHTTP(wrapped, r)] *)
Definition ServeHTTP (next : list WriterCall) (rw : responseWriter)
  : responseWriter :=
  fold_left
    (fun rw c =>
       match c with
       | CallWriteHeader code => WriteHeader rw code
       | CallWrite => Write rw
       end)
    next rw.

Definition defaultCircuitOpenHandler (w : list Sent) : list Sent :=
  w ++ [Header StatusServiceUnavailable; Body].

Definition defaultIsSuccessful (status : Z) : bool :=
  (200 <=? status) && (status <? 400).

Record HTTPMiddlewareConfig := mkHTTPMiddlewareConfig {
  OnCircuitOpen : option (list Sent -> list Sent);
  IsSuccessful : option (Z -> bool)
}.

(** The configuration [NewHTTPMiddleware] keeps: no field is nil. *)
Record HTTPMiddleware := mkHTTPMiddleware {
  onCircuitOpen : list Sent -> list Sent;
  isSuccessful : Z -> bool
}.

Definition NewHTTPMiddleware (config : HTTPMiddlewareConfig) : HTTPMiddleware :=
  mkHTTPMiddleware
    (match OnCircuitOpen config with
     | Some h => h
     | None => defaultCircuitOpenHandler
     end)
    (match IsSuccessful config with
     | Some f => f
     | None => defaultIsSuccessful
     end).

Section Wrapping.

(** [http.StatusText], of the library. *)
Variable StatusText : Z -> string.

Definition httpError (statusCode : Z) : error := Custom (StatusText statusCode).

(** The handler [Wrap] returns, serving one request: [t0] is the instant of
    the query of the state, [t1] and [t2] those of [Execute].  The work
    given to [Execute] runs, and calls the handler, only when the
    invocation is admitted.  The result is the breaker and what the writer
    [w] of the request has been asked to send. *)
Definition Wrap (m : HTTPMiddleware) (cb : CircuitBreaker)
  (next : list WriterCall) (w : list Sent) (t0 t1 t2 : Time)
  : CircuitBreaker * list Sent :=
  let '(cb, st) := Breaker.State cb t0 in
  if State_eqb st StateOpen then (cb, onCircuitOpen m w)
  else
    let wrapped := ServeHTTP next (mkResponseWriter w StatusOK false) in
    let fn :=
      Return (if isSuccessful m (statusCode wrapped) then None
              else Some (httpError (statusCode wrapped))) in
    let admitted := is_nil (snd (beforeRequest cb t1)) in
    let '(cb, _) := Execute cb fn t1 t2 in
    (cb, if admitted then ResponseWriter wrapped else w).

End Wrapping.

(** The status a handler gives first, [StatusOK] when it gives none before
    it writes. *)
Definition first_status (next : list WriterCall) : Z :=
  match next with
  | CallWriteHeader code :: _ => code
  | _ => StatusOK
  end.

(** The pieces of body a handler writes. *)
Definition bodies (next : list WriterCall) : list Sent :=
  flat_map (fun c => match c with CallWrite => [Body] | _ => [] end) next.

(** What a handler has the writer send. *)
Definition response (next : list WriterCall) : list Sent :=
  match next with
  | [] => []
  | _ :: _ => Header (first_status next) :: bodies next
  end.

End Middleware.

(** A breaker of one probe in Half-Open, the probe admitted and not
    completed. *)
Definition probe_in_flight : CircuitBreaker :=
  fst (fst (beforeRequest
              (fst (Execute (New "svc" tripping_config 1000)
                      (Return (Some (Custom "down"))) 1000 2000))
              (2000 + 200 * Millisecond))).

(** ** The gRPC interceptors of http_middleware.go

    The client interceptor for unary calls, with no [Metrics] (the field is
    nil).  [status.Error] and [status.FromError] are the library's. *)

Module Interceptors.

Inductive Code :=
| OK
| Canceled
| Unknown
| InvalidArgument
| DeadlineExceeded
| NotFound
| AlreadyExists
| PermissionDenied
| ResourceExhausted
| FailedPrecondition
| Aborted
| OutOfRange
| Unimplemented
| Internal
| Unavailable
| DataLoss
| Unauthenticated.

Section Intercepting.

(** [status.Error(c, msg)] *)
Variable statusError : Code -> string -> error.

(** The code of the status that [status.FromError] finds in an error, when
    it finds one. *)
Variable FromError : error -> option Code.

Definition defaultGRPCIsSuccessful (err : option error) : bool :=
  match err with
  | None => true
  | Some e =>
      match FromError e with
      | None => false
      | Some OK => true
      | Some Canceled => true
      | Some InvalidArgument => true
      | Some NotFound => true
      | Some AlreadyExists => true
      | Some PermissionDenied => true
      | Some Unauthenticated => true
      | Some _ => false
      end
  end.

(** The interceptor [UnaryClientInterceptor] returns, making one call;
    [invoked] is what the invoker does, [t1] and [t2] are the instants of
    [Execute]. *)
Definition UnaryClientInterceptor
  (IsSuccessful : option (option error -> bool)) (cb : CircuitBreaker)
  (invoked : WorkResult) (t1 t2 : Time) : CircuitBreaker * WorkResult :=
  let IsSuccessful :=
    match IsSuccessful with
    | Some f => f
    | None => defaultGRPCIsSuccessful
    end in
  let fn :=
    match invoked with
    | Return err => Return (if negb (IsSuccessful err) then err else None)
    | Panic v => Panic v
    end in
  let '(cb, r) := Execute cb fn t1 t2 in
  match r with
  | Return (Some ErrCircuitOpen) =>
      (cb, Return (Some (statusError Unavailable "circuit breaker is open")))
  | Return (Some ErrTooManyRequests) =>
      (cb, Return (Some (statusError ResourceExhausted "too many requests")))
  | _ => (cb, r)
  end.

End Intercepting.

End Interceptors.

(** A library in which the errors of gRPC are told by their text. *)
Definition test_statusError (c : Interceptors.Code) (msg : string) : error :=
  Custom msg.

Definition test_FromError (e : error) : option Interceptors.Code :=
  match e with
  | Custom msg =>
      if String.eqb msg "not found" then Some Interceptors.NotFound
      else if String.eqb msg "unavailable" then Some Interceptors.Unavailable
      else None
  | _ => None
  end.

(** * Properties *)

Arguments u32 : simpl never.
Arguments u64 : simpl never.

(** ** Basic facts *)

Lemma State_eqb_eq (a b : State) : State_eqb a b = true <-> a = b.
Proof. destruct a, b; simpl; split; congruence. Qed.

Lemma u32_small (x : Z) : 0 <= x < 2 ^ 32 -> u32 x = x.
Proof. intros H. unfold u32. apply Z.mod_small. exact H. Qed.

Lemma u64_small (x : Z) : 0 <= x < 2 ^ 64 -> u64 x = x.
Proof. intros H. unfold u64. apply Z.mod_small. exact H. Qed.

Lemma u32_range (x : Z) : 0 <= u32 x < 2 ^ 32.
Proof. unfold u32. apply Z.mod_pos_bound. lia. Qed.

(** [currentState] returns the state and the generation of the breaker it
    leaves. *)
Lemma currentState_result (cb : CircuitBreaker) (now : Time) :
  currentState cb now =
  (fst (fst (currentState cb now)),
   state (fst (fst (currentState cb now))),
   generation (fst (fst (currentState cb now)))).
Proof. reflexivity. Qed.

Lemma currentState_settled (cb : CircuitBreaker) (now : Time) :
  settled cb now -> currentState cb now = (cb, state cb, generation cb).
Proof.
  intros HS. unfold currentState.
  match goal with |- (?inner, _, _) = _ => assert (inner = cb) as -> end;
    [| reflexivity].
  destruct HS as [H | [[H [E | E]] | [H E]]]; rewrite H.
  - reflexivity.
  - rewrite E. reflexivity.
  - replace (expiry cb <? now) with false by (symmetry; apply Z.ltb_ge; exact E).
    rewrite andb_false_r. reflexivity.
  - replace (expiry cb <? now) with false by (symmetry; apply Z.ltb_ge; exact E).
    reflexivity.
Qed.

(** The lazy move out of Open, once the expiry is strictly in the past. *)
Lemma currentState_open_expired (cb : CircuitBreaker) (now : Time) :
  state cb = StateOpen -> expiry cb < now ->
  currentState cb now =
  (setState cb StateHalfOpen now, StateHalfOpen, u64 (generation cb + 1)).
Proof.
  intros H E. unfold currentState.
  match goal with |- (?inner, _, _) = _ =>
    assert (inner = setState cb StateHalfOpen now) as -> end.
  { rewrite H.
    replace (expiry cb <? now) with true by (symmetry; apply Z.ltb_lt; exact E).
    reflexivity. }
  unfold setState. rewrite H. simpl.
  destruct (onStateChange cb); reflexivity.
Qed.

Lemma setState_half_open_fields (cb : CircuitBreaker) (now : Time) :
  state cb = StateOpen ->
  let cb' := setState cb StateHalfOpen now in
  state cb' = StateHalfOpen /\ generation cb' = u64 (generation cb + 1)
  /\ counts cb' = Counts_zero /\ expiry cb' = 0
  /\ maxRequests cb' = maxRequests cb
  /\ notified cb' =
     if onStateChange cb
     then (name cb, StateOpen, StateHalfOpen) :: notified cb
     else notified cb.
Proof.
  intros H. unfold setState. rewrite H. simpl.
  destruct (onStateChange cb); simpl; repeat split; reflexivity.
Qed.

(** In Half-Open with the probe budget used up, an admission is refused and
    the breaker is left as it is. *)
Lemma beforeRequest_half_open_full (cb : CircuitBreaker) (now : Time) :
  state cb = StateHalfOpen ->
  maxRequests cb <= Requests (counts cb) ->
  beforeRequest cb now = (cb, generation cb, Some ErrTooManyRequests).
Proof.
  intros H M. unfold beforeRequest.
  rewrite currentState_settled by (left; exact H).
  rewrite H. simpl.
  replace (maxRequests cb <=? Requests (counts cb)) with true
    by (symmetry; apply Z.leb_le; exact M).
  reflexivity.
Qed.

(** In Half-Open with budget left, an admission is granted and counted. *)
Lemma beforeRequest_half_open_free (cb : CircuitBreaker) (now : Time) :
  state cb = StateHalfOpen ->
  Requests (counts cb) < maxRequests cb ->
  beforeRequest cb now =
  (with_counts cb
     (mkCounts (u32 (Requests (counts cb) + 1)) (TotalSuccesses (counts cb))
        (TotalFailures (counts cb)) (ConsecutiveSuccesses (counts cb))
        (ConsecutiveFailures (counts cb))),
   generation cb, None).
Proof.
  intros H M. unfold beforeRequest.
  rewrite currentState_settled by (left; exact H).
  rewrite H. simpl.
  replace (maxRequests cb <=? Requests (counts cb)) with false
    by (symmetry; apply Z.leb_gt; exact M).
  reflexivity.
Qed.

(** ** The tests of the repository, run on the embedding *)

(** [TestCircuitBreaker_StateOpen]: three failures trip the breaker, and the
    next call is refused without running the work. *)
Lemma test_StateOpen :
  let '(cb, rs) :=
    execute_all (New "test" (test_config 1 (100 * Millisecond) 3) 1000)
      [(Return (Some (Custom "test error")), 1001, 1002);
       (Return (Some (Custom "test error")), 1003, 1004);
       (Return (Some (Custom "test error")), 1005, 1006);
       (Return None, 1007, 1008)] in
  state cb = StateOpen /\ nth_error rs 3 = Some (Return (Some ErrCircuitOpen)).
Proof. vm_compute. split; reflexivity. Qed.

(** [TestCircuitBreaker_StateHalfOpen]: after the cool-off the state reads
    Half-Open, and two successes close the breaker. *)
Lemma test_StateHalfOpen :
  let '(cb, _) :=
    execute_all (New "test" (test_config 2 (100 * Millisecond) 2) 1000)
      [(Return (Some (Custom "error")), 1001, 1002);
       (Return (Some (Custom "error")), 1003, 1004)] in
  state cb = StateOpen
  /\ let '(cb, st) := Breaker.State cb (1004 + 150 * Millisecond) in
     st = StateHalfOpen
     /\ let '(cb, rs) :=
          execute_all cb
            [(Return None, 1004 + 151 * Millisecond, 1004 + 152 * Millisecond);
             (Return None, 1004 + 153 * Millisecond, 1004 + 154 * Millisecond)]
        in
        rs = [Return None; Return None]
        /\ state cb = StateClosed
        /\ notified cb
           = [("test"%string, StateHalfOpen, StateClosed);
              ("test"%string, StateOpen, StateHalfOpen);
              ("test"%string, StateClosed, StateOpen)].
Proof. vm_compute. repeat split; reflexivity. Qed.

(** [TestCircuitBreaker_HalfOpenFailureReopens]. *)
Lemma test_HalfOpenFailureReopens :
  let '(cb, _) :=
    execute_all (New "test" (test_config 2 (50 * Millisecond) 2) 1000)
      [(Return (Some (Custom "error")), 1001, 1002);
       (Return (Some (Custom "error")), 1003, 1004);
       (Return (Some (Custom "error")),
        1004 + 100 * Millisecond, 1004 + 101 * Millisecond)] in
  state cb = StateOpen /\ generation cb = 4.
Proof. vm_compute. split; reflexivity. Qed.

(** [TestCircuitBreaker_Counts]: three successes, then two failures. *)
Lemma test_Counts :
  let '(cb, _) :=
    execute_all (New "test" Config_zero 1000)
      [(Return None, 1001, 1002); (Return None, 1003, 1004);
       (Return None, 1005, 1006);
       (Return (Some (Custom "error")), 1007, 1008);
       (Return (Some (Custom "error")), 1009, 1010)] in
  snd (Breaker.Counts cb) = mkCounts 5 3 2 0 2.
Proof. vm_compute. reflexivity. Qed.

(** [TestSlidingWindow_BasicOperations], with the ten records spread over
    one second. *)
Lemma test_SlidingWindow_BasicOperations :
  snd (GetCounts
         (record_each (NewSlidingWindow (10 * Second) 10)
            [(true, 100 * Second); (true, 100 * Second + 1);
             (true, 100 * Second + 2); (true, 100 * Second + 3);
             (true, 100 * Second + 200 * Millisecond);
             (true, 100 * Second + 400 * Millisecond);
             (true, 100 * Second + 600 * Millisecond);
             (true, 100 * Second + 800 * Millisecond);
             (false, 100 * Second + 900 * Millisecond);
             (false, 101 * Second)])
         (101 * Second + 1))
  = (10, 8, 2).
Proof. vm_compute. reflexivity. Qed.

(** ** Admission *)

(** C8.  In Half-Open, an admission that finds [Requests] at or above
    [maxRequests] is refused with [ErrTooManyRequests] and leaves the breaker,
    [Requests] included, as it is.  With [maxRequests = 3], in a Half-Open
    generation that starts with no request, three admissions are granted and
    the fourth, made before any of them completes, is refused. *)
Theorem C8_half_open_budget :
  (forall cb now,
      state cb = StateHalfOpen ->
      maxRequests cb <= Requests (counts cb) ->
      beforeRequest cb now = (cb, generation cb, Some ErrTooManyRequests))
  /\
  (forall cb t1 t2 t3 t4,
      state cb = StateHalfOpen ->
      maxRequests cb = 3 ->
      Requests (counts cb) = 0 ->
      let '(cb1, _, e1) := beforeRequest cb t1 in
      let '(cb2, _, e2) := beforeRequest cb1 t2 in
      let '(cb3, _, e3) := beforeRequest cb2 t3 in
      e1 = None /\ e2 = None /\ e3 = None
      /\ Requests (counts cb3) = 3
      /\ beforeRequest cb3 t4 = (cb3, generation cb, Some ErrTooManyRequests)).
Proof.
  split.
  - intros cb now H M. apply beforeRequest_half_open_full; assumption.
  - intros cb t1 t2 t3 t4 H M R.
    rewrite (beforeRequest_half_open_free cb t1) by (try assumption; lia).
    rewrite R. change (u32 (0 + 1)) with 1.
    rewrite beforeRequest_half_open_free by (simpl; try assumption; lia).
    simpl. change (u32 2) with 2.
    rewrite beforeRequest_half_open_free by (simpl; try assumption; lia).
    simpl. change (u32 3) with 3.
    repeat split.
    rewrite beforeRequest_half_open_full by (simpl; try assumption; lia).
    reflexivity.
Qed.

Lemma C8_half_open_budget_witness :
  state probing = StateHalfOpen /\ maxRequests probing = 3
  /\ Requests (counts probing) = 0
  /\ (let '(cb1, _, e1) := beforeRequest probing 1 in
      let '(cb2, _, e2) := beforeRequest cb1 2 in
      let '(cb3, _, e3) := beforeRequest cb2 3 in
      e1 = None /\ e2 = None /\ e3 = None
      /\ Requests (counts cb3) = 3
      /\ beforeRequest cb3 4 = (cb3, generation probing, Some ErrTooManyRequests)).
Proof.
  split; [reflexivity |]. split; [reflexivity |]. split; [reflexivity |].
  apply (proj2 C8_half_open_budget probing 1 2 3 4); reflexivity.
Defined.

(** C4, as the code has it.  In Open, an admission at an instant strictly
    after the expiry moves the breaker to Half-Open, in a new generation with
    expiry zero and a notifier call when one is configured, and then goes
    through as the first probe; an admission at or before the expiry
    (the instant [now = expiry] included) leaves the breaker Open and is
    refused with [ErrCircuitOpen]. *)
Theorem C4_open_admission (cb : CircuitBreaker) (now : Time) :
  state cb = StateOpen ->
  0 < maxRequests cb ->
  (expiry cb < now ->
   let '(cb', gen, err) := beforeRequest cb now in
   err = None
   /\ state cb' = StateHalfOpen
   /\ generation cb' = u64 (generation cb + 1)
   /\ gen = generation cb'
   /\ expiry cb' = 0
   /\ Requests (counts cb') = 1
   /\ notified cb' =
      if onStateChange cb
      then (name cb, StateOpen, StateHalfOpen) :: notified cb
      else notified cb)
  /\
  (now <= expiry cb ->
   beforeRequest cb now = (cb, generation cb, Some ErrCircuitOpen)).
Proof.
  intros H M. split; intros E.
  - unfold beforeRequest.
    rewrite currentState_open_expired by assumption.
    destruct (setState_half_open_fields cb now H)
      as (Hs & Hg & Hc & He & Hm & Hn).
    simpl.
    rewrite Hm, Hc. simpl.
    replace (maxRequests cb <=? 0) with false by (symmetry; apply Z.leb_gt; lia).
    simpl. rewrite Hs, Hg, He, Hn. repeat split; reflexivity.
  - unfold beforeRequest.
    rewrite currentState_settled by (right; right; split; assumption).
    rewrite H. reflexivity.
Qed.

Lemma C4_open_admission_witness :
  state (breaker tripped) = StateOpen
  /\ 0 < maxRequests (breaker tripped)
  /\ expiry (breaker tripped) < 100002001
  /\ state (fst (fst (beforeRequest (breaker tripped) 100002001)))
     = StateHalfOpen.
Proof.
  assert (H1 : state (breaker tripped) = StateOpen) by reflexivity.
  assert (H2 : 0 < maxRequests (breaker tripped)) by reflexivity.
  assert (H3 : expiry (breaker tripped) < 100002001) by reflexivity.
  split; [exact H1 |]. split; [exact H2 |]. split; [exact H3 |].
  destruct (C4_open_admission (breaker tripped) 100002001 H1 H2) as [P _].
  specialize (P H3).
  destruct (beforeRequest (breaker tripped) 100002001) as [[cb' gen] err].
  exact (proj1 (proj2 P)).
Defined.

(** The breaker [breaker tripped] is Open and expires at 100002000.  An
    admission at that very instant is refused and the breaker stays Open. *)
Lemma C4_counterexample :
  state (breaker tripped) = StateOpen
  /\ expiry (breaker tripped) = 100002000
  /\ beforeRequest (breaker tripped) 100002000
     = (breaker tripped, generation (breaker tripped), Some ErrCircuitOpen)
  /\ state (fst (fst (beforeRequest (breaker tripped) 100002000)))
     <> StateHalfOpen.
Proof.
  split; [reflexivity |]. split; [reflexivity |].
  split; [vm_compute; reflexivity |].
  vm_compute. discriminate.
Qed.

(** ** Inspection *)

(** C10.  For a breaker in Open whose expiry has passed, [Counts()] returns
    the stored tallies and leaves the breaker (its state and generation
    included) as it is, whereas [State()] at the same instant makes the
    move to Half-Open, in a new generation with the tallies cleared. *)
Theorem C10_counts_is_not_lazy (cb : CircuitBreaker) (now : Time) :
  state cb = StateOpen ->
  expiry cb < now ->
  Breaker.Counts cb = (cb, counts cb)
  /\ state (fst (Breaker.Counts cb)) = StateOpen
  /\ generation (fst (Breaker.Counts cb)) = generation cb
  /\ snd (Breaker.State cb now) = StateHalfOpen
  /\ state (fst (Breaker.State cb now)) = StateHalfOpen
  /\ generation (fst (Breaker.State cb now)) = u64 (generation cb + 1)
  /\ counts (fst (Breaker.State cb now)) = Counts_zero.
Proof.
  intros H E. unfold Breaker.Counts, Breaker.State.
  rewrite currentState_open_expired by assumption.
  destruct (setState_half_open_fields cb now H)
    as (Hs & Hg & Hc & _).
  simpl. repeat split; assumption.
Qed.

Lemma C10_counts_is_not_lazy_witness :
  state (breaker tripped) = StateOpen
  /\ expiry (breaker tripped) < 100002001
  /\ snd (Breaker.Counts (breaker tripped)) = Counts_zero
  /\ state (fst (Breaker.Counts (breaker tripped))) = StateOpen
  /\ state (fst (Breaker.State (breaker tripped) 100002001)) = StateHalfOpen.
Proof.
  assert (H1 : state (breaker tripped) = StateOpen) by reflexivity.
  assert (H2 : expiry (breaker tripped) < 100002001) by reflexivity.
  destruct (C10_counts_is_not_lazy (breaker tripped) 100002001 H1 H2)
    as (P1 & P2 & _ & _ & P5 & _).
  split; [exact H1 |]. split; [exact H2 |]. split; [reflexivity |].
  split; [exact P2 | exact P5].
Defined.

(** ** Completion *)

(** C3, as the code has it.  A completion whose generation is not the one
    the breaker has after the lazy evaluation of its state is discarded:
    [afterRequest] leaves the breaker exactly as that evaluation
    ([currentState]) leaves it, whatever the outcome, so neither [onSuccess]
    nor [onFailure] is applied.  When no lazy move is due at that instant
    the breaker is left as it was: same tallies, same state and generation,
    no notifier call. *)
Theorem C3_stale_completion_discarded
  (cb : CircuitBreaker) (before : Z) (success : bool) (now : Time) :
  generation (fst (fst (currentState cb now))) <> before ->
  afterRequest cb before success now = fst (fst (currentState cb now))
  /\ (settled cb now -> afterRequest cb before success now = cb).
Proof.
  intros G.
  assert (A : afterRequest cb before success now
              = fst (fst (currentState cb now))).
  { unfold afterRequest. rewrite (currentState_result cb now).
    replace (generation (fst (fst (currentState cb now))) =? before)
      with false by (symmetry; apply Z.eqb_neq; exact G).
    reflexivity. }
  split; [exact A |].
  intros S. rewrite A. rewrite currentState_settled by exact S. reflexivity.
Qed.

Lemma C3_stale_completion_discarded_witness :
  generation (fst (fst (currentState (breaker tripped) 3000))) <> 1
  /\ afterRequest (breaker tripped) 1 true 3000 = breaker tripped.
Proof.
  assert (G : generation (fst (fst (currentState (breaker tripped) 3000))) <> 1)
    by (vm_compute; discriminate).
  split; [exact G |].
  apply (proj2 (C3_stale_completion_discarded (breaker tripped) 1 true 3000 G)).
  right; right. split; [reflexivity | vm_compute; discriminate].
Defined.

(** Two stale completions that change the breaker.  In [tripped] the
    breaker is Open in generation 2 and an invocation of generation 1 is in
    flight: its completion after the expiry moves the breaker to Half-Open
    and calls the notifier.  In [rolled] the breaker is Closed in generation
    2 with one request counted, and an invocation of generation 1 is in
    flight: its completion after the next interval clears the tallies. *)
Lemma C3_counterexample :
  (nth_error (inflight tripped) 0 = Some 1
   /\ generation (breaker tripped) = 2
   /\ state (breaker tripped) = StateOpen
   /\ state (afterRequest (breaker tripped) 1 true 200002000) = StateHalfOpen
   /\ notified (afterRequest (breaker tripped) 1 true 200002000)
      = ("svc"%string, StateOpen, StateHalfOpen) :: notified (breaker tripped))
  /\
  (nth_error (inflight rolled) 1 = Some 1
   /\ generation (breaker rolled) = 2
   /\ Requests (counts (breaker rolled)) = 1
   /\ Requests (counts (afterRequest (breaker rolled) 1 true 4000001000)) = 0).
Proof.
  vm_compute. repeat split; reflexivity.
Qed.

(** ** Trip predicate *)

(** One failing [Execute] on a Closed breaker with the default predicate
    and no periodic reset. *)
Lemma Execute_failure_closed (cb : CircuitBreaker) (e : error) (t1 t2 : Time) :
  state cb = StateClosed ->
  expiry cb = 0 ->
  readyToTrip cb = defaultReadyToTrip ->
  0 <= ConsecutiveFailures (counts cb) <= 5 ->
  let cb' := fst (Execute cb (Return (Some e)) t1 t2) in
  if ConsecutiveFailures (counts cb) <? 5
  then state cb' = StateClosed /\ expiry cb' = 0
       /\ readyToTrip cb' = defaultReadyToTrip
       /\ ConsecutiveFailures (counts cb') = ConsecutiveFailures (counts cb) + 1
  else state cb' = StateOpen.
Proof.
  intros S E R C. unfold Execute, beforeRequest.
  rewrite currentState_settled by (right; left; split; [exact S | left; exact E]).
  rewrite S. cbn [State_eqb andb].
  cbv zeta. cbn [fst snd].
  unfold afterRequest.
  rewrite currentState_settled
    by (right; left; split; [exact S | left; exact E]).
  cbn [state generation with_counts].
  rewrite Z.eqb_refl. cbn [negb is_nil].
  rewrite S. unfold onFailure.
  cbn [counts with_counts readyToTrip ConsecutiveFailures].
  rewrite R. unfold defaultReadyToTrip. cbn [ConsecutiveFailures].
  rewrite u32_small by lia.
  destruct (ConsecutiveFailures (counts cb) <? 5) eqn:L.
  - apply Z.ltb_lt in L.
    replace (5 <? ConsecutiveFailures (counts cb) + 1) with false
      by (symmetry; apply Z.ltb_ge; lia).
    cbn. repeat split; assumption.
  - apply Z.ltb_ge in L.
    replace (5 <? ConsecutiveFailures (counts cb) + 1) with true
      by (symmetry; apply Z.ltb_lt; lia).
    unfold setState. cbn [state with_counts]. rewrite S. cbn.
    destruct (onStateChange cb); reflexivity.
Qed.

Lemma fail_each_closed (l : list (error * Time * Time)) :
  forall cb,
    state cb = StateClosed ->
    expiry cb = 0 ->
    readyToTrip cb = defaultReadyToTrip ->
    0 <= ConsecutiveFailures (counts cb) ->
    ConsecutiveFailures (counts cb) + Z.of_nat (List.length l) <= 5 ->
    state (fail_each cb l) = StateClosed
    /\ ConsecutiveFailures (counts (fail_each cb l))
       = ConsecutiveFailures (counts cb) + Z.of_nat (List.length l).
Proof.
  induction l as [| [[e t1] t2] l IH]; intros cb S E R C0 C.
  - simpl. split; [exact S | lia].
  - cbn [List.length] in C. rewrite Nat2Z.inj_succ in C.
    pose proof (Execute_failure_closed cb e t1 t2 S E R ltac:(lia)) as X.
    cbv zeta in X.
    replace (ConsecutiveFailures (counts cb) <? 5) with true in X
      by (symmetry; apply Z.ltb_lt; lia).
    destruct X as (S' & E' & R' & C').
    change (fail_each cb ((e, t1, t2) :: l))
      with (fail_each (fst (Execute cb (Return (Some e)) t1 t2)) l).
    destruct (IH _ S' E' R' ltac:(lia) ltac:(lia)) as [A B].
    split; [exact A |].
    rewrite B, C'. cbn [List.length]. rewrite Nat2Z.inj_succ. lia.
Qed.

Lemma fail_each_trips (l : list (error * Time * Time)) :
  forall cb,
    state cb = StateClosed ->
    expiry cb = 0 ->
    readyToTrip cb = defaultReadyToTrip ->
    0 <= ConsecutiveFailures (counts cb) <= 5 ->
    ConsecutiveFailures (counts cb) + Z.of_nat (List.length l) = 6 ->
    state (fail_each cb l) = StateOpen.
Proof.
  induction l as [| [[e t1] t2] l IH]; intros cb S E R C0 C.
  - simpl in C. lia.
  - cbn [List.length] in C. rewrite Nat2Z.inj_succ in C.
    pose proof (Execute_failure_closed cb e t1 t2 S E R C0) as X.
    cbv zeta in X.
    change (fail_each cb ((e, t1, t2) :: l))
      with (fail_each (fst (Execute cb (Return (Some e)) t1 t2)) l).
    destruct (ConsecutiveFailures (counts cb) <? 5) eqn:L.
    + apply Z.ltb_lt in L. destruct X as (S' & E' & R' & C').
      apply IH; try assumption; lia.
    + apply Z.ltb_ge in L.
      destruct l as [| y l]; [exact X |].
      cbn [List.length] in C. rewrite Nat2Z.inj_succ in C. lia.
Qed.

Lemma New_fields (nm : string) (cfg : Config) (t0 : Time) :
  let cb := New nm cfg t0 in
  state cb = StateClosed /\ generation cb = 1 /\ counts cb = Counts_zero
  /\ expiry cb = (if Interval cfg =? 0 then 0 else t0 + Interval cfg)
  /\ readyToTrip cb = match ReadyToTrip cfg with
                      | Some f => f
                      | None => defaultReadyToTrip
                      end
  /\ maxRequests cb = (if MaxRequests cfg =? 0 then 1 else MaxRequests cfg)
  /\ notified cb = [].
Proof.
  unfold New, toNewGeneration. cbn.
  destruct (Interval cfg =? 0); cbn; repeat split; reflexivity.
Qed.

(** C7.  Without a configured [ReadyToTrip], the predicate of the breaker
    is true exactly when [ConsecutiveFailures > 5].  In Closed with this
    predicate, a failure trips the breaker exactly when five failures in a
    row came before it; a breaker built without [ReadyToTrip] and without
    periodic reset is still Closed after up to five failing invocations in
    a row and Open after the sixth. *)
Theorem C7_default_trip_predicate :
  (forall nm cfg t0 c,
      ReadyToTrip cfg = None ->
      (readyToTrip (New nm cfg t0) c = true <-> 5 < ConsecutiveFailures c))
  /\
  (forall cb now,
      state cb = StateClosed ->
      readyToTrip cb = defaultReadyToTrip ->
      0 <= ConsecutiveFailures (counts cb) < 2 ^ 32 - 1 ->
      (state (onFailure cb StateClosed now) = StateOpen
       <-> 5 <= ConsecutiveFailures (counts cb)))
  /\
  (forall nm cfg t0 l,
      ReadyToTrip cfg = None ->
      Interval cfg = 0 ->
      ((List.length l <= 5)%nat ->
       state (fail_each (New nm cfg t0) l) = StateClosed
       /\ ConsecutiveFailures (counts (fail_each (New nm cfg t0) l))
          = Z.of_nat (List.length l))
      /\ (List.length l = 6%nat ->
          state (fail_each (New nm cfg t0) l) = StateOpen)).
Proof.
  split; [| split].
  - intros nm cfg t0 c H.
    destruct (New_fields nm cfg t0) as (_ & _ & _ & _ & R & _).
    rewrite R, H. unfold defaultReadyToTrip. apply Z.ltb_lt.
  - intros cb now S R C. unfold onFailure.
    cbn [counts with_counts readyToTrip ConsecutiveFailures].
    rewrite R. unfold defaultReadyToTrip. cbn [ConsecutiveFailures].
    rewrite u32_small by lia.
    destruct (5 <? ConsecutiveFailures (counts cb) + 1) eqn:L.
    + apply Z.ltb_lt in L. unfold setState. cbn [state with_counts].
      rewrite S. cbn. split; [lia |]. intros _.
      destruct (onStateChange cb); reflexivity.
    + apply Z.ltb_ge in L. cbn [state with_counts]. rewrite S.
      split; [discriminate | lia].
  - intros nm cfg t0 l H I.
    destruct (New_fields nm cfg t0) as (S & _ & C & E & R & _).
    rewrite I in E. cbn in E. rewrite H in R.
    split; intros L.
    + destruct (fail_each_closed l (New nm cfg t0) S E R) as [A B];
        rewrite ?C; cbn [ConsecutiveFailures Counts_zero]; try lia.
      split; [exact A |]. rewrite B, C. cbn. reflexivity.
    + apply fail_each_trips; try assumption;
        rewrite C; cbn [ConsecutiveFailures Counts_zero]; lia.
Qed.

Lemma C7_default_trip_predicate_witness :
  ReadyToTrip Config_zero = None /\ Interval Config_zero = 0
  /\ state (fail_each (New "svc" Config_zero 1000)
              (repeat (Custom "down", 2000, 3000) 5)) = StateClosed
  /\ state (fail_each (New "svc" Config_zero 1000)
              (repeat (Custom "down", 2000, 3000) 6)) = StateOpen.
Proof.
  destruct C7_default_trip_predicate as (_ & _ & P).
  destruct (P "svc"%string Config_zero 1000
              (repeat (Custom "down", 2000, 3000) 5) eq_refl eq_refl)
    as [P5 _].
  destruct (P "svc"%string Config_zero 1000
              (repeat (Custom "down", 2000, 3000) 6) eq_refl eq_refl)
    as [_ P6].
  split; [reflexivity |]. split; [reflexivity |].
  split; [apply P5; simpl; lia | apply P6; reflexivity].
Defined.

(** ** Guarded execution *)

(** What [Execute] reports for an admitted invocation: a failure when the
    work panics, and otherwise whether the returned error is nil. *)
Lemma Execute_reports (cb : CircuitBreaker) (fn : WorkResult) (t1 t2 : Time) :
  snd (beforeRequest cb t1) = None ->
  Execute cb fn t1 t2 =
  (afterRequest (fst (fst (beforeRequest cb t1)))
     (snd (fst (beforeRequest cb t1)))
     (match fn with Return err => is_nil err | Panic _ => false end) t2,
   fn).
Proof.
  unfold Execute.
  destruct (beforeRequest cb t1) as [[cb1 gen] err]. cbn [fst snd].
  intros ->. destruct fn; reflexivity.
Qed.

(** [New] does not read [IsSuccessful]: the breaker is the same whatever
    classifier the configuration carries. *)
Lemma New_ignores_IsSuccessful (nm : string) (cfg : Config)
  (f : option (option error -> bool)) (t0 : Time) :
  New nm (mkConfig (MaxRequests cfg) (Interval cfg) (Timeout cfg)
            (ReadyToTrip cfg) (OnStateChange cfg) f) t0
  = New nm cfg t0.
Proof. reflexivity. Qed.

(** C1 at a failing input.  The configured classifier counts every error
    value as a success, the work returns a non-nil error, and [Execute]
    records a failure. *)
Lemma C1_Execute_bypasses_classifier :
  (exists f, IsSuccessful lenient_config = Some f
             /\ f (Some (Custom "boom")) = true)
  /\ counts (fst (Execute (New "svc" lenient_config 1000)
                    (Return (Some (Custom "boom"))) 2000 3000))
     = mkCounts 1 0 1 0 1.
Proof.
  split.
  - eexists. split; reflexivity.
  - vm_compute. reflexivity.
Qed.

(** When the [select] of [ExecuteWithContext] takes the branch of the
    token, the call returns the cause of the token and the first call of
    [afterRequest] reports a failure; when the work left in the background
    returns or never ends, that call is the only one. *)
Lemma ExecuteWithContext_token_first
  (cb : CircuitBreaker) (cause : error) (later : option WorkResult)
  (t1 t2 t3 : Time) :
  snd (beforeRequest cb t1) = None ->
  let cb1 := fst (fst (beforeRequest cb t1)) in
  let gen := snd (fst (beforeRequest cb t1)) in
  let '(cb', result, completions) :=
    ExecuteWithContext cb (CtxFirst cause later) t1 t2 t3 in
  returned result = Some (Some cause)
  /\ hd_error completions = Some (gen, false)
  /\ ((forall v, later <> Some (Panic v)) ->
      completions = [(gen, false)]
      /\ cb' = afterRequest cb1 gen false t2
      /\ result = Returned (Some cause)).
Proof.
  unfold ExecuteWithContext.
  destruct (beforeRequest cb t1) as [[cb1 gen] err]. cbn [fst snd].
  intros ->.
  destruct later as [[e | v] |]; cbn;
    (split; [reflexivity |]); (split; [reflexivity |]); intros NP.
  - repeat split.
  - exfalso. exact (NP v eq_refl).
  - repeat split.
Qed.

(** C5 at a failing input.  On a fresh breaker of the default configuration
    the invocation is admitted at 2000, the token fires and the [select]
    returns its cause at 3000, and the work, left in the background, panics
    at 4000: the call has returned the cause of the token, but
    [afterRequest] is called twice for the one admission, and the breaker
    counts two failures for one request. *)
Lemma C5_background_panic_completes_twice :
  snd (beforeRequest (New "svc" Config_zero 1000) 2000) = None
  /\ returned
       (snd (fst (ExecuteWithContext (New "svc" Config_zero 1000)
                    (CtxFirst DeadlineExceeded (Some (Panic "boom")))
                    2000 3000 4000)))
     = Some (Some DeadlineExceeded)
  /\ snd (ExecuteWithContext (New "svc" Config_zero 1000)
            (CtxFirst DeadlineExceeded (Some (Panic "boom")))
            2000 3000 4000)
     = [(1, false); (1, false)]
  /\ counts (fst (fst (ExecuteWithContext (New "svc" Config_zero 1000)
                         (CtxFirst DeadlineExceeded (Some (Panic "boom")))
                         2000 3000 4000)))
     = mkCounts 1 0 2 0 2.
Proof.
  vm_compute. repeat split; reflexivity.
Qed.

(** ** Sliding window *)

(** When the oldest bucket is still inside the window, a read changes
    nothing. *)
Lemma GetCounts_nothing_expired (sw : SlidingWindow) (now : Time) :
  match buckets sw with
  | [] => True
  | b :: _ => now - size sw < Bucket.startTime b
  end ->
  fst (GetCounts sw now) = sw.
Proof.
  destruct sw as [sz bs n tot]. unfold GetCounts, expireReadOnly. cbn.
  destruct bs as [| b bs]; cbn; [reflexivity |].
  intros H.
  replace (now - sz <? Bucket.startTime b) with true
    by (symmetry; apply Z.ltb_lt; exact H).
  reflexivity.
Qed.

(** C2 at a failing input.  One success is recorded at 100s in a window of
    10s; at 110s its bucket is expired.  The first read at 110s returns
    (0, 0, 0); the second read at the same instant subtracts the bucket
    once more, and the [uint32] totals wrap around. *)
Lemma C2_GetCounts_twice_differs :
  snd (GetCounts recorded (110 * Second)) = (0, 0, 0)
  /\ snd (GetCounts (fst (GetCounts recorded (110 * Second))) (110 * Second))
     = (4294967295, 4294967295, 0).
Proof.
  vm_compute. split; reflexivity.
Qed.

(** ** Slow-call detector *)

(** From a fresh detector, as long as the [uint32] tallies do not wrap
    around, [totalCalls] is the number of calls recorded and [slowCalls]
    the number of those strictly above the threshold. *)
Lemma record_all_counts (ds : list Duration) :
  forall d,
    0 <= slowCalls d <= totalCalls d ->
    totalCalls d + Z.of_nat (List.length ds) < 2 ^ 32 ->
    config (record_all d ds) = config d
    /\ totalCalls (record_all d ds) = totalCalls d + Z.of_nat (List.length ds)
    /\ slowCalls (record_all d ds)
       = slowCalls d + count_slow (SlowCallDuration (config d)) ds.
Proof.
  unfold record_all, count_slow.
  induction ds as [| x ds IH]; intros d R B.
  - cbn. repeat split; lia.
  - cbn [List.length] in B. rewrite Nat2Z.inj_succ in B.
    cbn [fold_left].
    assert (C : config (SlowCallDetector_Record d x) = config d).
    { unfold SlowCallDetector_Record. cbn.
      destruct (SlowCallDuration (config d) <? x); reflexivity. }
    assert (T : totalCalls (SlowCallDetector_Record d x) = totalCalls d + 1).
    { unfold SlowCallDetector_Record. cbn.
      destruct (SlowCallDuration (config d) <? x); cbn;
        apply u32_small; lia. }
    assert (S : slowCalls (SlowCallDetector_Record d x)
                = slowCalls d
                  + (if SlowCallDuration (config d) <? x then 1 else 0)).
    { unfold SlowCallDetector_Record. cbn.
      destruct (SlowCallDuration (config d) <? x); cbn;
        [apply u32_small |]; lia. }
    destruct (IH (SlowCallDetector_Record d x)) as (IC & IT & IS).
    + rewrite S, T. destruct (SlowCallDuration (config d) <? x); lia.
    + rewrite T. lia.
    + rewrite IC, IT, IS, C, T, S. cbn [filter List.length].
      split; [reflexivity |]. split; [lia |].
      destruct (SlowCallDuration (config d) <? x); cbn [List.length];
        rewrite ?Nat2Z.inj_succ; lia.
Qed.

(** The two detector tests of the repository. *)
Lemma detector_test_basic :
  SlowCallRate
    (record_all test_detector
       [50 * Millisecond; 150 * Millisecond; 50 * Millisecond;
        200 * Millisecond])
  = 0.5%float.
Proof. vm_compute. reflexivity. Qed.

Lemma detector_test_should_trip :
  ShouldTrip
    (record_all test_detector
       [150 * Millisecond; 150 * Millisecond; 150 * Millisecond;
        50 * Millisecond])
  = true
  /\ ShouldTrip
       (record_all test_detector
          [150 * Millisecond; 50 * Millisecond; 50 * Millisecond;
           50 * Millisecond])
     = false.
Proof. vm_compute. split; reflexivity. Qed.



(** ** Invariants of the tallies *)

Lemma toNewGeneration_newgen (cb : CircuitBreaker) (now : Time) :
  newgen cb (toNewGeneration cb now).
Proof.
  unfold newgen, toNewGeneration. cbn.
  destruct (state cb); [destruct (interval cb =? 0) | |]; split; reflexivity.
Qed.

Lemma setState_effect (cb : CircuitBreaker) (s : State) (now : Time) :
  setState cb s now = cb \/ newgen cb (setState cb s now).
Proof.
  unfold setState. destruct (State_eqb (state cb) s); [left; reflexivity |].
  right.
  pose proof (toNewGeneration_newgen (with_state cb s) now) as [C G].
  unfold newgen. cbv zeta.
  destruct (onStateChange (toNewGeneration (with_state cb s) now));
    cbn [with_notified counts generation]; split; assumption.
Qed.

Lemma currentState_effect (cb : CircuitBreaker) (now : Time) :
  fst (fst (currentState cb now)) = cb
  \/ newgen cb (fst (fst (currentState cb now))).
Proof.
  unfold currentState. cbn [fst].
  destruct (state cb).
  - destruct (negb (expiry cb =? 0) && (expiry cb <? now));
      [right; apply toNewGeneration_newgen | left; reflexivity].
  - left; reflexivity.
  - destruct (expiry cb <? now); [apply setState_effect | left; reflexivity].
Qed.

Lemma onSuccess_effect (cb : CircuitBreaker) (s : State) (now : Time) :
  let cb' := onSuccess cb s now in
  (counts cb' = Counts_zero /\ generation cb' = u64 (generation cb + 1))
  \/ (generation cb' = generation cb
      /\ (counts cb' = counts cb
          \/ counts cb' = CountsOps.onSuccess (counts cb))).
Proof.
  unfold onSuccess. destruct s; cbv zeta.
  - right. split; [reflexivity | right; reflexivity].
  - match goal with |- context [setState ?x _ _] => set (cb1 := x) end.
    destruct (maxRequests cb1 <=? ConsecutiveSuccesses (counts cb1)).
    + destruct (setState_effect cb1 StateClosed now) as [E | [C G]].
      * rewrite E. right. split; [reflexivity | right; reflexivity].
      * left. split; [exact C | exact G].
    + right. split; [reflexivity | right; reflexivity].
  - right. split; [reflexivity | left; reflexivity].
Qed.

Lemma onFailure_effect (cb : CircuitBreaker) (s : State) (now : Time) :
  let cb' := onFailure cb s now in
  (counts cb' = Counts_zero /\ generation cb' = u64 (generation cb + 1))
  \/ (generation cb' = generation cb
      /\ (counts cb' = counts cb
          \/ counts cb' = CountsOps.onFailure (counts cb))).
Proof.
  unfold onFailure. destruct s; cbv zeta.
  - match goal with |- context [setState ?x _ _] => set (cb1 := x) end.
    destruct (readyToTrip cb1 (counts cb1)).
    + destruct (setState_effect cb1 StateOpen now) as [E | [C G]].
      * rewrite E. right. split; [reflexivity | right; reflexivity].
      * left. split; [exact C | exact G].
    + right. split; [reflexivity | right; reflexivity].
  - destruct (setState_effect cb StateOpen now) as [E | [C G]].
    + rewrite E. right. split; [reflexivity | left; reflexivity].
    + left. split; [exact C | exact G].
  - right. split; [reflexivity | left; reflexivity].
Qed.

(** [beforeRequest]: the lazy evaluation, then the request is counted when
    it is admitted; the generation returned is the one the breaker is
    left in. *)
Lemma beforeRequest_effect (cb : CircuitBreaker) (now : Time) :
  let cb1 := fst (fst (currentState cb now)) in
  let '(cb', gen, err) := beforeRequest cb now in
  gen = generation cb1 /\ generation cb' = generation cb1
  /\ counts cb' = match err with
                  | None => CountsOps.onRequest (counts cb1)
                  | Some _ => counts cb1
                  end.
Proof.
  unfold beforeRequest. rewrite (currentState_result cb now).
  cbn [fst]. set (cb1 := fst (fst (currentState cb now))).
  destruct (State_eqb (state cb1) StateOpen); [repeat split |].
  destruct (State_eqb (state cb1) StateHalfOpen
            && (maxRequests cb1 <=? Requests (counts cb1)));
    repeat split.
Qed.

(** [afterRequest]: the lazy evaluation, then nothing when the generation
    differs, and otherwise one of: a new generation, no change of the
    tallies, one success counted, one failure counted. *)
Lemma afterRequest_effect
  (cb : CircuitBreaker) (before : Z) (success : bool) (now : Time) :
  let cb1 := fst (fst (currentState cb now)) in
  let cb' := afterRequest cb before success now in
  (generation cb1 <> before /\ cb' = cb1)
  \/ (generation cb1 = before
      /\ ((counts cb' = Counts_zero
           /\ generation cb' = u64 (generation cb1 + 1))
          \/ (generation cb' = generation cb1
              /\ (counts cb' = counts cb1
                  \/ counts cb' = CountsOps.onSuccess (counts cb1)
                  \/ counts cb' = CountsOps.onFailure (counts cb1))))).
Proof.
  unfold afterRequest. rewrite (currentState_result cb now).
  cbn [fst]. set (cb1 := fst (fst (currentState cb now))).
  destruct (generation cb1 =? before) eqn:G; cbn [negb].
  - apply Z.eqb_eq in G. right. split; [exact G |].
    destruct success.
    + destruct (onSuccess_effect cb1 (state cb1) now) as [N | [E [C | C]]];
        [left; exact N | right; split; [exact E | left; exact C]
         | right; split; [exact E | right; left; exact C]].
    + destruct (onFailure_effect cb1 (state cb1) now) as [N | [E [C | C]]];
        [left; exact N | right; split; [exact E | left; exact C]
         | right; split; [exact E | right; right; exact C]].
  - apply Z.eqb_neq in G. left. split; [exact G | reflexivity].
Qed.

Lemma count_occ_above (l : list Z) (g x : Z) :
  Forall (fun y => y <= g) l -> g < x -> count_occ Z.eq_dec l x = 0%nat.
Proof.
  intros F L. apply count_occ_not_In. intros I.
  rewrite Forall_forall in F. specialize (F x I). lia.
Qed.

Lemma count_occ_remove_nth (l : list Z) :
  forall i g x,
    nth_error l i = Some g ->
    count_occ Z.eq_dec l x
    = (count_occ Z.eq_dec (remove_nth i l) x
       + if Z.eq_dec g x then 1 else 0)%nat.
Proof.
  induction l as [| y l IH]; intros i g x H.
  - destruct i; discriminate.
  - destruct i as [| i]; cbn in H.
    + injection H as ->. cbn [remove_nth count_occ].
      destruct (Z.eq_dec g x); lia.
    + cbn [remove_nth count_occ]. rewrite (IH i g x H).
      destruct (Z.eq_dec y x); lia.
Qed.

Lemma Forall_remove_nth {A} (P : A -> Prop) (l : list A) :
  forall i, Forall P l -> Forall P (remove_nth i l).
Proof.
  induction l as [| y l IH]; intros i F.
  - destruct i; constructor.
  - inversion F as [| ? ? Py Fl]; subst.
    destruct i as [| i]; cbn; [exact Fl |].
    constructor; [exact Py | apply IH; exact Fl].
Qed.

Lemma accounted_Requests_nonneg (s : System) :
  accounted s -> 0 <= Requests (counts (breaker s)).
Proof.
  unfold accounted, in_flight_now. intros (A & B & C & _). lia.
Qed.

(** Entering a new generation keeps the tallies accounted for: nothing in
    flight belongs to the new generation. *)
Lemma newgen_accounted (cb cb' : CircuitBreaker) (l : list Z) :
  accounted (mkSystem cb l) ->
  generation cb + 1 < 2 ^ 64 ->
  newgen cb cb' ->
  accounted (mkSystem cb' l) /\ generation cb' = generation cb + 1.
Proof.
  unfold accounted, in_flight_now. cbn [breaker inflight].
  intros (A & B & C & D & E & F) W [Z G].
  rewrite u64_small in G by lia.
  split; [| exact G].
  rewrite Z, G. cbn.
  rewrite (count_occ_above l (generation cb)) by (try assumption; lia).
  repeat split; try lia.
  eapply Forall_impl; [| exact F]. cbn. intros; lia.
Qed.

Lemma lazy_accounted (cb : CircuitBreaker) (l : list Z) (now : Time) :
  accounted (mkSystem cb l) ->
  generation cb + 1 < 2 ^ 64 ->
  let cb1 := fst (fst (currentState cb now)) in
  accounted (mkSystem cb1 l)
  /\ generation cb <= generation cb1 <= generation cb + 1
  /\ Requests (counts cb1) <= Requests (counts cb)
  /\ (generation cb1 = generation cb -> cb1 = cb).
Proof.
  intros A W. cbv zeta.
  destruct (currentState_effect cb now) as [E | N].
  - rewrite E. split; [exact A |]. split; [lia |]. split; [lia |].
    intros _. reflexivity.
  - destruct (newgen_accounted _ _ _ A W N) as [A' G].
    split; [exact A' |]. split; [lia |]. split.
    + destruct N as [Z _]. rewrite Z. cbn.
      apply (accounted_Requests_nonneg _ A).
    + intros H. lia.
Qed.

Lemma accounted_step (s : System) (op : Op) :
  accounted s -> no_wrap_step s op = true -> accounted (step s op).
Proof.
  destruct s as [cb l]. intros A W.
  unfold no_wrap_step in W. cbn [breaker] in W.
  destruct op as [now | i success now | now |].
  - (* Admit *)
    apply andb_true_iff in W as [WG WR].
    apply Z.ltb_lt in WG. apply Z.ltb_lt in WR.
    destruct (lazy_accounted cb l now A ltac:(lia)) as (A1 & G1 & R1 & _).
    cbv zeta in A1, G1, R1.
    pose proof (beforeRequest_effect cb now) as B. cbv zeta in B.
    unfold step. cbn [breaker inflight].
    destruct (beforeRequest cb now) as [[cb' gen] err].
    destruct B as (Bg & Bg' & Bc).
    set (cb1 := fst (fst (currentState cb now))) in *.
    pose proof (accounted_Requests_nonneg _ A1) as RN. cbn [breaker] in RN.
    destruct err as [e |];
      unfold accounted, in_flight_now in *; cbn [breaker inflight] in *;
      destruct A1 as (P1 & P2 & P3 & P4 & P5 & P6).
    + rewrite Bg', Bc. repeat split; assumption.
    + rewrite Bg', Bc, Bg. unfold CountsOps.onRequest.
      cbn [TotalSuccesses TotalFailures Requests count_occ].
      rewrite u32_small by lia.
      destruct (Z.eq_dec (generation cb1) (generation cb1)) as [_ | NE];
        [| contradiction].
      repeat split; try lia.
      constructor; [lia | exact P6].
  - (* Complete *)
    apply Z.ltb_lt in W. rename W into WG.
    unfold step. cbn [breaker inflight].
    destruct (nth_error l i) as [g |] eqn:Hi; [| exact A].
    destruct (lazy_accounted cb l now A ltac:(lia)) as (A1 & G1 & R1 & S1).
    cbv zeta in A1, G1, R1, S1.
    pose proof (afterRequest_effect cb g success now) as F. cbv zeta in F.
    set (cb1 := fst (fst (currentState cb now))) in *.
    set (cb' := afterRequest cb g success now) in *.
    assert (Hg : g <= generation cb).
    { destruct A as (_ & _ & _ & _ & _ & FA). cbn [breaker inflight] in FA.
      rewrite Forall_forall in FA. apply FA.
      eapply nth_error_In. exact Hi. }
    assert (Arem : accounted (mkSystem cb1 (remove_nth i l))).
    { unfold accounted, in_flight_now in *. cbn [breaker inflight] in *.
      destruct A1 as (P1 & P2 & P3 & P4 & P5 & P6).
      rewrite (count_occ_remove_nth l i g (generation cb1) Hi) in P3.
      repeat split; try lia.
      apply Forall_remove_nth. exact P6. }
    destruct F as [[NE E] | [E [[Z G] | [G C]]]].
    + rewrite E. exact Arem.
    + apply (newgen_accounted cb1 cb' _ Arem ltac:(lia)).
      split; assumption.
    + unfold accounted, in_flight_now in *. cbn [breaker inflight] in *.
      destruct A1 as (P1 & P2 & P3 & P4 & P5 & P6).
      rewrite (count_occ_remove_nth l i g (generation cb1) Hi) in P3.
      destruct (Z.eq_dec g (generation cb1)) as [_ | NE];
        [| symmetry in E; contradiction].
      rewrite G.
      assert (F' : Forall (fun y => y <= generation cb1) (remove_nth i l))
        by (apply Forall_remove_nth; exact P6).
      destruct C as [C | [C | C]]; rewrite C;
        unfold CountsOps.onSuccess, CountsOps.onFailure;
        cbn [TotalSuccesses TotalFailures Requests];
        rewrite ?u32_small by lia;
        repeat split; try assumption; lia.
  - (* AskState *)
    apply Z.ltb_lt in W. rename W into WG.
    unfold step, Breaker.State. cbn [breaker inflight].
    rewrite (currentState_result cb now). cbn [fst].
    apply (lazy_accounted cb l now A ltac:(lia)).
  - exact A.
Qed.

Lemma one_streak_step (s : System) (op : Op) :
  one_streak (counts (breaker s)) -> one_streak (counts (breaker (step s op))).
Proof.
  destruct s as [cb l]. cbn [breaker]. intros H.
  assert (L : forall now, one_streak (counts (fst (fst (currentState cb now))))).
  { intros now. destruct (currentState_effect cb now) as [E | [Z _]].
    - rewrite E. exact H.
    - rewrite Z. left. reflexivity. }
  destruct op as [now | i success now | now |].
  - pose proof (beforeRequest_effect cb now) as B. cbv zeta in B.
    unfold step. cbn [breaker inflight].
    destruct (beforeRequest cb now) as [[cb' gen] err].
    destruct B as (_ & _ & Bc). specialize (L now).
    destruct err; cbn [breaker]; rewrite Bc; exact L.
  - unfold step. cbn [breaker inflight].
    destruct (nth_error l i) as [g |]; [| exact H]. cbn [breaker].
    pose proof (afterRequest_effect cb g success now) as F. cbv zeta in F.
    specialize (L now).
    destruct F as [[_ E] | [_ [[Z _] | [_ [C | [C | C]]]]]].
    + rewrite E. exact L.
    + rewrite Z. left. reflexivity.
    + rewrite C. exact L.
    + rewrite C. right. reflexivity.
    + rewrite C. left. reflexivity.
  - unfold step, Breaker.State. cbn [breaker inflight].
    rewrite (currentState_result cb now). cbn [fst breaker]. apply L.
  - exact H.
Qed.

Lemma start_accounted (nm : string) (cfg : Config) (t0 : Time) :
  accounted (start nm cfg t0) /\ one_streak (counts (breaker (start nm cfg t0))).
Proof.
  destruct (New_fields nm cfg t0) as (_ & G & C & _).
  unfold accounted, in_flight_now, start. cbn [breaker inflight].
  rewrite G, C. cbn. split; [| left; reflexivity].
  repeat split; try lia. constructor.
Qed.

Lemma run_one_streak (ops : list Op) :
  forall s, one_streak (counts (breaker s)) ->
            one_streak (counts (breaker (run s ops))).
Proof.
  induction ops as [| op ops IH]; intros s H; [exact H |].
  apply IH. apply one_streak_step. exact H.
Qed.

Lemma run_accounted (ops : list Op) :
  forall s, accounted s -> no_wrap s ops = true -> accounted (run s ops).
Proof.
  induction ops as [| op ops IH]; intros s A W; [exact A |].
  cbn [no_wrap] in W. apply andb_true_iff in W as [W1 W2].
  apply IH; [apply accounted_step; assumption | exact W2].
Qed.

(** C6, as the code has it.  After every sequence of locked sections from
    construction on (admissions, completions of invocations in flight, each
    completed at most once, queries of the state and of the tallies),
    [ConsecutiveSuccesses] and [ConsecutiveFailures] are not both non-zero;
    and as long as neither [Requests] nor the generation wraps around,
    [TotalSuccesses + TotalFailures <= Requests]. *)
Theorem C6_counts_invariants
  (nm : string) (cfg : Config) (t0 : Time) (ops : list Op) :
  let c := counts (breaker (run (start nm cfg t0) ops)) in
  (ConsecutiveSuccesses c = 0 \/ ConsecutiveFailures c = 0)
  /\ (no_wrap (start nm cfg t0) ops = true ->
      TotalSuccesses c + TotalFailures c <= Requests c).
Proof.
  destruct (start_accounted nm cfg t0) as [A S]. cbv zeta. split.
  - apply (run_one_streak ops _ S).
  - intros W.
    pose proof (run_accounted ops _ A W) as (P1 & P2 & P3 & _).
    unfold in_flight_now in P3. lia.
Qed.

Lemma C6_counts_invariants_witness :
  no_wrap (start "svc" Config_zero 1000)
    (in_sequence 3 true 2000 ++ in_sequence 2 false 3000) = true
  /\ counts (breaker (run (start "svc" Config_zero 1000)
                        (in_sequence 3 true 2000 ++ in_sequence 2 false 3000)))
     = mkCounts 5 3 2 0 2
  /\ 3 + 2 <= 5.
Proof.
  assert (W : no_wrap (start "svc" Config_zero 1000)
                (in_sequence 3 true 2000 ++ in_sequence 2 false 3000) = true)
    by (vm_compute; reflexivity).
  split; [exact W |]. split; [vm_compute; reflexivity |].
  exact (proj2 (C6_counts_invariants "svc" Config_zero 1000
                  (in_sequence 3 true 2000 ++ in_sequence 2 false 3000)) W).
Defined.

(** [n] successful invocations one after the other on the breaker of the
    default configuration, when they fit in a [uint32]. *)
Lemma in_sequence_successes (now : Time) (n : nat) :
  forall k,
    0 <= k -> k + Z.of_nat n < 2 ^ 32 ->
    run (mkSystem (with_counts (New "svc" Config_zero 1000)
                     (mkCounts k k 0 k 0)) [])
        (in_sequence n true now)
    = mkSystem (with_counts (New "svc" Config_zero 1000)
                  (mkCounts (k + Z.of_nat n) (k + Z.of_nat n) 0
                            (k + Z.of_nat n) 0)) [].
Proof.
  induction n as [| n IH]; intros k K B.
  - cbn. rewrite Z.add_0_r. reflexivity.
  - rewrite Nat2Z.inj_succ in *.
    change (in_sequence (S n) true now)
      with ([Admit now; Complete 0 true now] ++ in_sequence n true now).
    unfold run. rewrite fold_left_app. fold (run).
    replace (fold_left step [Admit now; Complete 0 true now]
               (mkSystem (with_counts (New "svc" Config_zero 1000)
                            (mkCounts k k 0 k 0)) []))
      with (mkSystem (with_counts (New "svc" Config_zero 1000)
                        (mkCounts (k + 1) (k + 1) 0 (k + 1) 0)) []).
    + change (fold_left step (in_sequence n true now) ?s)
        with (run s (in_sequence n true now)).
      rewrite IH by lia.
      replace (k + 1 + Z.of_nat n) with (k + Z.succ (Z.of_nat n)) by lia.
      reflexivity.
    + cbn -[u32]. rewrite !u32_small by lia. reflexivity.
Qed.

Lemma run_app (s : System) (a b : list Op) :
  run s (a ++ b) = run (run s a) b.
Proof. unfold run. apply fold_left_app. Qed.

Lemma many_successes (now : Time) (n : nat) :
  Z.of_nat n < 2 ^ 32 ->
  run (start "svc" Config_zero 1000) (in_sequence n true now)
  = mkSystem (with_counts (New "svc" Config_zero 1000)
                (mkCounts (Z.of_nat n) (Z.of_nat n) 0 (Z.of_nat n) 0)) [].
Proof.
  intros B.
  exact (in_sequence_successes now n 0 ltac:(lia) ltac:(lia)).
Qed.

Lemma max_uint32_calls_value : Z.of_nat max_uint32_calls = 4294967295.
Proof. exact (Z2Nat.id 4294967295 (Pos2Z.is_nonneg 4294967295)). Qed.

Lemma wrapped_counts : counts (breaker wrapped) = mkCounts 0 4294967295 0 4294967295 0.
Proof.
  unfold wrapped.
  pose proof (run_app (start "svc" Config_zero 1000)
                (in_sequence max_uint32_calls true 2000) [Admit 2000]) as E.
  pose proof (many_successes 2000 max_uint32_calls) as F.
  rewrite max_uint32_calls_value in F.
  specialize (F eq_refl).
  rewrite F in E. rewrite E.
  vm_compute. reflexivity.
Qed.

(** The periodic reset in Closed: a query after the expiry opens a new
    generation, whatever is in flight. *)
Lemma rollover_step (g : Z) (c : Counts) (e t : Time) (l : list Z) :
  e <> 0 -> e < t ->
  step (mkSystem (rolling g c e) l) (AskState t)
  = mkSystem (rolling (u64 (g + 1)) Counts_zero (t + Second)) l.
Proof.
  intros NZ L. unfold step, Breaker.State, currentState.
  cbn [breaker inflight rolling state with_expiry with_counts with_generation
       expiry New toNewGeneration interval rolling_config Interval].
  replace (e =? 0) with false by (symmetry; apply Z.eqb_neq; exact NZ).
  replace (e <? t) with true by (symmetry; apply Z.ltb_lt; exact L).
  reflexivity.
Qed.

Lemma rollovers_run (n : nat) :
  forall g c e t l,
    e <> 0 -> e < t -> 0 < t ->
    run (mkSystem (rolling g c e) l) (rollovers (S n) t)
    = mkSystem (rolling (u64 (g + 1 + Z.of_nat n)) Counts_zero
                  (t + 2 * Second * Z.of_nat n + Second)) l.
Proof.
  induction n as [| n IH]; intros g c e t l NZ L P.
  - cbn [rollovers run fold_left]. rewrite rollover_step by assumption.
    change (Z.of_nat 0) with 0.
    rewrite Z.mul_0_r, !Z.add_0_r. reflexivity.
  - change (rollovers (S (S n)) t)
      with (AskState t :: rollovers (S n) (t + 2 * Second)).
    change (run ?s (AskState t :: ?ops)) with (run (step s (AskState t)) ops).
    rewrite rollover_step by assumption.
    rewrite IH by (unfold Second; lia).
    rewrite Nat2Z.inj_succ.
    replace (u64 (u64 (g + 1) + 1 + Z.of_nat n))
      with (u64 (g + 1 + Z.succ (Z.of_nat n))).
    + replace (t + 2 * Second + 2 * Second * Z.of_nat n + Second)
        with (t + 2 * Second * Z.succ (Z.of_nat n) + Second) by lia.
      reflexivity.
    + unfold u64.
      replace (g + 1 + Z.succ (Z.of_nat n))
        with ((g + 1) + (1 + Z.of_nat n)) by lia.
      replace ((g + 1) mod 2 ^ 64 + 1 + Z.of_nat n)
        with ((g + 1) mod 2 ^ 64 + (1 + Z.of_nat n)) by lia.
      rewrite Zplus_mod_idemp_l. reflexivity.
Qed.

Lemma run_cons (s : System) (op : Op) (ops : list Op) :
  run s (op :: ops) = run (step s op) ops.
Proof. reflexivity. Qed.

Lemma rollovers_run_pos (n : nat) (g : Z) (c : Counts) (e t : Time)
  (l : list Z) :
  (0 < n)%nat -> e <> 0 -> e < t -> 0 < t ->
  run (mkSystem (rolling g c e) l) (rollovers n t)
  = mkSystem (rolling (u64 (g + Z.of_nat n)) Counts_zero
                (t + 2 * Second * (Z.of_nat n - 1) + Second)) l.
Proof.
  intros N NZ L P. destruct n as [| n]; [lia |].
  rewrite rollovers_run by assumption.
  rewrite Nat2Z.inj_succ.
  replace (g + 1 + Z.of_nat n) with (g + Z.succ (Z.of_nat n)) by lia.
  replace (Z.succ (Z.of_nat n) - 1) with (Z.of_nat n) by lia.
  reflexivity.
Qed.

Lemma all_generations_value :
  Z.of_nat all_generations = 18446744073709551616.
Proof.
  exact (Z2Nat.id 18446744073709551616
           (Pos2Z.is_nonneg 18446744073709551616)).
Qed.

(** After [2^64] rollovers the generation is 1 again, and the success of
    the invocation admitted in the first generation 1 is counted in a
    generation that has no request. *)
Lemma revived_counts : counts (breaker revived) = mkCounts 0 1 0 1 0.
Proof.
  unfold revived.
  pose proof (run_cons (start "svc" rolling_config 1000) (Admit 2000)
                (rollovers all_generations (1000 + 2 * Second)
                 ++ [Complete 0 true
                       (1000 + 2 * Second * 18446744073709551616)])) as E1.
  assert (A : step (start "svc" rolling_config 1000) (Admit 2000)
              = mkSystem (rolling 1 (mkCounts 1 0 0 0 0) (1000 + Second)) [1])
    by (vm_compute; reflexivity).
  rewrite A in E1. rewrite E1. clear E1 A.
  pose proof (run_app
                (mkSystem (rolling 1 (mkCounts 1 0 0 0 0) (1000 + Second)) [1])
                (rollovers all_generations (1000 + 2 * Second))
                [Complete 0 true
                   (1000 + 2 * Second * 18446744073709551616)]) as E2.
  pose proof (rollovers_run_pos all_generations 1 (mkCounts 1 0 0 0 0)
                (1000 + Second) (1000 + 2 * Second) [1]) as R.
  assert (N : (0 < all_generations)%nat).
  { pose proof all_generations_value as V.
    destruct all_generations; [discriminate V | apply Nat.lt_0_succ]. }
  specialize (R N ltac:(discriminate) eq_refl eq_refl).
  rewrite all_generations_value in R.
  rewrite R in E2. rewrite E2.
  vm_compute. reflexivity.
Qed.

(** Two runs after which [TotalSuccesses + TotalFailures] exceeds
    [Requests].  In [wrapped], [Requests] has wrapped around to 0 while
    [TotalSuccesses] is [2^32 - 1].  In [revived], the generation has wrapped
    around and a success admitted [2^64] generations earlier is counted. *)
Lemma C6_counterexample :
  (Requests (counts (breaker wrapped)) = 0
   /\ TotalSuccesses (counts (breaker wrapped)) = 4294967295
   /\ ~ (TotalSuccesses (counts (breaker wrapped))
         + TotalFailures (counts (breaker wrapped))
         <= Requests (counts (breaker wrapped))))
  /\
  (Requests (counts (breaker revived)) = 0
   /\ TotalSuccesses (counts (breaker revived)) = 1
   /\ ~ (TotalSuccesses (counts (breaker revived))
         + TotalFailures (counts (breaker revived))
         <= Requests (counts (breaker revived)))).
Proof.
  rewrite wrapped_counts, revived_counts.
  cbn [Requests TotalSuccesses TotalFailures].
  split; repeat split; lia.
Qed.

(** * Further properties of the breaker *)

(** ** What the operations leave alone *)

Lemma toNewGeneration_frame (cb : CircuitBreaker) (now : Time) :
  settings (toNewGeneration cb now) = settings cb
  /\ state (toNewGeneration cb now) = state cb
  /\ notified (toNewGeneration cb now) = notified cb.
Proof.
  destruct cb as [nm m i t r o st g c e l].
  unfold toNewGeneration, settings. cbn.
  destruct st; [destruct (i =? 0) | |]; repeat split; reflexivity.
Qed.

Lemma setState_settings (cb : CircuitBreaker) (s : State) (now : Time) :
  settings (setState cb s now) = settings cb.
Proof.
  unfold setState. destruct (State_eqb (state cb) s); [reflexivity |].
  cbv zeta.
  destruct (toNewGeneration_frame (with_state cb s) now) as (S & _ & _).
  destruct (onStateChange (toNewGeneration (with_state cb s) now));
    [| exact S].
  unfold settings in *. cbn [with_notified name maxRequests interval timeout
                               readyToTrip onStateChange]. exact S.
Qed.

Lemma currentState_settings (cb : CircuitBreaker) (now : Time) :
  settings (fst (fst (currentState cb now))) = settings cb.
Proof.
  unfold currentState. cbn [fst]. destruct (state cb).
  - destruct (negb (expiry cb =? 0) && (expiry cb <? now));
      [apply toNewGeneration_frame | reflexivity].
  - reflexivity.
  - destruct (expiry cb <? now); [apply setState_settings | reflexivity].
Qed.

Lemma onSuccess_settings (cb : CircuitBreaker) (s : State) (now : Time) :
  settings (onSuccess cb s now) = settings cb.
Proof.
  unfold onSuccess. destruct s; cbv zeta; try reflexivity.
  match goal with |- context [setState ?x _ _] => set (cb1 := x) end.
  destruct (maxRequests cb1 <=? ConsecutiveSuccesses (counts cb1));
    [rewrite setState_settings |]; reflexivity.
Qed.

Lemma onFailure_settings (cb : CircuitBreaker) (s : State) (now : Time) :
  settings (onFailure cb s now) = settings cb.
Proof.
  unfold onFailure. destruct s; cbv zeta; try reflexivity.
  - match goal with |- context [setState ?x _ _] => set (cb1 := x) end.
    destruct (readyToTrip cb1 (counts cb1));
      [rewrite setState_settings |]; reflexivity.
  - apply setState_settings.
Qed.

Lemma beforeRequest_settings (cb : CircuitBreaker) (now : Time) :
  settings (fst (fst (beforeRequest cb now))) = settings cb.
Proof.
  unfold beforeRequest. rewrite (currentState_result cb now).
  pose proof (currentState_settings cb now) as S.
  set (cb1 := fst (fst (currentState cb now))) in *.
  destruct (State_eqb (state cb1) StateOpen); [exact S |].
  destruct (State_eqb (state cb1) StateHalfOpen
            && (maxRequests cb1 <=? Requests (counts cb1))); exact S.
Qed.

Lemma afterRequest_settings
  (cb : CircuitBreaker) (before : Z) (success : bool) (now : Time) :
  settings (afterRequest cb before success now) = settings cb.
Proof.
  unfold afterRequest. rewrite (currentState_result cb now).
  pose proof (currentState_settings cb now) as S.
  set (cb1 := fst (fst (currentState cb now))) in *.
  destruct (negb (generation cb1 =? before)); [exact S |].
  destruct success;
    [rewrite onSuccess_settings | rewrite onFailure_settings]; exact S.
Qed.

Lemma step_settings (s : System) (op : Op) :
  settings (breaker (step s op)) = settings (breaker s).
Proof.
  destruct op as [now | i success now | now |]; unfold step.
  - pose proof (beforeRequest_settings (breaker s) now) as B.
    destruct (beforeRequest (breaker s) now) as [[cb gen] [e |]]; exact B.
  - destruct (nth_error (inflight s) i); [| reflexivity].
    apply afterRequest_settings.
  - unfold Breaker.State. rewrite (currentState_result (breaker s) now).
    apply currentState_settings.
  - reflexivity.
Qed.

Lemma run_settings (ops : list Op) :
  forall s, settings (breaker (run s ops)) = settings (breaker s).
Proof.
  induction ops as [| op ops IH]; intros s; [reflexivity |].
  cbn [run fold_left]. fold (run (step s op) ops).
  rewrite IH. apply step_settings.
Qed.

Lemma New_settings (nm : string) (cfg : Config) (t0 : Time) :
  settings (New nm cfg t0)
  = (nm,
     (if MaxRequests cfg =? 0 then 1 else MaxRequests cfg),
     Interval cfg,
     (if Timeout cfg =? 0 then 60 * Second else Timeout cfg),
     match ReadyToTrip cfg with
     | Some f => f
     | None => defaultReadyToTrip
     end,
     OnStateChange cfg).
Proof.
  unfold New.
  match goal with |- settings (toNewGeneration ?x _) = _ =>
    destruct (toNewGeneration_frame x t0) as (S & _ & _) end.
  exact S.
Qed.

(** No operation changes the name, the probe budget, the interval, the
    cool-off, the trip predicate or the notifier of a breaker: after every
    run they are what [New] made of the configuration. *)
Theorem settings_never_change
  (nm : string) (cfg : Config) (t0 : Time) (ops : list Op) :
  settings (breaker (run (start nm cfg t0) ops))
  = (nm,
     (if MaxRequests cfg =? 0 then 1 else MaxRequests cfg),
     Interval cfg,
     (if Timeout cfg =? 0 then 60 * Second else Timeout cfg),
     match ReadyToTrip cfg with
     | Some f => f
     | None => defaultReadyToTrip
     end,
     OnStateChange cfg).
Proof.
  rewrite run_settings. apply New_settings.
Qed.

(** ** The calls of the notifier *)

Lemma with_counts_logged (cb : CircuitBreaker) (c : Counts) :
  logged cb -> logged (with_counts cb c).
Proof. intros H. exact H. Qed.

Lemma toNewGeneration_logged (cb : CircuitBreaker) (now : Time) :
  logged cb -> logged (toNewGeneration cb now).
Proof.
  destruct cb as [nm m i t r o st g c e l].
  unfold toNewGeneration, logged. cbn.
  destruct st; [destruct (i =? 0) | |]; cbn; intros H; exact H.
Qed.

Lemma setState_logged (cb : CircuitBreaker) (s : State) (now : Time) :
  logged cb -> logged (setState cb s now).
Proof.
  destruct cb as [nm m i t r o st g c e l].
  unfold setState, logged, toNewGeneration. cbn.
  destruct st, s; cbn; try (intros H; exact H);
    try destruct (i =? 0); destruct o; cbn; intros H;
    try exact H; repeat split; try exact H; discriminate.
Qed.

Lemma currentState_logged (cb : CircuitBreaker) (now : Time) :
  logged cb -> logged (fst (fst (currentState cb now))).
Proof.
  intros H. unfold currentState. cbn [fst]. destruct (state cb).
  - destruct (negb (expiry cb =? 0) && (expiry cb <? now));
      [apply toNewGeneration_logged |]; exact H.
  - exact H.
  - destruct (expiry cb <? now); [apply setState_logged |]; exact H.
Qed.

Lemma onSuccess_logged (cb : CircuitBreaker) (s : State) (now : Time) :
  logged cb -> logged (onSuccess cb s now).
Proof.
  intros H. unfold onSuccess. destruct s; cbv zeta; try exact H.
  match goal with |- context [setState ?x _ _] => set (cb1 := x) end.
  destruct (maxRequests cb1 <=? ConsecutiveSuccesses (counts cb1));
    [apply setState_logged |]; exact H.
Qed.

Lemma onFailure_logged (cb : CircuitBreaker) (s : State) (now : Time) :
  logged cb -> logged (onFailure cb s now).
Proof.
  intros H. unfold onFailure. destruct s; cbv zeta; try exact H.
  - match goal with |- context [setState ?x _ _] => set (cb1 := x) end.
    destruct (readyToTrip cb1 (counts cb1));
      [apply setState_logged |]; exact H.
  - apply setState_logged. exact H.
Qed.

Lemma beforeRequest_logged (cb : CircuitBreaker) (now : Time) :
  logged cb -> logged (fst (fst (beforeRequest cb now))).
Proof.
  intros H. unfold beforeRequest. rewrite (currentState_result cb now).
  pose proof (currentState_logged cb now H) as L.
  set (cb1 := fst (fst (currentState cb now))) in *.
  destruct (State_eqb (state cb1) StateOpen); [exact L |].
  destruct (State_eqb (state cb1) StateHalfOpen
            && (maxRequests cb1 <=? Requests (counts cb1))); exact L.
Qed.

Lemma afterRequest_logged
  (cb : CircuitBreaker) (before : Z) (success : bool) (now : Time) :
  logged cb -> logged (afterRequest cb before success now).
Proof.
  intros H. unfold afterRequest. rewrite (currentState_result cb now).
  pose proof (currentState_logged cb now H) as L.
  set (cb1 := fst (fst (currentState cb now))) in *.
  destruct (negb (generation cb1 =? before)); [exact L |].
  destruct success; [apply onSuccess_logged | apply onFailure_logged]; exact L.
Qed.

Lemma step_logged (s : System) (op : Op) :
  logged (breaker s) -> logged (breaker (step s op)).
Proof.
  intros H. destruct op as [now | i success now | now |]; unfold step.
  - pose proof (beforeRequest_logged (breaker s) now H) as B.
    destruct (beforeRequest (breaker s) now) as [[cb gen] [e |]]; exact B.
  - destruct (nth_error (inflight s) i); [| exact H].
    apply afterRequest_logged. exact H.
  - unfold Breaker.State. rewrite (currentState_result (breaker s) now).
    apply currentState_logged. exact H.
  - exact H.
Qed.

Lemma run_logged (ops : list Op) :
  forall s, logged (breaker s) -> logged (breaker (run s ops)).
Proof.
  induction ops as [| op ops IH]; intros s H; [exact H |].
  cbn [run fold_left]. fold (run (step s op) ops).
  apply IH. apply step_logged. exact H.
Qed.

(** After every run, the calls made to the notifier are exactly the path of
    state changes of the breaker: the first call leaves Closed, each call
    starts in the state the call before it entered and enters a different
    one, the latest call entered the current state, and each carries the
    name of the breaker.  A periodic reset in Closed makes no call; without
    a notifier no call is recorded. *)
Theorem notifier_calls_are_the_state_changes
  (nm : string) (cfg : Config) (t0 : Time) (ops : list Op) :
  if OnStateChange cfg
  then trace_from nm (notified (breaker (run (start nm cfg t0) ops)))
         (state (breaker (run (start nm cfg t0) ops)))
  else notified (breaker (run (start nm cfg t0) ops)) = [].
Proof.
  assert (L : logged (breaker (run (start nm cfg t0) ops))).
  { apply run_logged. unfold start. cbn [breaker].
    destruct (New_fields nm cfg t0) as (S & _ & _ & _ & _ & _ & N).
    pose proof (New_settings nm cfg t0) as P.
    unfold logged. rewrite N, S.
    destruct (onStateChange (New nm cfg t0)); reflexivity. }
  pose proof (settings_eq := run_settings ops (start nm cfg t0)).
  unfold start in settings_eq at 2. cbn [breaker] in settings_eq.
  rewrite New_settings in settings_eq.
  unfold settings in settings_eq. injection settings_eq as E1 _ _ _ _ E6.
  unfold logged in L. rewrite E1, E6 in L. exact L.
Qed.

(** ** Generations *)

Lemma no_wrap_app (a b : list Op) :
  forall s, no_wrap s (a ++ b) = no_wrap s a && no_wrap (run s a) b.
Proof.
  induction a as [| op a IH]; intros s; [reflexivity |].
  cbn [app no_wrap run fold_left]. fold (run (step s op) a).
  rewrite IH. apply andb_assoc.
Qed.

Lemma step_generation (s : System) (op : Op) :
  accounted s -> no_wrap_step s op = true ->
  generation (breaker s) <= generation (breaker (step s op))
  <= generation (breaker s) + 2
  /\ (generation (breaker s) < generation (breaker (step s op)) ->
      counts (breaker (step s op)) = Counts_zero
      \/ counts (breaker (step s op)) = CountsOps.onRequest Counts_zero).
Proof.
  destruct s as [cb l]. intros A W.
  unfold no_wrap_step in W. cbn [breaker] in *.
  destruct op as [now | i success now | now |].
  - apply andb_true_iff in W as [WG _]. apply Z.ltb_lt in WG.
    destruct (lazy_accounted cb l now A ltac:(lia)) as (_ & G1 & _ & S1).
    cbv zeta in G1, S1.
    pose proof (currentState_effect cb now) as [E | [Z _]];
      pose proof (beforeRequest_effect cb now) as B; cbv zeta in B;
      unfold step; cbn [breaker inflight];
      destruct (beforeRequest cb now) as [[cb' gen] err];
      destruct B as (_ & Bg & Bc);
      set (cb1 := fst (fst (currentState cb now))) in *.
    + assert (generation cb' = generation cb) by (rewrite Bg, E; reflexivity).
      destruct err; cbn [breaker]; split; lia.
    + destruct err; cbn [breaker]; (split; [lia |]); intros _;
        rewrite Bc, Z; [left | right]; reflexivity.
  - apply Z.ltb_lt in W.
    unfold step. cbn [breaker inflight].
    destruct (nth_error l i) as [g |] eqn:Hi; cbn [breaker];
      [| split; [lia | intros; lia]].
    destruct (lazy_accounted cb l now A ltac:(lia)) as (A1 & G1 & _ & S1).
    cbv zeta in A1, G1, S1.
    assert (Hg : g <= generation cb).
    { destruct A as (_ & _ & _ & _ & _ & FA). cbn [breaker inflight] in FA.
      rewrite Forall_forall in FA. apply FA.
      eapply nth_error_In. exact Hi. }
    assert (G0 : 0 <= generation cb) by apply A.
    pose proof (afterRequest_effect cb g success now) as F. cbv zeta in F.
    pose proof (currentState_effect cb now) as CE.
    set (cb1 := fst (fst (currentState cb now))) in *.
    set (cb' := afterRequest cb g success now) in *.
    destruct F as [[NE E] | [E [[Z G] | [G C]]]].
    + rewrite E. split; [lia |]. intros L.
      destruct CE as [CE | [Z _]]; [rewrite CE in L; lia |].
      left. exact Z.
    + rewrite u64_small in G by lia. split; [lia |].
      intros _. left. exact Z.
    + rewrite G. split; [lia |]. intros L.
      assert (generation cb1 = generation cb) by lia. lia.
  - apply Z.ltb_lt in W.
    unfold step, Breaker.State. cbn [breaker inflight].
    rewrite (currentState_result cb now). cbn [fst breaker].
    destruct (lazy_accounted cb l now A ltac:(lia)) as (_ & G1 & _ & _).
    cbv zeta in G1. split; [lia |]. intros L.
    destruct (currentState_effect cb now) as [E | [Z _]];
      [rewrite E in L; lia | left; exact Z].
  - cbn. split; [lia | intros; lia].
Qed.

(** As long as no counter wraps around, no operation makes the generation
    smaller or adds more than two to it; and an operation that changes the
    generation leaves the tallies of a fresh generation: all zero, or the
    one request of the admission that operation granted. *)
Theorem generation_moves_forward
  (nm : string) (cfg : Config) (t0 : Time) (ops : list Op) (op : Op) :
  no_wrap (start nm cfg t0) (ops ++ [op]) = true ->
  let cb := breaker (run (start nm cfg t0) ops) in
  let cb' := breaker (run (start nm cfg t0) (ops ++ [op])) in
  generation cb <= generation cb' <= generation cb + 2
  /\ (generation cb < generation cb' ->
      counts cb' = Counts_zero \/ counts cb' = mkCounts 1 0 0 0 0).
Proof.
  intros W. cbv zeta. rewrite run_app.
  rewrite no_wrap_app in W. apply andb_true_iff in W as [W1 W2].
  cbn [no_wrap] in W2. rewrite andb_true_r in W2.
  destruct (start_accounted nm cfg t0) as [A _].
  pose proof (run_accounted ops _ A W1) as A1.
  exact (step_generation _ op A1 W2).
Qed.

Lemma generation_moves_forward_witness :
  no_wrap (start "svc" tripping_config 1000)
    ([Admit 1000; Admit 1000] ++ [Complete 0 false 2000]) = true
  /\ generation (breaker (run (start "svc" tripping_config 1000)
                            [Admit 1000; Admit 1000])) = 1
  /\ generation (breaker tripped) = 2
  /\ counts (breaker tripped) = Counts_zero.
Proof.
  assert (W : no_wrap (start "svc" tripping_config 1000)
                ([Admit 1000; Admit 1000] ++ [Complete 0 false 2000]) = true)
    by (vm_compute; reflexivity).
  pose proof (generation_moves_forward "svc" tripping_config 1000
                [Admit 1000; Admit 1000] (Complete 0 false 2000) W) as [_ P].
  split; [exact W |]. split; [reflexivity |]. split; [reflexivity |].
  vm_compute. reflexivity.
Defined.

(** ** Closed *)

(** The lazy evaluation in Closed: the state stays Closed and no call is
    made to the notifier; the tallies are kept, or cleared by the periodic
    reset. *)
Lemma currentState_closed (cb : CircuitBreaker) (now : Time) :
  state cb = StateClosed ->
  let cb1 := fst (fst (currentState cb now)) in
  state cb1 = StateClosed /\ notified cb1 = notified cb
  /\ (counts cb1 = counts cb \/ counts cb1 = Counts_zero).
Proof.
  intros S. unfold currentState. rewrite S. cbn [fst].
  destruct (negb (expiry cb =? 0) && (expiry cb <? now)).
  - destruct (toNewGeneration_frame cb now) as (_ & St & N).
    destruct (toNewGeneration_newgen cb now) as [Z _].
    rewrite St, N, Z. repeat split; [exact S | right; reflexivity].
  - repeat split; [exact S | left; reflexivity].
Qed.

Lemma step_unharmed (s : System) (op : Op) :
  unharmed (breaker s) ->
  match op with Complete _ false _ => False | _ => True end ->
  unharmed (breaker (step s op)).
Proof.
  destruct s as [cb l]. cbn [breaker]. intros (S & TF & CF & N) NF.
  assert (L : forall now, unharmed (fst (fst (currentState cb now)))).
  { intros now. destruct (currentState_closed cb now S) as (S1 & N1 & [C | C]);
      unfold unharmed; rewrite S1, N1, C; repeat split; assumption. }
  destruct op as [now | i success now | now |].
  - unfold step, beforeRequest. cbn [breaker inflight].
    rewrite (currentState_result cb now).
    destruct (L now) as (S1 & TF1 & CF1 & N1).
    set (cb1 := fst (fst (currentState cb now))) in *.
    rewrite S1. cbn. repeat split; assumption.
  - destruct success; [| contradiction].
    unfold step. cbn [breaker inflight].
    destruct (nth_error l i) as [g |]; cbn [breaker];
      [| repeat split; assumption].
    unfold afterRequest. rewrite (currentState_result cb now).
    destruct (L now) as (S1 & TF1 & CF1 & N1).
    set (cb1 := fst (fst (currentState cb now))) in *.
    destruct (negb (generation cb1 =? g)); [repeat split; assumption |].
    rewrite S1. cbn. repeat split; assumption.
  - unfold step, Breaker.State. cbn [breaker inflight].
    rewrite (currentState_result cb now). cbn [fst breaker]. apply L.
  - repeat split; assumption.
Qed.

(** A breaker that sees no failure never leaves Closed: after every run in
    which no completion reports a failure (whatever the configuration, the
    instants and the interleaving), the state is Closed, no failure is
    counted and the notifier was never called. *)
Theorem closed_without_failure
  (nm : string) (cfg : Config) (t0 : Time) (ops : list Op) :
  no_failure ops = true ->
  let cb := breaker (run (start nm cfg t0) ops) in
  state cb = StateClosed /\ TotalFailures (counts cb) = 0
  /\ ConsecutiveFailures (counts cb) = 0 /\ notified cb = [].
Proof.
  intros NF. cbv zeta.
  assert (U : unharmed (breaker (start nm cfg t0))).
  { unfold start. cbn [breaker].
    destruct (New_fields nm cfg t0) as (S & _ & C & _ & _ & _ & N).
    unfold unharmed. rewrite S, C, N. repeat split. }
  revert U NF. generalize (start nm cfg t0).
  induction ops as [| op ops IH]; intros s U NF; [exact U |].
  cbn [no_failure forallb] in NF. apply andb_true_iff in NF as [N1 N2].
  cbn [run fold_left]. fold (run (step s op) ops).
  apply IH; [| exact N2].
  apply step_unharmed; [exact U |].
  destruct op as [? | ? [|] ? | ? |]; try exact I. discriminate N1.
Qed.

Lemma closed_without_failure_witness :
  no_failure (in_sequence 3 true 2000 ++ [Admit 3000; AskState 4000]) = true
  /\ state (breaker (run (start "svc" rolling_config 1000)
                       (in_sequence 3 true 2000
                        ++ [Admit 3000; AskState 4000]))) = StateClosed.
Proof.
  assert (NF : no_failure (in_sequence 3 true 2000
                           ++ [Admit 3000; AskState 4000]) = true)
    by reflexivity.
  split; [exact NF |].
  exact (proj1 (closed_without_failure "svc" rolling_config 1000 _ NF)).
Defined.

(** ** Rejections *)

Lemma beforeRequest_open_waiting (cb : CircuitBreaker) (now : Time) :
  state cb = StateOpen -> now <= expiry cb ->
  beforeRequest cb now = (cb, generation cb, Some ErrCircuitOpen).
Proof.
  intros S E. unfold beforeRequest.
  rewrite currentState_settled by (right; right; split; assumption).
  rewrite S. reflexivity.
Qed.

(** A call that is refused runs nothing and changes nothing.  In Open up to
    the expiry, and in Half-Open with the probe budget used up, [Execute]
    and [ExecuteWithContext] return the rejection whatever the work would
    do, make no call of [afterRequest], and leave the breaker exactly as it
    was. *)
Theorem rejected_call_changes_nothing
  (cb : CircuitBreaker) (fn : WorkResult) (race : Race) (t1 t2 t3 : Time) :
  (state cb = StateOpen /\ t1 <= expiry cb)
  \/ (state cb = StateHalfOpen /\ maxRequests cb <= Requests (counts cb)) ->
  let e := match state cb with
           | StateOpen => ErrCircuitOpen
           | _ => ErrTooManyRequests
           end in
  Execute cb fn t1 t2 = (cb, Return (Some e))
  /\ ExecuteWithContext cb race t1 t2 t3 = (cb, Returned (Some e), []).
Proof.
  intros [[S E] | [S M]]; cbv zeta; unfold Execute, ExecuteWithContext.
  - rewrite beforeRequest_open_waiting by assumption.
    rewrite S. split; reflexivity.
  - rewrite beforeRequest_half_open_full by assumption.
    rewrite S. split; reflexivity.
Qed.

Lemma rejected_call_changes_nothing_witness :
  state (breaker tripped) = StateOpen
  /\ 3000 <= expiry (breaker tripped)
  /\ Execute (breaker tripped) (Panic "boom") 3000 4000
     = (breaker tripped, Return (Some ErrCircuitOpen)).
Proof.
  assert (S : state (breaker tripped) = StateOpen) by reflexivity.
  assert (E : 3000 <= expiry (breaker tripped))
    by (vm_compute; discriminate).
  split; [exact S |]. split; [exact E |].
  destruct (rejected_call_changes_nothing (breaker tripped) (Panic "boom")
              (DoneFirst (Return None)) 3000 4000 5000
              (or_introl (conj S E))) as [P _].
  exact P.
Defined.

(** ** Failures *)

Lemma setState_open_fields (cb : CircuitBreaker) (now : Time) :
  state cb <> StateOpen ->
  let cb' := setState cb StateOpen now in
  state cb' = StateOpen /\ generation cb' = u64 (generation cb + 1)
  /\ counts cb' = Counts_zero /\ expiry cb' = now + timeout cb
  /\ notified cb' =
     if onStateChange cb
     then (name cb, state cb, StateOpen) :: notified cb
     else notified cb.
Proof.
  destruct cb as [nm m i t r o st g c e l]. cbn. intros NS.
  unfold setState, toNewGeneration. cbn.
  destruct st; [| | contradiction]; destruct o; cbn; repeat split.
Qed.



(** A failure in Closed.  When the work of an admitted call returns an error
    or panics, with no periodic reset due and no other completion in
    between, the trip predicate is given the tallies with this request and
    this failure already counted.  When it answers true the breaker is left
    Open, in the next generation, with the tallies cleared and the expiry
    one cool-off after the completion; when it answers false the breaker
    only has the new tallies. *)
Theorem closed_failure_trips_on_counted_tallies
  (cb : CircuitBreaker) (fn : WorkResult) (t1 t2 : Time) :
  state cb = StateClosed ->
  expiry cb = 0 \/ (t1 <= expiry cb /\ t2 <= expiry cb) ->
  fails fn = true ->
  let c := CountsOps.onFailure (CountsOps.onRequest (counts cb)) in
  let cb' := fst (Execute cb fn t1 t2) in
  snd (Execute cb fn t1 t2) = fn
  /\ (readyToTrip cb c = true ->
      state cb' = StateOpen
      /\ generation cb' = u64 (generation cb + 1)
      /\ counts cb' = Counts_zero
      /\ expiry cb' = t2 + timeout cb
      /\ notified cb' =
         if onStateChange cb
         then (name cb, StateClosed, StateOpen) :: notified cb
         else notified cb)
  /\ (readyToTrip cb c = false -> cb' = with_counts cb c).
Proof.
  intros S E F. cbv zeta. unfold Execute, beforeRequest.
  assert (Q1 : settled cb t1)
    by (right; left; split; [exact S | destruct E as [E | [E _]]; auto]).
  rewrite currentState_settled by exact Q1.
  rewrite S. cbn [State_eqb andb]. cbv zeta.
  set (cb1 := with_counts cb _).
  assert (S1 : state cb1 = StateClosed) by exact S.
  assert (Q2 : settled cb1 t2)
    by (right; left; split; [exact S1 | destruct E as [E | [_ E]]; auto]).
  assert (A : afterRequest cb1 (generation cb) false t2
              = onFailure cb1 StateClosed t2).
  { unfold afterRequest. rewrite currentState_settled by exact Q2.
    change (generation cb1) with (generation cb).
    rewrite Z.eqb_refl. cbn [negb]. rewrite S1. reflexivity. }
  assert (X : fst (match fn with
                   | Return err =>
                       (afterRequest cb1 (generation cb) (is_nil err) t2,
                        Return err)
                   | Panic v =>
                       (afterRequest cb1 (generation cb) false t2, Panic v)
                   end) = onFailure cb1 StateClosed t2
              /\ snd (match fn with
                      | Return err =>
                          (afterRequest cb1 (generation cb) (is_nil err) t2,
                           Return err)
                      | Panic v =>
                          (afterRequest cb1 (generation cb) false t2, Panic v)
                      end) = fn).
  { destruct fn as [[e |] | v]; try discriminate F; cbn [fst snd is_nil];
      rewrite A; split; reflexivity. }
  destruct X as [X1 X2]. cbn [fst snd]. rewrite X1, X2.
  split; [reflexivity |].
  unfold onFailure. cbv zeta.
  change (readyToTrip (with_counts cb1 _) (counts (with_counts cb1 _)))
    with (readyToTrip cb
            (CountsOps.onFailure (CountsOps.onRequest (counts cb)))).
  split; intros T; rewrite T.
  - match goal with |- context [setState ?x _ _] => set (cb2 := x) end.
    assert (NS : state cb2 <> StateOpen)
      by (change (state cb2) with (state cb); rewrite S; discriminate).
    destruct (setState_open_fields cb2 t2 NS) as (P1 & P2 & P3 & P4 & P5).
    change (state cb2) with (state cb) in P5. rewrite S in P5.
    repeat split; assumption.
  - reflexivity.
Qed.

Lemma closed_failure_trips_on_counted_tallies_witness :
  state (New "svc" tripping_config 1000) = StateClosed
  /\ expiry (New "svc" tripping_config 1000) = 0
  /\ state (fst (Execute (New "svc" tripping_config 1000)
                   (Return (Some (Custom "down"))) 2000 3000)) = StateOpen
  /\ expiry (fst (Execute (New "svc" tripping_config 1000)
                    (Return (Some (Custom "down"))) 2000 3000))
     = 3000 + 100 * Millisecond.
Proof.
  assert (S : state (New "svc" tripping_config 1000) = StateClosed)
    by reflexivity.
  assert (E : expiry (New "svc" tripping_config 1000) = 0) by reflexivity.
  split; [exact S |]. split; [exact E |].
  destruct (closed_failure_trips_on_counted_tallies
              (New "svc" tripping_config 1000)
              (Return (Some (Custom "down"))) 2000 3000
              S (or_introl E) eq_refl) as (_ & T & _).
  destruct (T eq_refl) as (P1 & _ & _ & P4 & _).
  split; [exact P1 | exact P4].
Defined.

(** ** Recovery *)

(** A successful probe that does not exhaust the budget of consecutive
    successes only counts. *)
Lemma Execute_success_half_open (cb : CircuitBreaker) (k : Z) (t1 t2 : Time) :
  state cb = StateHalfOpen ->
  counts cb = mkCounts k k 0 k 0 ->
  0 <= k -> k + 1 < maxRequests cb -> maxRequests cb <= 2 ^ 32 ->
  fst (Execute cb (Return None) t1 t2)
  = with_counts cb (mkCounts (k + 1) (k + 1) 0 (k + 1) 0).
Proof.
  intros S C K M B. unfold Execute.
  rewrite beforeRequest_half_open_free by (try assumption; rewrite C; cbn; lia).
  rewrite C. cbn [Requests TotalSuccesses TotalFailures ConsecutiveSuccesses
                   ConsecutiveFailures fst is_nil].
  rewrite u32_small by lia.
  set (cb1 := with_counts cb _).
  unfold afterRequest.
  rewrite currentState_settled by (left; exact S).
  change (generation cb1) with (generation cb). rewrite Z.eqb_refl.
  cbn [negb]. change (state cb1) with (state cb). rewrite S.
  unfold onSuccess. cbv zeta.
  cbn [counts with_counts cb1 TotalSuccesses ConsecutiveSuccesses Requests
       TotalFailures maxRequests].
  rewrite !u32_small by lia.
  replace (maxRequests cb <=? k + 1) with false
    by (symmetry; apply Z.leb_gt; lia).
  destruct cb; reflexivity.
Qed.

(** The successful probe that completes the budget closes the breaker. *)
Lemma Execute_success_closes (cb : CircuitBreaker) (k : Z) (t1 t2 : Time) :
  state cb = StateHalfOpen ->
  counts cb = mkCounts k k 0 k 0 ->
  0 <= k -> k + 1 = maxRequests cb -> maxRequests cb < 2 ^ 32 ->
  let cb' := fst (Execute cb (Return None) t1 t2) in
  state cb' = StateClosed
  /\ generation cb' = u64 (generation cb + 1)
  /\ counts cb' = Counts_zero
  /\ expiry cb' = (if interval cb =? 0 then 0 else t2 + interval cb)
  /\ notified cb' =
     if onStateChange cb
     then (name cb, StateHalfOpen, StateClosed) :: notified cb
     else notified cb.
Proof.
  intros S C K M B. cbv zeta. unfold Execute.
  rewrite beforeRequest_half_open_free by (try assumption; rewrite C; cbn; lia).
  rewrite C. cbn [Requests TotalSuccesses TotalFailures ConsecutiveSuccesses
                   ConsecutiveFailures fst is_nil].
  rewrite u32_small by lia.
  set (cb1 := with_counts cb _).
  unfold afterRequest.
  rewrite currentState_settled by (left; exact S).
  change (generation cb1) with (generation cb). rewrite Z.eqb_refl.
  cbn [negb]. change (state cb1) with (state cb). rewrite S.
  unfold onSuccess. cbv zeta.
  cbn [counts with_counts cb1 TotalSuccesses ConsecutiveSuccesses Requests
       TotalFailures maxRequests].
  rewrite !u32_small by lia.
  replace (maxRequests cb <=? k + 1) with true
    by (symmetry; apply Z.leb_le; lia).
  destruct cb as [nm m i t r o st g c e l]. cbn in S. subst st.
  unfold setState, toNewGeneration. cbn.
  destruct (i =? 0); destruct o; cbn; repeat split.
Qed.

Lemma succeed_each_counts (l : list (Time * Time)) :
  forall cb k,
    state cb = StateHalfOpen ->
    counts cb = mkCounts k k 0 k 0 ->
    0 <= k -> k + Z.of_nat (List.length l) < maxRequests cb ->
    maxRequests cb <= 2 ^ 32 ->
    succeed_each cb l
    = with_counts cb (mkCounts (k + Z.of_nat (List.length l))
                        (k + Z.of_nat (List.length l)) 0
                        (k + Z.of_nat (List.length l)) 0).
Proof.
  induction l as [| [t1 t2] l IH]; intros cb k S C K M B.
  - cbn. rewrite Z.add_0_r, <- C. destruct cb; reflexivity.
  - cbn [List.length] in *. rewrite Nat2Z.inj_succ in *.
    unfold succeed_each. cbn [fold_left fst snd].
    fold (succeed_each (fst (Execute cb (Return None) t1 t2)) l).
    rewrite (Execute_success_half_open cb k t1 t2) by (try assumption; lia).
    rewrite (IH _ (k + 1)) by (cbn; try assumption; try reflexivity; lia).
    replace (k + 1 + Z.of_nat (List.length l))
      with (k + Z.succ (Z.of_nat (List.length l))) by lia.
    destruct cb; reflexivity.
Qed.

(** Recovery through Half-Open.  From a Half-Open breaker with cleared
    tallies and a budget of [maxRequests], successful calls made one after
    the other are all admitted; fewer than [maxRequests] of them leave the
    breaker Half-Open with each success counted, and the one that makes
    [maxRequests] closes it: Closed, in the next generation, with the
    tallies cleared and one call to the notifier. *)
Theorem half_open_recovery (cb : CircuitBreaker) (l : list (Time * Time)) :
  state cb = StateHalfOpen ->
  counts cb = Counts_zero ->
  0 < maxRequests cb < 2 ^ 32 ->
  (Z.of_nat (List.length l) < maxRequests cb ->
   succeed_each cb l
   = with_counts cb (mkCounts (Z.of_nat (List.length l))
                       (Z.of_nat (List.length l)) 0
                       (Z.of_nat (List.length l)) 0))
  /\ (Z.of_nat (List.length l) = maxRequests cb ->
      state (succeed_each cb l) = StateClosed
      /\ generation (succeed_each cb l) = u64 (generation cb + 1)
      /\ counts (succeed_each cb l) = Counts_zero
      /\ notified (succeed_each cb l) =
         if onStateChange cb
         then (name cb, StateHalfOpen, StateClosed) :: notified cb
         else notified cb).
Proof.
  intros S C M. split; intros L.
  - apply (succeed_each_counts l cb 0); try assumption; lia.
  - destruct l as [| x l0] using rev_ind; [cbn in L; lia |].
    clear IHl0. rewrite length_app in L. cbn [List.length] in L.
    rewrite Nat2Z.inj_add in L. cbn in L.
    unfold succeed_each. rewrite fold_left_app. cbn [fold_left].
    fold (succeed_each cb l0).
    rewrite (succeed_each_counts l0 cb 0) by (try assumption; lia).
    set (cb1 := with_counts cb _).
    destruct (Execute_success_closes cb1 (Z.of_nat (List.length l0))
                (fst x) (snd x))
      as (P1 & P2 & P3 & _ & P5);
      try (subst cb1; cbn; try assumption; try reflexivity; lia).
    repeat split; assumption.
Qed.

Lemma half_open_recovery_witness :
  state probing = StateHalfOpen /\ counts probing = Counts_zero
  /\ 0 < maxRequests probing < 2 ^ 32
  /\ state (succeed_each probing [(1, 2); (3, 4)]) = StateHalfOpen
  /\ state (succeed_each probing [(1, 2); (3, 4); (5, 6)]) = StateClosed.
Proof.
  assert (S : state probing = StateHalfOpen) by reflexivity.
  assert (C : counts probing = Counts_zero) by reflexivity.
  assert (M : 0 < maxRequests probing < 2 ^ 32) by (split; reflexivity).
  split; [exact S |]. split; [exact C |]. split; [exact M |].
  destruct (half_open_recovery probing [(1, 2); (3, 4)] S C M) as [P _].
  destruct (half_open_recovery probing [(1, 2); (3, 4); (5, 6)] S C M)
    as [_ Q].
  split.
  - rewrite (P eq_refl). exact S.
  - exact (proj1 (Q eq_refl)).
Defined.

(** ** When the trip predicate is consulted *)

Lemma toNewGeneration_with_readyToTrip
  (cb : CircuitBreaker) (f : Counts -> bool) (now : Time) :
  toNewGeneration (with_readyToTrip cb f) now
  = with_readyToTrip (toNewGeneration cb now) f.
Proof.
  destruct cb as [nm m i t r o st g c e l].
  unfold toNewGeneration. cbn.
  destruct st; [destruct (i =? 0) | |]; reflexivity.
Qed.

Lemma setState_with_readyToTrip
  (cb : CircuitBreaker) (f : Counts -> bool) (s : State) (now : Time) :
  setState (with_readyToTrip cb f) s now
  = with_readyToTrip (setState cb s now) f.
Proof.
  destruct cb as [nm m i t r o st g c e l].
  unfold setState, toNewGeneration. cbn.
  destruct (State_eqb st s); [reflexivity |].
  destruct s; [destruct (i =? 0) | |]; destruct o; reflexivity.
Qed.

Lemma currentState_with_readyToTrip
  (cb : CircuitBreaker) (f : Counts -> bool) (now : Time) :
  fst (fst (currentState (with_readyToTrip cb f) now))
  = with_readyToTrip (fst (fst (currentState cb now))) f.
Proof.
  unfold currentState. cbn [fst].
  change (state (with_readyToTrip cb f)) with (state cb).
  change (expiry (with_readyToTrip cb f)) with (expiry cb).
  destruct (state cb).
  - destruct (negb (expiry cb =? 0) && (expiry cb <? now));
      [apply toNewGeneration_with_readyToTrip | reflexivity].
  - reflexivity.
  - destruct (expiry cb <? now);
      [apply setState_with_readyToTrip | reflexivity].
Qed.

Lemma currentState_never_closes (cb : CircuitBreaker) (now : Time) :
  state cb <> StateClosed ->
  state (fst (fst (currentState cb now))) <> StateClosed.
Proof.
  destruct cb as [nm m i t r o st g c e l]. cbn. intros NS.
  unfold currentState, setState, toNewGeneration. cbn.
  destruct st; [contradiction | discriminate |].
  destruct (e <? now); cbn; [destruct o |]; discriminate.
Qed.

Lemma onSuccess_with_readyToTrip
  (cb : CircuitBreaker) (f : Counts -> bool) (s : State) (now : Time) :
  onSuccess (with_readyToTrip cb f) s now
  = with_readyToTrip (onSuccess cb s now) f.
Proof.
  destruct cb as [nm m i t r o st g c e l].
  unfold onSuccess. destruct s; cbn -[u32]; try reflexivity.
  destruct (m <=? u32 (ConsecutiveSuccesses c + 1)); [| reflexivity].
  apply (setState_with_readyToTrip
           (mkCircuitBreaker nm m i t r o st g
              (mkCounts (Requests c) (u32 (TotalSuccesses c + 1))
                 (TotalFailures c) (u32 (ConsecutiveSuccesses c + 1)) 0)
              e l) f StateClosed now).
Qed.

Lemma onFailure_with_readyToTrip
  (cb : CircuitBreaker) (f : Counts -> bool) (s : State) (now : Time) :
  s <> StateClosed ->
  onFailure (with_readyToTrip cb f) s now
  = with_readyToTrip (onFailure cb s now) f.
Proof.
  intros NS. unfold onFailure.
  destruct s; [contradiction | apply setState_with_readyToTrip | reflexivity].
Qed.

(** The trip predicate is consulted only for a failure in Closed.  With
    any other predicate [f] in its place, an admission, a query of the
    state, the completion of a success, and the completion of a failure on
    a breaker that is not Closed all leave the same breaker and return the
    same results. *)
Theorem trip_predicate_only_on_closed_failure
  (cb : CircuitBreaker) (f : Counts -> bool) (before : Z) (now : Time) :
  beforeRequest (with_readyToTrip cb f) now
  = (with_readyToTrip (fst (fst (beforeRequest cb now))) f,
     snd (fst (beforeRequest cb now)), snd (beforeRequest cb now))
  /\ Breaker.State (with_readyToTrip cb f) now
     = (with_readyToTrip (fst (Breaker.State cb now)) f,
        snd (Breaker.State cb now))
  /\ afterRequest (with_readyToTrip cb f) before true now
     = with_readyToTrip (afterRequest cb before true now) f
  /\ (state cb <> StateClosed ->
      afterRequest (with_readyToTrip cb f) before false now
      = with_readyToTrip (afterRequest cb before false now) f).
Proof.
  pose proof (currentState_with_readyToTrip cb f now) as E.
  pose proof (currentState_never_closes cb now) as NC.
  repeat split.
  - unfold beforeRequest.
    rewrite (currentState_result (with_readyToTrip cb f) now),
      (currentState_result cb now), E.
    set (cb1 := fst (fst (currentState cb now))).
    change (state (with_readyToTrip cb1 f)) with (state cb1).
    change (maxRequests (with_readyToTrip cb1 f)) with (maxRequests cb1).
    change (counts (with_readyToTrip cb1 f)) with (counts cb1).
    change (generation (with_readyToTrip cb1 f)) with (generation cb1).
    destruct (State_eqb (state cb1) StateOpen); [reflexivity |].
    destruct (State_eqb (state cb1) StateHalfOpen
              && (maxRequests cb1 <=? Requests (counts cb1))); reflexivity.
  - unfold Breaker.State.
    rewrite (currentState_result (with_readyToTrip cb f) now),
      (currentState_result cb now), E.
    reflexivity.
  - unfold afterRequest.
    rewrite (currentState_result (with_readyToTrip cb f) now),
      (currentState_result cb now), E.
    set (cb1 := fst (fst (currentState cb now))).
    change (state (with_readyToTrip cb1 f)) with (state cb1).
    change (generation (with_readyToTrip cb1 f)) with (generation cb1).
    destruct (negb (generation cb1 =? before)); [reflexivity |].
    apply onSuccess_with_readyToTrip.
  - intros NS. specialize (NC NS). unfold afterRequest.
    rewrite (currentState_result (with_readyToTrip cb f) now),
      (currentState_result cb now), E.
    set (cb1 := fst (fst (currentState cb now))) in *.
    change (state (with_readyToTrip cb1 f)) with (state cb1).
    change (generation (with_readyToTrip cb1 f)) with (generation cb1).
    destruct (negb (generation cb1 =? before)); [reflexivity |].
    apply onFailure_with_readyToTrip. exact NC.
Qed.

Lemma trip_predicate_only_on_closed_failure_witness :
  state probing <> StateClosed
  /\ afterRequest (with_readyToTrip probing (fun _ => false))
       (generation probing) false 3000
     = with_readyToTrip (afterRequest probing (generation probing) false 3000)
         (fun _ => false).
Proof.
  assert (NS : state probing <> StateClosed) by (vm_compute; discriminate).
  split; [exact NS |].
  destruct (trip_predicate_only_on_closed_failure probing (fun _ => false)
              (generation probing) 3000) as (_ & _ & _ & P).
  exact (P NS).
Defined.

(** * The configuration defaults *)

(** What [merge] returns, field by field. *)
Lemma merge_value (c : Config) :
  merge c
  = mkConfig (if MaxRequests c =? 0 then 1 else MaxRequests c)
      (Interval c)
      (if Timeout c =? 0 then 60 * Second else Timeout c)
      (Some (match ReadyToTrip c with
             | Some f => f
             | None => fun counts => 5 <? ConsecutiveFailures counts
             end))
      true
      (Some (match IsSuccessful c with
             | Some f => f
             | None => fun err => is_nil err
             end)).
Proof.
  destruct c as [m i t r o s]. unfold merge.
  change (MaxRequests (mkConfig m i t r o s)) with m.
  change (Interval (mkConfig m i t r o s)) with i.
  change (Timeout (mkConfig m i t r o s)) with t.
  change (ReadyToTrip (mkConfig m i t r o s)) with r.
  change (OnStateChange (mkConfig m i t r o s)) with o.
  change (IsSuccessful (mkConfig m i t r o s)) with s.
  destruct (m =? 0); destruct (t =? 0); destruct r; destruct o; destruct s;
    reflexivity.
Qed.

(** [merge] fills every missing option with the default, so that merging
    twice changes nothing more and a merged configuration has a non-zero
    probe budget and cool-off and all three functions; and the defaults
    that [New] applies by itself are those of [merge]: the breaker built
    from a merged configuration is the breaker built from the original one,
    except that it always has a notifier (the default one, which does
    nothing). *)
Theorem merge_gives_the_defaults_of_New
  (c : Config) (nm : string) (t0 : Time) :
  merge (merge c) = merge c
  /\ MaxRequests (merge c) <> 0
  /\ Timeout (merge c) <> 0
  /\ ReadyToTrip (merge c) <> None
  /\ OnStateChange (merge c) = true
  /\ IsSuccessful (merge c) <> None
  /\ New nm (merge c) t0 = with_onStateChange (New nm c t0) true.
Proof.
  rewrite (merge_value (merge c)). rewrite (merge_value c).
  destruct c as [m i t r o s].
  cbn [MaxRequests Interval Timeout ReadyToTrip OnStateChange IsSuccessful].
  unfold New. cbn [MaxRequests Interval Timeout ReadyToTrip OnStateChange].
  destruct (m =? 0) eqn:Em; destruct (t =? 0) eqn:Et; rewrite ?Em, ?Et;
    change (1 =? 0) with false; change (60 * Second =? 0) with false;
    cbv iota;
    (split; [reflexivity |]);
    (split; [try discriminate; try (apply Z.eqb_neq; exact Em) |]);
    (split; [try discriminate; try (apply Z.eqb_neq; exact Et) |]);
    (split; [discriminate |]); (split; [reflexivity |]);
    (split; [discriminate |]);
    unfold toNewGeneration, with_onStateChange; cbn -[Z.mul];
    destruct (i =? 0); destruct r; reflexivity.
Qed.

(** * Fallbacks *)

(** A call that is refused still gets its fallback, with the rejection as
    input, and the work is not run: in Open up to the expiry and in
    Half-Open with the budget used up, [ExecuteWithFallback] and
    [ExecuteWithFallbackResult] return what the fallback makes of the
    rejection, whatever the work would do, and leave the breaker as it
    was. *)
Theorem fallback_gets_the_rejection
  (T : Type) (zero : T) (cb : CircuitBreaker) (fn : WorkResult)
  (fallback : FallbackFunc) (fnv : ValueResult T)
  (fallbackv : ValueFallback T) (t1 t2 : Time) :
  (state cb = StateOpen /\ t1 <= expiry cb)
  \/ (state cb = StateHalfOpen /\ maxRequests cb <= Requests (counts cb)) ->
  let e := match state cb with
           | StateOpen => ErrCircuitOpen
           | _ => ErrTooManyRequests
           end in
  ExecuteWithFallback cb fn fallback t1 t2 = (cb, Return (fallback e))
  /\ ExecuteWithFallbackResult zero cb fnv fallbackv t1 t2
     = (cb, ReturnValue (fst (fallbackv e)) (snd (fallbackv e))).
Proof.
  intros H. cbv zeta.
  unfold ExecuteWithFallback, ExecuteWithFallbackResult, Execute.
  destruct H as [[S E] | [S M]].
  - rewrite !beforeRequest_open_waiting by assumption. rewrite S.
    destruct (fallbackv ErrCircuitOpen). split; reflexivity.
  - rewrite !beforeRequest_half_open_full by assumption. rewrite S.
    destruct (fallbackv ErrTooManyRequests). split; reflexivity.
Qed.

Lemma fallback_gets_the_rejection_witness :
  state (breaker tripped) = StateOpen
  /\ 3000 <= expiry (breaker tripped)
  /\ ExecuteWithFallback (breaker tripped) (Return None)
       (WrapErrorFallback "orders") 3000 4000
     = (breaker tripped,
        Return (Some (Custom "orders: circuit breaker is open"))).
Proof.
  assert (S : state (breaker tripped) = StateOpen) by reflexivity.
  assert (E : 3000 <= expiry (breaker tripped))
    by (vm_compute; discriminate).
  split; [exact S |]. split; [exact E |].
  destruct (fallback_gets_the_rejection nat O (breaker tripped) (Return None)
              (WrapErrorFallback "orders") (PanicValue "unused")
              (DefaultValueFallback O) 3000 4000
              (or_introl (conj S E))) as [P _].
  exact P.
Defined.

(** A fallback changes what the caller gets, never what the breaker
    records.  Whatever the fallback, the breaker is left as [Execute]
    leaves it, so a failure that the fallback turns into a success is still
    counted as a failure.  With [ReturnErrorFallback] the call is
    [Execute]; with [IgnoreFallback] it never returns an error; with
    [WrapErrorFallback] every error comes back with the message in front
    of its own. *)
Theorem fallback_changes_only_the_result
  (cb : CircuitBreaker) (fn : WorkResult) (fallback : FallbackFunc)
  (message : string) (t1 t2 : Time) :
  fst (ExecuteWithFallback cb fn fallback t1 t2) = fst (Execute cb fn t1 t2)
  /\ ExecuteWithFallback cb fn ReturnErrorFallback t1 t2 = Execute cb fn t1 t2
  /\ (forall e,
         snd (ExecuteWithFallback cb fn IgnoreFallback t1 t2)
         <> Return (Some e))
  /\ (forall e,
         snd (Execute cb fn t1 t2) = Return (Some e) ->
         snd (ExecuteWithFallback cb fn (WrapErrorFallback message) t1 t2)
         = Return (Some (Custom (message ++ ": " ++ Error e)))).
Proof.
  unfold ExecuteWithFallback.
  destruct (Execute cb fn t1 t2) as [cb' [[e |] | v]]; cbn;
    repeat split; try reflexivity; try discriminate;
    intros e0 H; injection H as ->; reflexivity.
Qed.

Lemma fallback_changes_only_the_result_witness :
  snd (Execute (New "svc" Config_zero 1000) (Return (Some (Custom "down")))
         2000 3000)
  = Return (Some (Custom "down"))
  /\ snd (ExecuteWithFallback (New "svc" Config_zero 1000)
            (Return (Some (Custom "down"))) (WrapErrorFallback "svc")
            2000 3000)
     = Return (Some (Custom "svc: down")).
Proof.
  assert (E : snd (Execute (New "svc" Config_zero 1000)
                     (Return (Some (Custom "down"))) 2000 3000)
              = Return (Some (Custom "down"))) by reflexivity.
  split; [exact E |].
  destruct (fallback_changes_only_the_result (New "svc" Config_zero 1000)
              (Return (Some (Custom "down"))) IgnoreFallback "svc" 2000 3000)
    as (_ & _ & _ & P).
  exact (P (Custom "down") E).
Defined.

(** With an admitted call, [ExecuteWithFallbackResult] returns the value of
    the work only when the work returned no error; a value that comes with
    an error is dropped for what the fallback returns, and a panic goes
    through without the fallback. *)
Theorem typed_fallback_result
  (T : Type) (zero : T) (cb : CircuitBreaker) (fn : ValueResult T)
  (fallback : ValueFallback T) (t1 t2 : Time) :
  snd (beforeRequest cb t1) = None ->
  snd (ExecuteWithFallbackResult zero cb fn fallback t1 t2)
  = match fn with
    | ReturnValue v None => ReturnValue v None
    | ReturnValue _ (Some e) =>
        ReturnValue (fst (fallback e)) (snd (fallback e))
    | PanicValue p => PanicValue p
    end
  /\ fst (ExecuteWithFallbackResult zero cb fn fallback t1 t2)
     = fst (Execute cb (error_of fn) t1 t2).
Proof.
  intros A. unfold ExecuteWithFallbackResult.
  rewrite (Execute_reports cb (error_of fn) t1 t2 A).
  destruct fn as [v [e |] | p]; cbn [error_of value_of fst snd];
    [destruct (fallback e) |..]; split; reflexivity.
Qed.

Lemma typed_fallback_result_witness :
  snd (beforeRequest (New "svc" Config_zero 1000) 2000) = None
  /\ snd (ExecuteWithFallbackResult 0 (New "svc" Config_zero 1000)
            (ReturnValue 7 (Some (Custom "down")))
            (DefaultValueFallback 42) 2000 3000)
     = ReturnValue 42 None.
Proof.
  assert (A : snd (beforeRequest (New "svc" Config_zero 1000) 2000) = None)
    by reflexivity.
  split; [exact A |].
  exact (proj1 (typed_fallback_result Z 0 (New "svc" Config_zero 1000)
                  (ReturnValue 7 (Some (Custom "down")))
                  (DefaultValueFallback 42) 2000 3000 A)).
Defined.

Lemma ChainedFallback_loop_all_fail
  (T : Type) (fallbacks : list (ValueFallback T)) (err : error) :
  (forall fb, In fb fallbacks -> snd (fb err) <> None) ->
  ChainedFallback_loop fallbacks err = None.
Proof.
  induction fallbacks as [| fb rest IH]; intros H; [reflexivity |].
  cbn [ChainedFallback_loop].
  pose proof (H fb (or_introl eq_refl)) as F.
  destruct (fb err) as [v [e |]]; cbn in *; [| contradiction].
  apply IH. intros g I. apply H. right. exact I.
Qed.

Lemma ChainedFallback_loop_first
  (T : Type) (pre : list (ValueFallback T)) (fb : ValueFallback T)
  (post : list (ValueFallback T)) (err : error) :
  (forall f, In f pre -> snd (f err) <> None) ->
  snd (fb err) = None ->
  ChainedFallback_loop (pre ++ fb :: post) err = Some (fst (fb err)).
Proof.
  induction pre as [| f pre IH]; intros H S.
  - cbn [app ChainedFallback_loop].
    destruct (fb err) as [v e]. cbn in *. subst e. reflexivity.
  - cbn [app ChainedFallback_loop].
    pose proof (H f (or_introl eq_refl)) as F.
    destruct (f err) as [v [e |]]; cbn in *; [| contradiction].
    apply IH; [| exact S]. intros g I. apply H. right. exact I.
Qed.

(** [ChainedFallback] returns what the first fallback that succeeds
    returns, every fallback being given the original error; when none
    succeeds (or there is none) it returns the zero value with the original
    error, not the error of a fallback; and a chain that ends with
    [DefaultValueFallback] never fails. *)
Theorem chained_fallback_first_success
  (T : Type) (zero : T) (err : error) :
  (forall fallbacks,
      (forall fb, In fb fallbacks -> snd (fb err) <> None) ->
      ChainedFallback zero fallbacks err = (zero, Some err))
  /\ (forall pre fb post,
         (forall f, In f pre -> snd (f err) <> None) ->
         snd (fb err) = None ->
         ChainedFallback zero (pre ++ fb :: post) err = (fst (fb err), None))
  /\ (forall fallbacks d,
         snd (ChainedFallback zero (fallbacks ++ [DefaultValueFallback d]) err)
         = None).
Proof.
  split; [| split].
  - intros fallbacks H. unfold ChainedFallback.
    rewrite ChainedFallback_loop_all_fail by exact H. reflexivity.
  - intros pre fb post H S. unfold ChainedFallback.
    rewrite ChainedFallback_loop_first by assumption. reflexivity.
  - intros fallbacks d. unfold ChainedFallback.
    induction fallbacks as [| fb rest IH]; [reflexivity |].
    cbn [app ChainedFallback_loop].
    destruct (fb err) as [v [e |]]; cbn [is_nil]; [exact IH | reflexivity].
Qed.

Lemma chained_fallback_first_success_witness :
  ChainedFallback 0
    [CacheFallback 0 (0, false); CacheFallback 0 (5, true);
     DefaultValueFallback 9] (Custom "down")
  = (5, None).
Proof.
  destruct (chained_fallback_first_success Z 0 (Custom "down")) as (_ & P & _).
  apply (P [CacheFallback 0 (0, false)] (CacheFallback 0 (5, true))
           [DefaultValueFallback 9]).
  - intros f [<- | []]. discriminate.
  - reflexivity.
Defined.

(** * The sliding window *)

(** ** Arithmetic of the totals *)

Lemma u32_sub_l (a b : Z) : u32 (u32 a - b) = u32 (a - b).
Proof. unfold u32. apply Zminus_mod_idemp_l. Qed.

Lemma u32_add_l (a b : Z) : u32 (u32 a + b) = u32 (a + b).
Proof. unfold u32. apply Zplus_mod_idemp_l. Qed.

Lemma sum_requests_app (a b : list Bucket.t) :
  sum_requests (a ++ b) = sum_requests a + sum_requests b.
Proof.
  unfold sum_requests. induction a as [| x a IH]; [reflexivity |].
  cbn [app fold_right]. rewrite IH. lia.
Qed.

Lemma sum_successes_app (a b : list Bucket.t) :
  sum_successes (a ++ b) = sum_successes a + sum_successes b.
Proof.
  unfold sum_successes. induction a as [| x a IH]; [reflexivity |].
  cbn [app fold_right]. rewrite IH. lia.
Qed.

Lemma sum_failures_app (a b : list Bucket.t) :
  sum_failures (a ++ b) = sum_failures a + sum_failures b.
Proof.
  unfold sum_failures. induction a as [| x a IH]; [reflexivity |].
  cbn [app fold_right]. rewrite IH. lia.
Qed.

Lemma subtract_stands_for (tot : windowCounts.t) (b : Bucket.t) (r s f : Z) :
  stands_for tot r s f ->
  stands_for (subtract tot b) (r - Bucket.requests b)
    (s - Bucket.successes b) (f - Bucket.failures b).
Proof.
  intros (R & S & F). unfold stands_for, subtract. cbn.
  rewrite R, S, F, !u32_sub_l. repeat split.
Qed.

Lemma bump_total_stands_for (success : bool) (tot : windowCounts.t)
  (r s f : Z) :
  stands_for tot r s f ->
  stands_for (bump_total success tot) (r + 1)
    (if success then s + 1 else s) (if success then f else f + 1).
Proof.
  intros (R & S & F). unfold stands_for, bump_total.
  destruct success; cbn; rewrite R, S, F, ?u32_add_l; repeat split.
Qed.

(** ** The books of the window *)

Lemma drop_head_stands_for (tot : windowCounts.t) (b : Bucket.t)
  (rest : list Bucket.t) :
  stands_for tot (sum_requests (b :: rest)) (sum_successes (b :: rest))
    (sum_failures (b :: rest)) ->
  stands_for (subtract tot b) (sum_requests rest) (sum_successes rest)
    (sum_failures rest).
Proof.
  intros H. pose proof (subtract_stands_for tot b _ _ _ H) as H'.
  unfold sum_requests, sum_successes, sum_failures in *.
  cbn [fold_right] in H'.
  match type of H' with stands_for _ ?r ?s ?f =>
    replace r with (fold_right (fun b a => Bucket.requests b + a) 0 rest)
      in H' by lia;
    replace s with (fold_right (fun b a => Bucket.successes b + a) 0 rest)
      in H' by lia;
    replace f with (fold_right (fun b a => Bucket.failures b + a) 0 rest)
      in H' by lia
  end.
  exact H'.
Qed.

Lemma expire_loop_kept (ws : Time) (bs : list Bucket.t) :
  forall tot,
    stands_for tot (sum_requests bs) (sum_successes bs) (sum_failures bs) ->
    stands_for (fst (expire_loop ws bs tot))
      (sum_requests (snd (expire_loop ws bs tot)))
      (sum_successes (snd (expire_loop ws bs tot)))
      (sum_failures (snd (expire_loop ws bs tot)))
    /\ (List.length (snd (expire_loop ws bs tot)) <= List.length bs)%nat
    /\ (forall P, Forall P bs -> Forall P (snd (expire_loop ws bs tot))).
Proof.
  induction bs as [| b bs IH]; intros tot H.
  - cbn. split; [exact H |]. split; [lia | auto].
  - cbn [expire_loop]. destruct (ws <? Bucket.startTime b).
    + cbn [fst snd]. split; [exact H |]. split; [lia | auto].
    + destruct (IH _ (drop_head_stands_for tot b bs H)) as (A & L & F).
      split; [exact A |]. split; [cbn [List.length]; lia |].
      intros P FP. apply F. inversion FP; assumption.
Qed.

Lemma expire_kept (sw : SlidingWindow) (now : Time) :
  well_kept sw ->
  well_kept (expire sw now)
  /\ size (expire sw now) = size sw
  /\ numBucks (expire sw now) = numBucks sw
  /\ (forall P, Forall P (buckets sw) -> Forall P (buckets (expire sw now))).
Proof.
  intros (A & L & N). unfold expire.
  destruct (expire_loop_kept (now - size sw) (buckets sw) (total sw) A)
    as (A' & L' & F').
  destruct (expire_loop (now - size sw) (buckets sw) (total sw)) as [tot bs].
  cbn [fst snd] in *.
  split; [| split; [reflexivity | split; [reflexivity | exact F']]].
  split; [exact A' |]. cbn [buckets numBucks]. split; [lia | exact N].
Qed.

Lemma nonempty_last {A} (l : list A) :
  l <> [] -> exists front last, l = front ++ [last] /\ rev l = last :: rev front.
Proof.
  intros NE. destruct (exists_last NE) as (front & last & E).
  exists front, last. split; [exact E |].
  rewrite E, rev_app_distr. reflexivity.
Qed.

Lemma getCurrentBucket_kept (sw : SlidingWindow) (now : Time) :
  well_kept sw ->
  well_kept (getCurrentBucket sw now)
  /\ buckets (getCurrentBucket sw now) <> []
  /\ size (getCurrentBucket sw now) = size sw
  /\ numBucks (getCurrentBucket sw now) = numBucks sw
  /\ (forall ws,
         started_by ws (buckets sw) -> now <= ws ->
         started_by ws (buckets (getCurrentBucket sw now))).
Proof.
  intros (A & L & N). unfold getCurrentBucket. cbv zeta.
  set (start := Truncate now (size sw ÷ numBucks sw)).
  assert (TS : start <= now).
  { subst start. unfold Truncate.
    destruct (size sw ÷ numBucks sw <=? 0) eqn:D; [lia |].
    apply Z.leb_gt in D.
    pose proof (Z.mod_pos_bound now (size sw ÷ numBucks sw) D). lia. }
  match goal with |- context [if ?c then sw else _] => destruct c eqn:C end.
  - split; [exact (conj A (conj L N)) |].
    split; [intros E; rewrite E in C; discriminate C |].
    split; [reflexivity |]. split; [reflexivity |]. auto.
  - clear C.
    assert (Abs : stands_for (total sw)
                    (sum_requests (buckets sw ++ [Bucket.mk start 0 0 0]))
                    (sum_successes (buckets sw ++ [Bucket.mk start 0 0 0]))
                    (sum_failures (buckets sw ++ [Bucket.mk start 0 0 0]))).
    { rewrite sum_requests_app, sum_successes_app, sum_failures_app.
      unfold sum_requests at 2, sum_successes at 2, sum_failures at 2.
      cbn [fold_right Bucket.requests Bucket.successes Bucket.failures].
      rewrite !Z.add_0_r. exact A. }
    assert (Lbs : List.length (buckets sw ++ [Bucket.mk start 0 0 0])
                  = S (List.length (buckets sw))).
    { rewrite length_app. cbn. lia. }
    assert (Fbs : forall ws, started_by ws (buckets sw) -> now <= ws ->
                    started_by ws (buckets sw ++ [Bucket.mk start 0 0 0])).
    { intros ws F Le. unfold started_by. apply Forall_app.
      split; [exact F |]. constructor; [cbn; lia | constructor]. }
    revert Abs Lbs Fbs.
    generalize (buckets sw ++ [Bucket.mk start 0 0 0]). intros bs Abs Lbs Fbs.
    destruct (numBucks sw <? Z.of_nat (List.length bs)) eqn:Over.
    + apply Z.ltb_lt in Over.
      destruct bs as [| removed rest]; [cbn in Lbs; discriminate |].
      cbn [List.length] in *.
      split; [| split; [| split; [reflexivity | split; [reflexivity |]]]].
      * split; [exact (drop_head_stands_for _ _ _ Abs) |].
        cbn [buckets numBucks]. split; [lia | exact N].
      * cbn [buckets]. intros E. subst rest. cbn in Over. lia.
      * cbn [buckets]. intros ws F Le. specialize (Fbs ws F Le).
        inversion Fbs; assumption.
    + apply Z.ltb_ge in Over.
      split; [| split; [| split; [reflexivity | split; [reflexivity |]]]].
      * split; [exact Abs |]. cbn [buckets numBucks]. split; [lia | exact N].
      * cbn [buckets]. intros E. rewrite E in Lbs. discriminate Lbs.
      * cbn [buckets]. exact Fbs.
Qed.

Lemma bump_sums (success : bool) (front : list Bucket.t) (last : Bucket.t) :
  u32 (sum_requests (front ++ [bump_bucket success last]))
  = u32 (sum_requests (front ++ [last]) + 1)
  /\ u32 (sum_successes (front ++ [bump_bucket success last]))
     = u32 (if success then sum_successes (front ++ [last]) + 1
            else sum_successes (front ++ [last]))
  /\ u32 (sum_failures (front ++ [bump_bucket success last]))
     = u32 (if success then sum_failures (front ++ [last])
            else sum_failures (front ++ [last]) + 1).
Proof.
  rewrite !sum_requests_app, !sum_successes_app, !sum_failures_app.
  generalize (sum_requests front) (sum_successes front) (sum_failures front).
  intros r s f.
  unfold sum_requests, sum_successes, sum_failures, bump_bucket, u32.
  destruct success;
    cbn [fold_right Bucket.requests Bucket.successes Bucket.failures];
    rewrite !Z.add_0_r; repeat split;
    try (rewrite Zplus_mod_idemp_r; f_equal; lia); reflexivity.
Qed.

Lemma bump_last_kept (success : bool) (bs : list Bucket.t)
  (tot : windowCounts.t) :
  bs <> [] ->
  stands_for tot (sum_requests bs) (sum_successes bs) (sum_failures bs) ->
  stands_for (bump_total success tot)
    (sum_requests (bump_last success bs))
    (sum_successes (bump_last success bs))
    (sum_failures (bump_last success bs))
  /\ List.length (bump_last success bs) = List.length bs
  /\ (forall ws, started_by ws bs -> started_by ws (bump_last success bs)).
Proof.
  intros NE H. destruct (nonempty_last bs NE) as (front & last & E & R).
  unfold bump_last. rewrite R, rev_involutive.
  pose proof (bump_total_stands_for success tot _ _ _ H) as (B1 & B2 & B3).
  destruct (bump_sums success front last) as (S1 & S2 & S3).
  rewrite E in B1, B2, B3.
  split; [| split].
  - unfold stands_for. rewrite B1, B2, B3, S1, S2, S3. repeat split.
  - rewrite E, !length_app. reflexivity.
  - intros ws F. rewrite E in F. unfold started_by in *.
    apply Forall_app in F as [F1 F2]. apply Forall_app. split; [exact F1 |].
    inversion F2; subst. constructor; [| constructor].
    destruct success; cbn; assumption.
Qed.

Lemma Record_kept (sw : SlidingWindow) (success : bool) (now : Time) :
  well_kept sw ->
  well_kept (SlidingWindow_Record sw success now)
  /\ size (SlidingWindow_Record sw success now) = size sw
  /\ numBucks (SlidingWindow_Record sw success now) = numBucks sw
  /\ (forall ws,
         started_by ws (buckets sw) -> now <= ws ->
         started_by ws (buckets (SlidingWindow_Record sw success now))).
Proof.
  intros K. unfold SlidingWindow_Record. cbv zeta.
  destruct (expire_kept sw now K) as (K1 & S1 & N1 & F1).
  destruct (getCurrentBucket_kept (expire sw now) now K1)
    as (K2 & NE & S2 & N2 & F2).
  set (sw2 := getCurrentBucket (expire sw now) now) in *.
  destruct K2 as (A2 & L2 & P2).
  destruct (bump_last_kept success (buckets sw2) (total sw2) NE A2)
    as (A3 & L3 & F3).
  cbn [size numBucks buckets].
  split; [| split; [congruence | split; [congruence |]]].
  - split; [exact A3 |]. cbn [buckets numBucks]. rewrite L3.
    split; [exact L2 | exact P2].
  - intros ws F Le. apply F3. apply F2; [| exact Le].
    apply F1. exact F.
Qed.

Lemma New_well_kept (sz : Duration) (nb : Z) :
  well_kept (NewSlidingWindow sz nb)
  /\ 0 < size (NewSlidingWindow sz nb)
  /\ buckets (NewSlidingWindow sz nb) = [].
Proof.
  unfold NewSlidingWindow. cbv zeta.
  split; [| split; [| reflexivity]].
  - split; [repeat split |]. cbn [buckets numBucks List.length].
    destruct (nb <=? 0) eqn:N; [lia |]. apply Z.leb_gt in N. lia.
  - cbn [size]. destruct (sz <=? 0) eqn:S; [reflexivity |].
    apply Z.leb_gt in S. exact S.
Qed.

Lemma Reset_well_kept (sw : SlidingWindow) :
  0 < numBucks sw -> well_kept (SlidingWindow_Reset sw).
Proof.
  intros N. unfold SlidingWindow_Reset.
  split; [repeat split |]. cbn [buckets numBucks List.length].
  split; [lia | exact N].
Qed.

Lemma writes_kept (ops : list WindowOp) :
  forall sw ws,
    writes_only ops = true ->
    well_kept sw ->
    started_by ws (buckets sw) ->
    (forall t, In t (record_times ops) -> t <= ws) ->
    well_kept (window_run sw ops)
    /\ started_by ws (buckets (window_run sw ops))
    /\ size (window_run sw ops) = size sw
    /\ numBucks (window_run sw ops) = numBucks sw.
Proof.
  induction ops as [| op ops IH]; intros sw ws W K F T.
  - split; [exact K | split; [exact F | split; reflexivity]].
  - cbn [writes_only forallb] in W. apply andb_true_iff in W as [W1 W2].
    cbn [window_run fold_left]. fold (window_run (window_step sw op) ops).
    destruct op as [success now | now |]; [| discriminate W1 |].
    + cbn [window_step].
      destruct (Record_kept sw success now K) as (K1 & S1 & N1 & F1).
      cbn [record_times] in T.
      destruct (IH (SlidingWindow_Record sw success now) ws W2 K1)
        as (K2 & F2 & S2 & N2).
      * apply F1; [exact F |]. apply T. left. reflexivity.
      * intros t I. apply T. right. exact I.
      * split; [exact K2 | split; [exact F2 | split; congruence]].
    + cbn [window_step]. cbn [record_times] in T.
      destruct (IH (SlidingWindow_Reset sw) ws W2) as (K2 & F2 & S2 & N2).
      * apply Reset_well_kept. apply K.
      * constructor.
      * exact T.
      * split; [exact K2 | split; [exact F2 | split; assumption]].
Qed.

(** Writes keep the books of the window.  After every sequence of [Record]
    and [Reset] calls on a new window, at any instants, each total is the
    sum of that tally over the buckets (as [uint32]), and the window never
    holds more buckets than it was built for. *)
Theorem window_totals_are_the_bucket_sums
  (sz : Duration) (nb : Z) (ops : list WindowOp) :
  writes_only ops = true ->
  let sw := window_run (NewSlidingWindow sz nb) ops in
  windowCounts.requests (total sw) = u32 (sum_requests (buckets sw))
  /\ windowCounts.successes (total sw) = u32 (sum_successes (buckets sw))
  /\ windowCounts.failures (total sw) = u32 (sum_failures (buckets sw))
  /\ Z.of_nat (List.length (buckets sw)) <= numBucks (NewSlidingWindow sz nb).
Proof.
  intros W. cbv zeta.
  destruct (New_well_kept sz nb) as (K & _ & E).
  assert (M : exists ws, forall t, In t (record_times ops) -> t <= ws).
  { clear. induction (record_times ops) as [| t l IH].
    - exists 0. intros t [].
    - destruct IH as [ws H]. exists (Z.max t ws). intros u [<- | I].
      + apply Z.le_max_l.
      + specialize (H u I). lia. }
  destruct M as [ws T].
  destruct (writes_kept ops (NewSlidingWindow sz nb) ws W K) as (K' & _ & _ & N).
  - rewrite E. constructor.
  - exact T.
  - destruct K' as ((A1 & A2 & A3) & L & _).
    split; [exact A1 |]. split; [exact A2 |]. split; [exact A3 |].
    rewrite <- N. exact L.
Qed.

Lemma window_totals_are_the_bucket_sums_witness :
  writes_only [DoRecord true 1; DoReset; DoRecord false 2] = true
  /\ windowCounts.requests
       (total (window_run (NewSlidingWindow 0 0)
                 [DoRecord true 1; DoReset; DoRecord false 2])) = 1.
Proof.
  assert (W : writes_only [DoRecord true 1; DoReset; DoRecord false 2] = true)
    by reflexivity.
  split; [exact W |].
  rewrite (proj1 (window_totals_are_the_bucket_sums 0 0 _ W)).
  reflexivity.
Defined.

(** ** Reads *)

Lemma expireReadOnly_loop_all (ws : Time) (bs : list Bucket.t) :
  forall tot r s f,
    started_by ws bs ->
    stands_for tot r s f ->
    stands_for (expireReadOnly_loop ws bs tot)
      (r - sum_requests bs) (s - sum_successes bs) (f - sum_failures bs).
Proof.
  induction bs as [| b bs IH]; intros tot r s f F H.
  - cbn. rewrite !Z.sub_0_r. exact H.
  - inversion F as [| ? ? Fb Fbs]; subst.
    cbn [expireReadOnly_loop].
    replace (ws <? Bucket.startTime b) with false
      by (symmetry; apply Z.ltb_ge; exact Fb).
    pose proof (IH _ _ _ _ Fbs (subtract_stands_for tot b r s f H)) as X.
    cbn [sum_requests sum_successes sum_failures fold_right].
    replace (r - (Bucket.requests b
                  + fold_right (fun b a => Bucket.requests b + a) 0 bs))
      with (r - Bucket.requests b - sum_requests bs)
      by (unfold sum_requests; lia).
    replace (s - (Bucket.successes b
                  + fold_right (fun b a => Bucket.successes b + a) 0 bs))
      with (s - Bucket.successes b - sum_successes bs)
      by (unfold sum_successes; lia).
    replace (f - (Bucket.failures b
                  + fold_right (fun b a => Bucket.failures b + a) 0 bs))
      with (f - Bucket.failures b - sum_failures bs)
      by (unfold sum_failures; lia).
    exact X.
Qed.

(** The window empties.  After any sequence of [Record] and [Reset] calls
    on a new window, a read made when a full window size has passed since
    the latest record returns (0, 0, 0). *)
Theorem window_read_after_expiry_is_zero
  (sz : Duration) (nb : Z) (ops : list WindowOp) (now : Time) :
  writes_only ops = true ->
  (forall t, In t (record_times ops) ->
             t <= now - size (NewSlidingWindow sz nb)) ->
  snd (GetCounts (window_run (NewSlidingWindow sz nb) ops) now) = (0, 0, 0).
Proof.
  intros W T.
  destruct (New_well_kept sz nb) as (K & _ & E).
  destruct (writes_kept ops (NewSlidingWindow sz nb)
              (now - size (NewSlidingWindow sz nb)) W K)
    as ((A & _ & _) & F & S & _).
  - rewrite E. constructor.
  - exact T.
  - set (sw := window_run (NewSlidingWindow sz nb) ops) in *.
    unfold GetCounts, expireReadOnly. cbn [snd total]. rewrite S.
    destruct (expireReadOnly_loop_all _ _ _ _ _ _ F A) as (R1 & R2 & R3).
    rewrite R1, R2, R3, !Z.sub_diag. reflexivity.
Qed.

Lemma window_read_after_expiry_is_zero_witness :
  writes_only [DoRecord true (100 * Second); DoRecord false (103 * Second)]
  = true
  /\ snd (GetCounts
            (window_run (NewSlidingWindow (10 * Second) 10)
               [DoRecord true (100 * Second); DoRecord false (103 * Second)])
            (113 * Second))
     = (0, 0, 0).
Proof.
  assert (W : writes_only [DoRecord true (100 * Second);
                           DoRecord false (103 * Second)] = true)
    by reflexivity.
  split; [exact W |].
  apply (window_read_after_expiry_is_zero (10 * Second) 10 _ (113 * Second) W).
  intros t [<- | [<- | []]]; vm_compute; discriminate.
Defined.

(** ** What the window counts *)

Lemma Truncate_le (t : Time) (d : Duration) : Truncate t d <= t.
Proof.
  unfold Truncate. destruct (d <=? 0) eqn:D; [lia |].
  apply Z.leb_gt in D. pose proof (Z.mod_pos_bound t d D). lia.
Qed.

Lemma Truncate_multiple (t : Time) (d : Duration) :
  0 < d -> Truncate t d mod d = 0.
Proof.
  intros D. unfold Truncate.
  replace (d <=? 0) with false by (symmetry; apply Z.leb_gt; exact D).
  rewrite Zminus_mod_idemp_r, Z.sub_diag. apply Zmod_0_l.
Qed.

Lemma Truncate_mono (t u : Time) (d : Duration) :
  0 < d -> t <= u -> Truncate t d <= Truncate u d.
Proof.
  intros D L. unfold Truncate.
  replace (d <=? 0) with false by (symmetry; apply Z.leb_gt; exact D).
  pose proof (Z.div_mod t d ltac:(lia)) as Et.
  pose proof (Z.div_mod u d ltac:(lia)) as Eu.
  pose proof (Z.div_le_mono t u d D L) as Q.
  nia.
Qed.

Lemma multiples_apart (a b d : Z) :
  0 < d -> a mod d = 0 -> b mod d = 0 -> a < b -> a + d <= b.
Proof.
  intros D A B L.
  pose proof (Z.div_mod a d ltac:(lia)) as Ea.
  pose proof (Z.div_mod b d ltac:(lia)) as Eb.
  rewrite A in Ea. rewrite B in Eb.
  assert (a / d < b / d) by nia. nia.
Qed.

Lemma expire_nothing (sw : SlidingWindow) (now B0 : Time) :
  now - size sw < B0 ->
  Forall (fun b => B0 <= Bucket.startTime b) (buckets sw) ->
  expire sw now = sw.
Proof.
  intros H F. destruct sw as [sz bs n tot]. unfold expire.
  cbn [size buckets total numBucks] in *.
  destruct bs as [| b bs]; [reflexivity |].
  inversion F; subst. cbn [expire_loop].
  replace (now - sz <? Bucket.startTime b) with true
    by (symmetry; apply Z.ltb_lt; lia).
  reflexivity.
Qed.

Lemma filling_snoc (d : Duration) (B0 t : Time) (front : list Bucket.t)
  (x : Bucket.t) :
  filling d B0 t (front ++ [x]) <->
  Forall (fun b => B0 <= Bucket.startTime b) front
  /\ B0 <= Bucket.startTime x
  /\ Bucket.startTime x mod d = 0
  /\ Bucket.startTime x <= Truncate t d
  /\ (Z.of_nat (List.length front) + 1) * d <= Bucket.startTime x - B0 + d.
Proof.
  unfold filling. rewrite rev_app_distr. cbn [rev app].
  rewrite Forall_app, length_app. cbn [List.length].
  rewrite Nat2Z.inj_add. change (Z.of_nat 1) with 1.
  split.
  - intros ((F1 & F2) & M & T & L). inversion F2; subst.
    split; [exact F1 |]. split; [assumption |].
    split; [exact M |]. split; [exact T | exact L].
  - intros (F1 & F2 & M & T & L).
    split; [split; [exact F1 | constructor; [exact F2 | constructor]] |].
    split; [exact M |]. split; [exact T | exact L].
Qed.

Lemma bump_last_snoc (success : bool) (front : list Bucket.t) (x : Bucket.t) :
  bump_last success (front ++ [x]) = front ++ [bump_bucket success x].
Proof.
  unfold bump_last. rewrite rev_app_distr. cbn [rev app].
  rewrite rev_involutive. reflexivity.
Qed.

Lemma bump_bucket_startTime (success : bool) (b : Bucket.t) :
  Bucket.startTime (bump_bucket success b) = Bucket.startTime b.
Proof. destruct success; reflexivity. Qed.

Lemma Record_filling (sw : SlidingWindow) (success : bool)
  (B0 t t' now : Time) (r s f : Z) :
  0 < bucketDuration sw ->
  size sw = numBucks sw * bucketDuration sw ->
  B0 mod bucketDuration sw = 0 ->
  now - size sw < B0 ->
  B0 <= Truncate t (bucketDuration sw) ->
  t <= t' -> t' <= now ->
  filling (bucketDuration sw) B0 t (buckets sw) ->
  stands_for (total sw) r s f ->
  size (SlidingWindow_Record sw success t') = size sw
  /\ numBucks (SlidingWindow_Record sw success t') = numBucks sw
  /\ filling (bucketDuration sw) B0 t'
       (buckets (SlidingWindow_Record sw success t'))
  /\ stands_for (total (SlidingWindow_Record sw success t')) (r + 1)
       (if success then s + 1 else s) (if success then f else f + 1).
Proof.
  intros D E M W B0T T T' FL H.
  set (d := bucketDuration sw) in *.
  assert (BM : Truncate t' d mod d = 0) by (apply Truncate_multiple; exact D).
  assert (BL : Truncate t' d <= t') by apply Truncate_le.
  assert (TB : Truncate t d <= Truncate t' d)
    by (apply Truncate_mono; assumption).
  assert (NB : Truncate t' d + d <= B0 + numBucks sw * d).
  { apply multiples_apart; [exact D | exact BM | | lia].
    rewrite Z.mod_add by lia. exact M. }
  pose proof (bump_total_stands_for success (total sw) r s f H) as H'.
  unfold SlidingWindow_Record. cbv zeta.
  rewrite (expire_nothing sw t' B0) by (try lia; apply (proj1 FL)).
  unfold getCurrentBucket. cbv zeta.
  change (size sw ÷ numBucks sw) with d.
  assert (Ebs : buckets sw = rev (rev (buckets sw)))
    by (symmetry; apply rev_involutive).
  revert FL.
  destruct (rev (buckets sw)) as [| last rf]; cbn [rev] in Ebs;
    rewrite Ebs.
  - intros _. cbn [app List.length].
    replace (numBucks sw <? Z.of_nat 1) with false
      by (symmetry; apply Z.ltb_ge; change (Z.of_nat 1) with 1; nia).
    cbn [size numBucks buckets total].
    split; [reflexivity |]. split; [reflexivity |]. split; [| exact H'].
    unfold bump_last. cbn [rev app].
    apply (proj2 (filling_snoc d B0 t' [] _)).
    rewrite bump_bucket_startTime. cbn [Bucket.startTime List.length].
    split; [constructor |]. split; [lia |]. split; [exact BM |].
    split; lia.
  - intros FL. apply filling_snoc in FL as (F1 & F2 & LM & LT & LL).
    destruct (Bucket.startTime last =? Truncate t' d) eqn:C.
    + apply Z.eqb_eq in C.
      cbn [size numBucks buckets total].
      split; [reflexivity |]. split; [reflexivity |]. split; [| exact H'].
      rewrite Ebs, bump_last_snoc. apply filling_snoc.
      rewrite bump_bucket_startTime.
      split; [exact F1 |]. split; [exact F2 |]. split; [exact LM |].
      split; lia.
    + apply Z.eqb_neq in C.
      assert (Far : Bucket.startTime last + d <= Truncate t' d)
        by (apply multiples_apart; [exact D | exact LM | exact BM | lia]).
      rewrite !length_app. cbn [List.length]. rewrite !Nat2Z.inj_add.
      change (Z.of_nat 1) with 1.
      replace (numBucks sw <? Z.of_nat (List.length (rev rf)) + 1 + 1)
        with false by (symmetry; apply Z.ltb_ge; nia).
      cbn [size numBucks buckets total].
      split; [reflexivity |]. split; [reflexivity |]. split; [| exact H'].
      rewrite bump_last_snoc. apply filling_snoc.
      rewrite bump_bucket_startTime. cbn [Bucket.startTime].
      split; [apply Forall_app; split;
              [exact F1 | constructor; [exact F2 | constructor]] |].
      split; [lia |]. split; [exact BM |]. split; [lia |].
      rewrite length_app. cbn [List.length]. rewrite Nat2Z.inj_add.
      change (Z.of_nat 1) with 1. nia.
Qed.

Lemma count_cons (x : bool * Time) (l : list (bool * Time)) :
  count_true (x :: l) = (if fst x then 1 else 0) + count_true l
  /\ count_false (x :: l) = (if fst x then 0 else 1) + count_false l.
Proof.
  unfold count_true, count_false. cbn [filter].
  destruct (fst x); cbn [negb List.length]; rewrite ?Nat2Z.inj_succ; lia.
Qed.

Lemma record_each_filling (l : list (bool * Time)) :
  forall sw B0 t now r s f,
    0 < bucketDuration sw ->
    size sw = numBucks sw * bucketDuration sw ->
    B0 mod bucketDuration sw = 0 ->
    now - size sw < B0 ->
    B0 <= Truncate t (bucketDuration sw) ->
    in_order t l ->
    (forall x, In x l -> snd x <= now) ->
    filling (bucketDuration sw) B0 t (buckets sw) ->
    stands_for (total sw) r s f ->
    size (record_each sw l) = size sw
    /\ Forall (fun b => B0 <= Bucket.startTime b) (buckets (record_each sw l))
    /\ stands_for (total (record_each sw l)) (r + Z.of_nat (List.length l))
         (s + count_true l) (f + count_false l).
Proof.
  induction l as [| x l IH]; intros sw B0 t now r s f D E M W B O N FL H.
  - cbn [record_each fold_left List.length]. unfold count_true, count_false.
    cbn [filter List.length]. change (Z.of_nat 0) with 0. rewrite !Z.add_0_r.
    split; [reflexivity |]. split; [apply FL | exact H].
  - destruct O as [O1 O2].
    assert (X : snd x <= now) by (apply N; left; reflexivity).
    destruct (Record_filling sw (fst x) B0 t (snd x) now r s f
                D E M W B O1 X FL H) as (S1 & N1 & F1 & H1).
    assert (BD : bucketDuration (SlidingWindow_Record sw (fst x) (snd x))
                 = bucketDuration sw)
      by (unfold bucketDuration; rewrite S1, N1; reflexivity).
    unfold record_each. cbn [fold_left].
    fold (record_each (SlidingWindow_Record sw (fst x) (snd x)) l).
    destruct (IH (SlidingWindow_Record sw (fst x) (snd x)) B0 (snd x) now
                (r + 1) (if fst x then s + 1 else s)
                (if fst x then f else f + 1))
      as (S2 & F2 & (R1 & R2 & R3)).
    + rewrite BD. exact D.
    + rewrite BD, S1, N1. exact E.
    + rewrite BD. exact M.
    + rewrite S1. exact W.
    + rewrite BD. etransitivity; [exact B |].
      apply Truncate_mono; [exact D | exact O1].
    + exact O2.
    + intros y I. apply N. right. exact I.
    + rewrite BD. exact F1.
    + exact H1.
    + destruct (count_cons x l) as (C1 & C2).
      split; [congruence |]. split; [exact F2 |].
      unfold stands_for. rewrite R1, R2, R3, C1, C2.
      cbn [List.length]. rewrite Nat2Z.inj_succ.
      destruct (fst x); (split; [f_equal; lia |]); split; f_equal; lia.
Qed.

Lemma GetCounts_in_window (sw : SlidingWindow) (now B0 : Time) :
  now - size sw < B0 ->
  Forall (fun b => B0 <= Bucket.startTime b) (buckets sw) ->
  GetCounts sw now
  = (sw, (windowCounts.requests (total sw), windowCounts.successes (total sw),
          windowCounts.failures (total sw))).
Proof.
  intros W F.
  assert (E : expireReadOnly sw now = sw).
  { apply (GetCounts_nothing_expired sw now).
    destruct (buckets sw) as [| b bs]; [exact I |].
    inversion F; subst. lia. }
  unfold GetCounts. cbv zeta. rewrite E. reflexivity.
Qed.

Lemma recorded_in_window (sz : Duration) (nb : Z) (l : list (bool * Time))
  (t0 now : Time) :
  0 < bucketDuration (NewSlidingWindow sz nb) ->
  size (NewSlidingWindow sz nb)
  = numBucks (NewSlidingWindow sz nb) * bucketDuration (NewSlidingWindow sz nb) ->
  in_order t0 l ->
  (forall x, In x l -> snd x <= now) ->
  now - size (NewSlidingWindow sz nb)
  < Truncate t0 (bucketDuration (NewSlidingWindow sz nb)) ->
  GetCounts (record_each (NewSlidingWindow sz nb) l) now
  = (record_each (NewSlidingWindow sz nb) l,
     (windowCounts.requests (total (record_each (NewSlidingWindow sz nb) l)),
      windowCounts.successes (total (record_each (NewSlidingWindow sz nb) l)),
      windowCounts.failures (total (record_each (NewSlidingWindow sz nb) l))))
  /\ stands_for (total (record_each (NewSlidingWindow sz nb) l))
       (Z.of_nat (List.length l)) (count_true l) (count_false l).
Proof.
  intros D E O N W.
  destruct (record_each_filling l (NewSlidingWindow sz nb)
              (Truncate t0 (bucketDuration (NewSlidingWindow sz nb)))
              t0 now 0 0 0 D E)
    as (S & F & H).
  - apply Truncate_multiple. exact D.
  - exact W.
  - apply Z.le_refl.
  - exact O.
  - exact N.
  - split; [constructor | exact I].
  - split; [reflexivity | split; reflexivity].
  - split; [| exact H].
    apply (GetCounts_in_window _ now
             (Truncate t0 (bucketDuration (NewSlidingWindow sz nb))));
      [rewrite S; exact W | exact F].
Qed.

(** The window counts what was recorded.  When the buckets divide the
    window, records made in the order of their instants, none before an
    instant [t0] whose bucket has not left the window at [now], are all
    counted by a read at [now]: it returns their number, the number of
    successes and the number of failures (as [uint32]), and leaves the
    window as it is. *)
Theorem window_counts_what_was_recorded
  (sz : Duration) (nb : Z) (l : list (bool * Time)) (t0 now : Time) :
  0 < bucketDuration (NewSlidingWindow sz nb) ->
  size (NewSlidingWindow sz nb)
  = numBucks (NewSlidingWindow sz nb) * bucketDuration (NewSlidingWindow sz nb) ->
  in_order t0 l ->
  (forall x, In x l -> snd x <= now) ->
  now - size (NewSlidingWindow sz nb)
  < Truncate t0 (bucketDuration (NewSlidingWindow sz nb)) ->
  GetCounts (record_each (NewSlidingWindow sz nb) l) now
  = (record_each (NewSlidingWindow sz nb) l,
     (u32 (Z.of_nat (List.length l)), u32 (count_true l),
      u32 (count_false l))).
Proof.
  intros D E O N W.
  destruct (recorded_in_window sz nb l t0 now D E O N W)
    as (G & (R1 & R2 & R3)).
  rewrite G, R1, R2, R3. reflexivity.
Qed.

Lemma window_counts_what_was_recorded_witness :
  snd (GetCounts
         (record_each (NewSlidingWindow (10 * Second) 10)
            [(true, 100 * Second); (false, 103 * Second)])
         (105 * Second))
  = (2, 1, 1).
Proof.
  rewrite (window_counts_what_was_recorded (10 * Second) 10
             [(true, 100 * Second); (false, 103 * Second)]
             (100 * Second) (105 * Second)).
  - reflexivity.
  - reflexivity.
  - reflexivity.
  - cbn. split; [discriminate |]. split; [discriminate | exact I].
  - intros x [<- | [<- | []]]; discriminate.
  - reflexivity.
Defined.

(** The predicate of [MakeReadyToTrip] waits for [MinRequests].  In the
    situation above, with fewer records than [MinRequests] the predicate is
    false, whatever the records and the tallies it is given are. *)
Theorem window_predicate_waits_for_MinRequests
  (c : SlidingWindowConfig) (sz : Duration) (nb : Z)
  (l : list (bool * Time)) (t0 now : Time) (counts : Counts) :
  0 < bucketDuration (NewSlidingWindow sz nb) ->
  size (NewSlidingWindow sz nb)
  = numBucks (NewSlidingWindow sz nb) * bucketDuration (NewSlidingWindow sz nb) ->
  in_order t0 l ->
  (forall x, In x l -> snd x <= now) ->
  now - size (NewSlidingWindow sz nb)
  < Truncate t0 (bucketDuration (NewSlidingWindow sz nb)) ->
  Z.of_nat (List.length l) < MinRequests c ->
  MakeReadyToTrip c (record_each (NewSlidingWindow sz nb) l) counts now
  = (record_each (NewSlidingWindow sz nb) l, false).
Proof.
  intros D E O N W Few.
  destruct (recorded_in_window sz nb l t0 now D E O N W)
    as (G & (R1 & _)).
  unfold MakeReadyToTrip. rewrite G, R1.
  replace (u32 (Z.of_nat (List.length l)) <? MinRequests c) with true;
    [reflexivity |].
  symmetry. apply Z.ltb_lt. unfold u32.
  pose proof (Z.mod_le (Z.of_nat (List.length l)) (2 ^ 32)
                (Nat2Z.is_nonneg _) ltac:(lia)).
  lia.
Qed.

Lemma window_predicate_waits_for_MinRequests_witness :
  snd (MakeReadyToTrip DefaultSlidingWindowConfig
         (record_each (NewSlidingWindow (10 * Second) 10)
            [(false, 100 * Second); (false, 103 * Second)])
         (mkCounts 2 0 2 0 2) (105 * Second))
  = false.
Proof.
  rewrite (window_predicate_waits_for_MinRequests DefaultSlidingWindowConfig
             (10 * Second) 10
             [(false, 100 * Second); (false, 103 * Second)]
             (100 * Second) (105 * Second)).
  - reflexivity.
  - reflexivity.
  - reflexivity.
  - cbn. split; [discriminate |]. split; [discriminate | exact I].
  - intros x [<- | [<- | []]]; discriminate.
  - reflexivity.
  - reflexivity.
Defined.

(** ** Reset *)

Lemma expire_frame (sw : SlidingWindow) (now : Time) :
  size (expire sw now) = size sw /\ numBucks (expire sw now) = numBucks sw.
Proof.
  unfold expire. destruct (expire_loop _ _ _). split; reflexivity.
Qed.

Lemma getCurrentBucket_frame (sw : SlidingWindow) (now : Time) :
  size (getCurrentBucket sw now) = size sw
  /\ numBucks (getCurrentBucket sw now) = numBucks sw.
Proof.
  unfold getCurrentBucket. cbv zeta.
  match goal with |- context [if ?c then sw else _] => destruct c end;
    [split; reflexivity |].
  destruct (numBucks sw <? _); [| split; reflexivity].
  destruct (buckets sw ++ _); split; reflexivity.
Qed.

Lemma window_step_frame (sw : SlidingWindow) (op : WindowOp) :
  size (window_step sw op) = size sw
  /\ numBucks (window_step sw op) = numBucks sw.
Proof.
  destruct op as [success now | now |]; cbn [window_step].
  - unfold SlidingWindow_Record. cbv zeta. cbn [size numBucks].
    destruct (getCurrentBucket_frame (expire sw now) now) as (S1 & N1).
    destruct (expire_frame sw now) as (S2 & N2).
    split; congruence.
  - split; reflexivity.
  - split; reflexivity.
Qed.

Lemma window_run_frame (ops : list WindowOp) :
  forall sw,
    size (window_run sw ops) = size sw
    /\ numBucks (window_run sw ops) = numBucks sw.
Proof.
  induction ops as [| op ops IH]; intros sw; [split; reflexivity |].
  cbn [window_run fold_left]. fold (window_run (window_step sw op) ops).
  destruct (IH (window_step sw op)) as (S1 & N1).
  destruct (window_step_frame sw op) as (S2 & N2).
  split; congruence.
Qed.

Lemma GetCounts_empty (sw : SlidingWindow) (now : Time) :
  buckets sw = [] ->
  total sw = windowCounts.mk 0 0 0 ->
  GetCounts sw now = (sw, (0, 0, 0)).
Proof.
  destruct sw as [sz bs n tot]. cbn [buckets total]. intros -> ->.
  reflexivity.
Qed.

(** No threshold is at or below the quotient 0/0 of [float64]. *)
Lemma leb_zero_by_zero (x : float) :
  PrimFloat.leb x (PrimFloat.div (float64_of_uint32 0) (float64_of_uint32 0))
  = false.
Proof.
  rewrite FloatAxioms.leb_spec.
  replace (FloatOps.Prim2SF
             (PrimFloat.div (float64_of_uint32 0) (float64_of_uint32 0)))
    with SpecFloat.S754_nan by (vm_compute; reflexivity).
  unfold SpecFloat.SFleb, SpecFloat.SFcompare.
  destruct (FloatOps.Prim2SF x) as [[|] | [|] | | [|] m e]; reflexivity.
Qed.

(** [Reset] forgets everything.  Whatever calls were made on a window,
    reads included, [Reset] gives the window [NewSlidingWindow] built; a
    read then returns (0, 0, 0) and changes nothing, the failure rate is
    0.0 and the success rate 1.0, and the predicate of [MakeReadyToTrip] is
    false for every configuration, [MinRequests] = 0 included. *)
Theorem Reset_forgets_everything
  (sz : Duration) (nb : Z) (ops : list WindowOp) (now : Time)
  (c : SlidingWindowConfig) (counts : Counts) :
  SlidingWindow_Reset (window_run (NewSlidingWindow sz nb) ops)
  = NewSlidingWindow sz nb
  /\ GetCounts (NewSlidingWindow sz nb) now
     = (NewSlidingWindow sz nb, (0, 0, 0))
  /\ FailureRate (NewSlidingWindow sz nb) now
     = (NewSlidingWindow sz nb, 0%float)
  /\ SuccessRate (NewSlidingWindow sz nb) now
     = (NewSlidingWindow sz nb, 1%float)
  /\ MakeReadyToTrip c (NewSlidingWindow sz nb) counts now
     = (NewSlidingWindow sz nb, false).
Proof.
  assert (G : GetCounts (NewSlidingWindow sz nb) now
              = (NewSlidingWindow sz nb, (0, 0, 0)))
    by (apply GetCounts_empty; reflexivity).
  split; [| split; [exact G | split; [| split]]].
  - destruct (window_run_frame ops (NewSlidingWindow sz nb)) as (S & N).
    unfold SlidingWindow_Reset. rewrite S, N. reflexivity.
  - unfold FailureRate. rewrite G. reflexivity.
  - unfold SuccessRate. rewrite G. reflexivity.
  - unfold MakeReadyToTrip. rewrite G.
    destruct (0 <? MinRequests c); [reflexivity |].
    rewrite leb_zero_by_zero. reflexivity.
Qed.

(** * Calls under a token *)

(** When the work ends before the token fires, [ExecuteWithContext] is
    [Execute]: the same breaker, and the call returns what the work
    returned, or the rejection; a panic of the work is reported as a
    failure in both, and ends the process here. *)
Theorem context_call_is_a_guarded_call
  (cb : CircuitBreaker) (r : WorkResult) (t1 t2 t3 : Time) :
  fst (ExecuteWithContext cb (DoneFirst r) t1 t2 t3)
  = (fst (Execute cb r t1 t2), outcome (snd (Execute cb r t1 t2)))
  /\ (List.length (snd (ExecuteWithContext cb (DoneFirst r) t1 t2 t3)) <= 1)%nat.
Proof.
  unfold ExecuteWithContext, Execute.
  destruct (beforeRequest cb t1) as [[cb1 gen] [e |]].
  - split; [reflexivity | cbn; lia].
  - destruct r as [err | v]; (split; [reflexivity | cbn; lia]).
Qed.

(** When the token fires first and the work left behind does not panic,
    the call is for the breaker a call whose work returned the cause of the
    token: the same breaker as after [Execute] of such a work, the same
    error returned, one completion at most. *)
Theorem fired_token_is_a_failed_call
  (cb : CircuitBreaker) (cause : error) (later : option WorkResult)
  (t1 t2 t3 : Time) :
  (forall v, later <> Some (Panic v)) ->
  fst (ExecuteWithContext cb (CtxFirst cause later) t1 t2 t3)
  = (fst (Execute cb (Return (Some cause)) t1 t2),
     outcome (snd (Execute cb (Return (Some cause)) t1 t2)))
  /\ (List.length (snd (ExecuteWithContext cb (CtxFirst cause later) t1 t2 t3))
      <= 1)%nat.
Proof.
  intros NP. unfold ExecuteWithContext, Execute.
  destruct (beforeRequest cb t1) as [[cb1 gen] [e |]].
  - split; [reflexivity | cbn; lia].
  - destruct later as [[err | v] |].
    + split; [reflexivity | cbn; lia].
    + exfalso. exact (NP v eq_refl).
    + split; [reflexivity | cbn; lia].
Qed.

Lemma fired_token_is_a_failed_call_witness :
  counts (fst (fst (ExecuteWithContext (New "svc" Config_zero 1000)
                      (CtxFirst DeadlineExceeded (Some (Return None)))
                      2000 3000 4000)))
  = mkCounts 1 0 1 0 1.
Proof.
  assert (NP : forall v, Some (Return None) <> Some (Panic v))
    by (intros v; discriminate).
  pose proof (fired_token_is_a_failed_call (New "svc" Config_zero 1000)
                DeadlineExceeded (Some (Return None)) 2000 3000 4000 NP)
    as [E _].
  rewrite E. reflexivity.
Defined.

(** * The slow-call detector over many calls *)

Lemma NewSlowCallDetector_fields (c : SlowCallConfig) :
  SlowCallDuration (config (NewSlowCallDetector c)) = slow_above c
  /\ slowCalls (NewSlowCallDetector c) = 0
  /\ totalCalls (NewSlowCallDetector c) = 0.
Proof.
  unfold NewSlowCallDetector, slow_above. cbv zeta.
  destruct (SlowCallDuration c =? 0);
    cbn [SlowCallDuration SlowCallRateThreshold];
    match goal with |- context [if ?b then _ else _] => destruct b end;
    repeat split.
Qed.

(** The detector counts the calls.  From [NewSlowCallDetector], after fewer
    than 2^32 calls of [Record], [totalCalls] is the number of calls and
    [slowCalls] the number of those strictly above the configured duration
    (5 seconds when the configuration gives 0); between them the tallies
    are in order, the configuration is the one the detector started with,
    and [Reset] gives back the detector [NewSlowCallDetector] built. *)
Theorem detector_counts_the_calls (c : SlowCallConfig) (ds : list Duration) :
  Z.of_nat (List.length ds) < 2 ^ 32 ->
  totalCalls (record_all (NewSlowCallDetector c) ds)
  = Z.of_nat (List.length ds)
  /\ slowCalls (record_all (NewSlowCallDetector c) ds)
     = count_slow (slow_above c) ds
  /\ 0 <= slowCalls (record_all (NewSlowCallDetector c) ds)
       <= totalCalls (record_all (NewSlowCallDetector c) ds)
  /\ SlowCallDetector_Reset (record_all (NewSlowCallDetector c) ds)
     = NewSlowCallDetector c.
Proof.
  intros B.
  destruct (NewSlowCallDetector_fields c) as (D & S0 & T0).
  destruct (record_all_counts ds (NewSlowCallDetector c)) as (C & T & S).
  - rewrite S0, T0. lia.
  - rewrite T0. exact B.
  - rewrite T, S, S0, T0, D, !Z.add_0_l.
    split; [reflexivity |]. split; [reflexivity |]. split.
    + unfold count_slow. split; [apply Nat2Z.is_nonneg |].
      apply Nat2Z.inj_le. apply filter_length_le.
    + unfold SlowCallDetector_Reset. rewrite C.
      unfold NewSlowCallDetector. cbv zeta. reflexivity.
Qed.

Lemma detector_counts_the_calls_witness :
  slowCalls
    (record_all (NewSlowCallDetector (mkSlowCallConfig 0 0%float))
       [6 * Second; 5 * Second; 7 * Second])
  = 2.
Proof.
  assert (B : Z.of_nat (List.length [6 * Second; 5 * Second; 7 * Second])
              < 2 ^ 32) by reflexivity.
  destruct (detector_counts_the_calls (mkSlowCallConfig 0 0%float)
              [6 * Second; 5 * Second; 7 * Second] B) as (_ & S & _).
  rewrite S. reflexivity.
Defined.

(** * The middleware for incoming requests *)

Lemma ServeHTTP_WriteHeader (code : Z) (next : list Middleware.WriterCall)
  (rw : Middleware.responseWriter) :
  Middleware.ServeHTTP (Middleware.CallWriteHeader code :: next) rw
  = Middleware.ServeHTTP next (Middleware.WriteHeader rw code).
Proof. reflexivity. Qed.

Lemma ServeHTTP_Write (next : list Middleware.WriterCall)
  (rw : Middleware.responseWriter) :
  Middleware.ServeHTTP (Middleware.CallWrite :: next) rw
  = Middleware.ServeHTTP next (Middleware.Write rw).
Proof. reflexivity. Qed.

Lemma ServeHTTP_written (next : list Middleware.WriterCall) :
  forall rw,
    Middleware.written rw = true ->
    Middleware.ServeHTTP next rw
    = Middleware.mkResponseWriter
        (Middleware.ResponseWriter rw ++ Middleware.bodies next)
        (Middleware.statusCode rw) true.
Proof.
  induction next as [| c next IH]; intros [w code b] W; cbn in W; subst b.
  - cbn. rewrite app_nil_r. reflexivity.
  - destruct c as [code' |].
    + rewrite ServeHTTP_WriteHeader. unfold Middleware.WriteHeader.
      cbn [Middleware.written]. rewrite IH by reflexivity. reflexivity.
    + rewrite ServeHTTP_Write. unfold Middleware.Write.
      cbn [Middleware.written Middleware.statusCode
           Middleware.ResponseWriter].
      rewrite IH by reflexivity.
      cbn [Middleware.ResponseWriter Middleware.statusCode Middleware.bodies
           flat_map app].
      rewrite <- app_assoc. reflexivity.
Qed.

Lemma ServeHTTP_wrapped (next : list Middleware.WriterCall)
  (w : list Middleware.Sent) :
  Middleware.ServeHTTP next
    (Middleware.mkResponseWriter w Middleware.StatusOK false)
  = Middleware.mkResponseWriter (w ++ Middleware.response next)
      (Middleware.first_status next)
      (match next with [] => false | _ :: _ => true end).
Proof.
  destruct next as [| c next].
  - cbn. rewrite app_nil_r. reflexivity.
  - destruct c as [code |].
    + rewrite ServeHTTP_WriteHeader. unfold Middleware.WriteHeader.
      cbn [Middleware.written Middleware.ResponseWriter].
      rewrite ServeHTTP_written by reflexivity.
      cbn [Middleware.ResponseWriter Middleware.statusCode
           Middleware.response Middleware.first_status Middleware.bodies
           flat_map app].
      rewrite <- app_assoc. reflexivity.
    + rewrite ServeHTTP_Write. unfold Middleware.Write, Middleware.WriteHeader.
      cbn [Middleware.written Middleware.ResponseWriter
           Middleware.statusCode].
      rewrite ServeHTTP_written by reflexivity.
      cbn [Middleware.ResponseWriter Middleware.statusCode
           Middleware.response Middleware.first_status Middleware.bodies
           flat_map app].
      rewrite <- !app_assoc. reflexivity.
Qed.

(** The first status wins.  Whatever calls a handler makes on the writer
    [Wrap] gives it, the status kept for the breaker is the one of the
    first call ([StatusOK] when that call is a [Write]), the writer of the
    request receives that status once, before any body, and nothing at all
    when the handler makes no call. *)
Theorem response_writer_first_status_wins
  (next : list Middleware.WriterCall) (w : list Middleware.Sent) :
  Middleware.statusCode
    (Middleware.ServeHTTP next
       (Middleware.mkResponseWriter w Middleware.StatusOK false))
  = Middleware.first_status next
  /\ Middleware.ResponseWriter
       (Middleware.ServeHTTP next
          (Middleware.mkResponseWriter w Middleware.StatusOK false))
     = w ++ Middleware.response next
  /\ (forall code more,
         Middleware.statusCode
           (Middleware.ServeHTTP (Middleware.CallWriteHeader code :: more)
              (Middleware.mkResponseWriter w Middleware.StatusOK false))
         = code)
  /\ (forall more,
         Middleware.statusCode
           (Middleware.ServeHTTP (Middleware.CallWrite :: more)
              (Middleware.mkResponseWriter w Middleware.StatusOK false))
         = Middleware.StatusOK).
Proof.
  split; [| split; [| split]]; intros; rewrite ServeHTTP_wrapped; reflexivity.
Qed.

(** A full Half-Open breaker gets no answer from [Wrap].  When the breaker
    is Half-Open with its probes all admitted, [Wrap] runs neither the
    handler nor [OnCircuitOpen]: the breaker is left as it is and the
    writer of the request receives nothing. *)
Theorem Wrap_answers_nothing_when_probes_are_out
  (StatusText : Z -> string) (m : Middleware.HTTPMiddleware)
  (cb : CircuitBreaker) (next : list Middleware.WriterCall)
  (w : list Middleware.Sent) (t0 t1 t2 : Time) :
  state cb = StateHalfOpen ->
  maxRequests cb <= Requests (counts cb) ->
  Middleware.Wrap StatusText m cb next w t0 t1 t2 = (cb, w).
Proof.
  intros H M. unfold Middleware.Wrap, Breaker.State.
  rewrite currentState_settled by (left; exact H).
  rewrite H. cbn [State_eqb]. cbv zeta. unfold Execute.
  rewrite (beforeRequest_half_open_full cb t1 H M). reflexivity.
Qed.

Lemma Wrap_answers_nothing_when_probes_are_out_witness :
  state probe_in_flight = StateHalfOpen
  /\ Middleware.Wrap (fun _ : Z => "Internal Server Error"%string)
       (Middleware.NewHTTPMiddleware
          (Middleware.mkHTTPMiddlewareConfig None None))
       probe_in_flight
       [Middleware.CallWriteHeader 500; Middleware.CallWrite] []
       3000 3000 4000
     = (probe_in_flight, []).
Proof.
  assert (H : state probe_in_flight = StateHalfOpen) by reflexivity.
  assert (M : maxRequests probe_in_flight <= Requests (counts probe_in_flight))
    by (vm_compute; discriminate).
  split; [exact H |].
  exact (Wrap_answers_nothing_when_probes_are_out _ _ _ _ _ _ _ _ H M).
Defined.



(** * The client interceptor *)



(** The client interceptor turns the rejections of the breaker into
    statuses: a refused call returns Unavailable in Open and
    ResourceExhausted in Half-Open, with the breaker left as it was and the
    invoker not run. *)
Theorem client_interceptor_translates_rejections
  (statusError : Interceptors.Code -> string -> error)
  (FromError : error -> option Interceptors.Code)
  (IsSuccessful : option (option error -> bool))
  (cb : CircuitBreaker) (invoked : WorkResult) (t1 t2 : Time) :
  (state cb = StateOpen /\ t1 <= expiry cb)
  \/ (state cb = StateHalfOpen /\ maxRequests cb <= Requests (counts cb)) ->
  Interceptors.UnaryClientInterceptor statusError FromError IsSuccessful cb
    invoked t1 t2
  = (cb,
     Return
       (Some
          match state cb with
          | StateOpen =>
              statusError Interceptors.Unavailable "circuit breaker is open"%string
          | _ =>
              statusError Interceptors.ResourceExhausted "too many requests"%string
          end)).
Proof.
  intros R. unfold Interceptors.UnaryClientInterceptor, Execute. cbv zeta.
  destruct R as [[S E] | [S M]].
  - rewrite (beforeRequest_open_waiting cb t1 S E), S. reflexivity.
  - rewrite (beforeRequest_half_open_full cb t1 S M), S. reflexivity.
Qed.

Lemma client_interceptor_translates_rejections_witness :
  Interceptors.UnaryClientInterceptor test_statusError test_FromError None
    probe_in_flight (Return None) 3000 4000
  = (probe_in_flight, Return (Some (Custom "too many requests"))).
Proof.
  assert (S : state probe_in_flight = StateHalfOpen) by reflexivity.
  assert (M : maxRequests probe_in_flight <= Requests (counts probe_in_flight))
    by (vm_compute; discriminate).
  rewrite (client_interceptor_translates_rejections test_statusError
             test_FromError None probe_in_flight (Return None) 3000 4000
             (or_intror (conj S M))).
  reflexivity.
Defined.
